(** * FCPR: the angle search of [equation4tensor.py]

    A shallow embedding of [your_function], [another_function],
    [find_angles] and [main] of [equation4tensor.py], and the properties
    of the search they implement.  A Python [float] is an IEEE double; the
    development models it in two layers.

    The first layer, below, carries a float as a finite value given by an
    exact real number, or as one of the three special values [+inf],
    [-inf], [nan]; arithmetic on finite values is the exact real
    operation.  It serves the properties that rest on the structure of the
    two loops, on the propagation of the special values and on the order
    of the comparisons: the search domain, the soundness of a returned
    pair, the monotonicity in the tolerance.  What it has of the Python
    semantics:
    - the special values and their propagation through [+ - * / ** abs <];
    - [x / y] raises [ZeroDivisionError] when [y] is zero, whatever [x] is;
    - [math.sin] and [math.cos] raise [ValueError] on an infinite argument;
    - operands are evaluated left to right and the first exception wins.

    The second layer, module [Py], is double precision itself: rounding,
    overflow (with the [OverflowError] of [**]) and underflow included.
    Every property that depends on the value of an arithmetic operation is
    stated in that layer. *)

From Stdlib Require Import Reals Lra Lia ZArith List Bool Floats Uint63.
Import ListNotations.

Local Open Scope R_scope.

Inductive exn : Type :=
| ValueError
| ZeroDivisionError.

Inductive result (A : Type) : Type :=
| Ok (a : A)
| Raise (e : exn).

Arguments Ok {A} a.
Arguments Raise {A} e.

Definition bind {A B : Type} (m : result A) (k : A -> result B) : result B :=
  match m with
  | Ok a => k a
  | Raise e => Raise e
  end.

Notation "x <- m ;; k" := (bind m (fun x => k))
  (at level 61, m at next level, right associativity).

(** ** Python floats *)

Inductive pyfloat : Type :=
| Fin (x : R)
| PInf
| NInf
| NaN.

Definition Rltb (x y : R) : bool := if Rlt_dec x y then true else false.

Definition is_finite (a : pyfloat) : bool :=
  match a with
  | Fin _ => true
  | _ => false
  end.

(** The product of an infinity ([pos] tells its sign) and a finite [x]. *)
Definition inf_times (pos : bool) (x : R) : pyfloat :=
  if Rlt_dec 0 x then (if pos then PInf else NInf)
  else if Rlt_dec x 0 then (if pos then NInf else PInf)
  else NaN.

Definition pyneg (a : pyfloat) : pyfloat :=
  match a with
  | Fin x => Fin (- x)
  | PInf => NInf
  | NInf => PInf
  | NaN => NaN
  end.

Definition pyadd (a b : pyfloat) : pyfloat :=
  match a, b with
  | Fin x, Fin y => Fin (x + y)
  | NaN, _ | _, NaN => NaN
  | PInf, NInf | NInf, PInf => NaN
  | PInf, _ | _, PInf => PInf
  | NInf, _ | _, NInf => NInf
  end.

Definition pysub (a b : pyfloat) : pyfloat :=
  match a, b with
  | Fin x, Fin y => Fin (x - y)
  | _, _ => pyadd a (pyneg b)
  end.

Definition pymul (a b : pyfloat) : pyfloat :=
  match a, b with
  | Fin x, Fin y => Fin (x * y)
  | NaN, _ | _, NaN => NaN
  | PInf, Fin y | Fin y, PInf => inf_times true y
  | NInf, Fin y | Fin y, NInf => inf_times false y
  | PInf, PInf | NInf, NInf => PInf
  | PInf, NInf | NInf, PInf => NInf
  end.

(** [a / b]: the divisor is tested first, so [nan / 0.0] raises too. *)
Definition pydiv (a b : pyfloat) : result pyfloat :=
  match b with
  | Fin y =>
      if Req_dec_T y 0 then Raise ZeroDivisionError
      else match a with
           | Fin x => Ok (Fin (x / y))
           | PInf => Ok (inf_times true y)
           | NInf => Ok (inf_times false y)
           | NaN => Ok NaN
           end
  | PInf | NInf =>
      match a with
      | Fin _ => Ok (Fin 0)
      | _ => Ok NaN
      end
  | NaN => Ok NaN
  end.

(** [a ** 2]. *)
Definition pysq (a : pyfloat) : pyfloat :=
  match a with
  | Fin x => Fin (x ^ 2)
  | PInf | NInf => PInf
  | NaN => NaN
  end.

(** [abs(a)]. *)
Definition pyabs (a : pyfloat) : pyfloat :=
  match a with
  | Fin x => Fin (Rabs x)
  | PInf | NInf => PInf
  | NaN => NaN
  end.

(** [a < b]: every comparison with [nan] is [False]. *)
Definition pylt (a b : pyfloat) : bool :=
  match a, b with
  | Fin x, Fin y => Rltb x y
  | NaN, _ | _, NaN => false
  | _, NInf => false
  | PInf, _ => false
  | NInf, _ => true
  | Fin _, PInf => true
  end.

(** ** Expressions that may raise

    A Python expression denotes a computation [comp]; a variable or a
    literal is a computation that returns at once ([val], a coercion).
    The binary operators evaluate their left operand first. *)

Definition comp : Type := result pyfloat.

Definition val (a : pyfloat) : comp := Ok a.

Coercion val : pyfloat >-> comp.

Definition lift2 (op : pyfloat -> pyfloat -> pyfloat) (a b : comp) : comp :=
  x <- a ;; y <- b ;; Ok (op x y).

Definition truediv (a b : comp) : comp :=
  x <- a ;; y <- b ;; pydiv x y.

Definition power2 (a : comp) : comp :=
  x <- a ;; Ok (pysq x).

Declare Scope py_scope.
Delimit Scope py_scope with py.
Bind Scope py_scope with comp.

Notation "a + b" := (lift2 pyadd a b) : py_scope.
Notation "a - b" := (lift2 pysub a b) : py_scope.
Notation "a * b" := (lift2 pymul a b) : py_scope.
Notation "a / b" := (truediv a b) : py_scope.
#[warnings="-postfix-notation-not-level-1"] Notation "a **2" := (power2 a) (at level 29, left associativity) : py_scope.

(** [math.sin], [math.cos], [math.pi]. *)
Definition math_sin (a : pyfloat) : comp :=
  match a with
  | Fin x => Ok (Fin (sin x))
  | NaN => Ok NaN
  | PInf | NInf => Raise ValueError
  end.

Definition math_cos (a : pyfloat) : comp :=
  match a with
  | Fin x => Ok (Fin (cos x))
  | NaN => Ok NaN
  | PInf | NInf => Raise ValueError
  end.

Definition math_pi : pyfloat := Fin PI.

(** An [int] operand of a float operation is converted to a float. *)
Definition of_int (n : Z) : pyfloat := Fin (IZR n).

(** ** The two ratio functions *)

Definition your_function (theta chi r1 r2 : pyfloat) : comp :=
  (numerator <-
     of_int 4 * (
       math_sin theta **2 * (r1 * math_cos chi **2 + r2 * math_sin chi **2) +
       math_cos theta **2
     ) **2 ;;
   denominator <-
     (
       math_cos theta **2 * (r1 * math_cos chi **2 + r2 * math_sin chi **2) +
       (r1 * math_sin chi **2 + r2 * math_cos chi **2) +
       math_sin theta **2
     ) **2 ;;
   numerator / denominator)%py.

Definition another_function (theta chi r1 r2 : pyfloat) : comp :=
  (numerator <-
     of_int 2 * (
       math_sin theta **2 * math_cos theta **2 *
         (r1 * math_cos chi **2 + r2 * math_sin chi **2 - of_int 1) **2 +
       math_sin theta **2 * math_sin chi **2 * math_cos chi **2 * (r1 - r2) **2
     ) ;;
   denominator <-
     (
       math_cos theta **2 * (r1 * math_cos chi **2 + r2 * math_sin chi **2) +
       (r1 * math_sin chi **2 + r2 * math_cos chi **2) +
       math_sin theta **2
     ) **2 ;;
   numerator / denominator)%py.

(** ** The search *)

(** [range(start, stop, 1)]. *)
Fixpoint range_from (start : Z) (n : nat) : list Z :=
  match n with
  | O => []
  | S n' => start :: range_from (start + 1) n'
  end.

Definition range (start stop : Z) : list Z :=
  range_from start (Z.to_nat (stop - start)).

(** A [for] loop whose body may [return] a value ([Some v]), fall through
    to the next iteration ([None]) or raise.  The loop yields [None] when
    it runs off the end of the sequence. *)
Fixpoint for_each {A T : Type} (xs : list A) (body : A -> result (option T))
  : result (option T) :=
  match xs with
  | [] => Ok None
  | x :: xs' =>
      r <- body x ;;
      match r with
      | Some v => Ok (Some v)
      | None => for_each xs' body
      end
  end.

Definition default_tolerance : pyfloat := Fin (5 / 100).

(** [find_angles]: [Ok (Some (theta, chi))] is the returned tuple (in
    degrees), [Ok None] is Python's [None], [Raise e] an exception that
    leaves the function. *)
Definition find_angles (r1 r2 target1 target2 tolerance : pyfloat)
  : result (option (pyfloat * pyfloat)) :=
  for_each (range 0 721) (fun i =>
    for_each (range 0 721) (fun j =>
      theta_value <- (of_int i / of_int 360 * math_pi)%py ;;
      chi_value <- (of_int j / of_int 360 * math_pi)%py ;;
      func1 <- (your_function theta_value chi_value r1 r2 - target1)%py ;;
      func2 <- (another_function theta_value chi_value r1 r2 - target2)%py ;;
      if pylt (pyabs func1) tolerance && pylt (pyabs func2) tolerance
      then (a <- (of_int i / of_int 2)%py ;;
            b <- (of_int j / of_int 2)%py ;;
            Ok (Some (a, b)))
      else Ok None)).

(** * Notions used by the properties *)

(** ** The evaluators at finite angles

    At finite angles the trigonometric calls succeed, so each evaluator is
    one division: a numerator over the square of the shared expression
    [D_at], which is the source's denominator before [** 2]. *)

Definition A_at (chi : R) (r1 r2 : pyfloat) : pyfloat :=
  pyadd (pymul r1 (Fin (cos chi ^ 2))) (pymul r2 (Fin (sin chi ^ 2))).

Definition D_at (theta chi : R) (r1 r2 : pyfloat) : pyfloat :=
  pyadd
    (pyadd (pymul (Fin (cos theta ^ 2)) (A_at chi r1 r2))
           (pyadd (pymul r1 (Fin (sin chi ^ 2))) (pymul r2 (Fin (cos chi ^ 2)))))
    (Fin (sin theta ^ 2)).

Definition N1_at (theta chi : R) (r1 r2 : pyfloat) : pyfloat :=
  pymul (of_int 4)
    (pysq (pyadd (pymul (Fin (sin theta ^ 2)) (A_at chi r1 r2))
                 (Fin (cos theta ^ 2)))).

Definition N2_at (theta chi : R) (r1 r2 : pyfloat) : pyfloat :=
  pymul (of_int 2)
    (pyadd
       (pymul (pymul (Fin (sin theta ^ 2)) (Fin (cos theta ^ 2)))
              (pysq (pysub (A_at chi r1 r2) (of_int 1))))
       (pymul (pymul (pymul (Fin (sin theta ^ 2)) (Fin (sin chi ^ 2)))
                     (Fin (cos chi ^ 2)))
              (pysq (pysub r1 r2)))).

(** ** Grid points *)

(** The angle of step [i], in radians and in degrees. *)
Definition angle_of (i : Z) : R := IZR i / 360 * PI.

Definition degrees_of (i : Z) : pyfloat := Fin (IZR i / 2).

Definition in_grid (i j : Z) : Prop := (0 <= i <= 720 /\ 0 <= j <= 720)%Z.

(** [(i', j')] is visited before [(i, j)]: theta-major order. *)
Definition scanned_before (i' j' i j : Z) : Prop :=
  (i' < i \/ (i' = i /\ j' < j))%Z.

(** [abs(v - target) < tolerance]. *)
Definition within (v target tolerance : pyfloat) : bool :=
  pylt (pyabs (pysub v target)) tolerance.

(** The match condition at a grid point: both evaluators return and both
    residuals are below the tolerance. *)
Definition matches (r1 r2 target1 target2 tolerance : pyfloat) (i j : Z) : Prop :=
  exists v1 v2,
    your_function (Fin (angle_of i)) (Fin (angle_of j)) r1 r2 = Ok v1 /\
    another_function (Fin (angle_of i)) (Fin (angle_of j)) r1 r2 = Ok v2 /\
    within v1 target1 tolerance = true /\
    within v2 target2 tolerance = true.

(** The shared denominator is zero at a grid point. *)
Definition degenerate (r1 r2 : pyfloat) (i j : Z) : Prop :=
  D_at (angle_of i) (angle_of j) r1 r2 = Fin 0.

(** The body of the inner loop of [find_angles]. *)
Definition scan_body (r1 r2 target1 target2 tolerance : pyfloat) (i j : Z)
  : result (option (pyfloat * pyfloat)) :=
  theta_value <- (of_int i / of_int 360 * math_pi)%py ;;
  chi_value <- (of_int j / of_int 360 * math_pi)%py ;;
  func1 <- (your_function theta_value chi_value r1 r2 - target1)%py ;;
  func2 <- (another_function theta_value chi_value r1 r2 - target2)%py ;;
  if pylt (pyabs func1) tolerance && pylt (pyabs func2) tolerance
  then (a <- (of_int i / of_int 2)%py ;;
        b <- (of_int j / of_int 2)%py ;;
        Ok (Some (a, b)))
  else Ok None.

(** ** The closed forms of the specification

    [D_spec], [f1_spec] and [f2_spec] are the formulas as the
    specification writes them, over the reals. *)

Definition D_spec (theta chi r1 r2 : R) : R :=
  cos theta ^ 2 * (r1 * cos chi ^ 2 + r2 * sin chi ^ 2) +
  (r1 * sin chi ^ 2 + r2 * cos chi ^ 2) +
  sin theta ^ 2.

Definition f1_spec (theta chi r1 r2 : R) : R :=
  4 * (sin theta ^ 2 * (r1 * cos chi ^ 2 + r2 * sin chi ^ 2) + cos theta ^ 2) ^ 2
  / D_spec theta chi r1 r2 ^ 2.

Definition f2_spec (theta chi r1 r2 : R) : R :=
  2 * (sin theta ^ 2 * cos theta ^ 2 * (r1 * cos chi ^ 2 + r2 * sin chi ^ 2 - 1) ^ 2 +
       sin theta ^ 2 * sin chi ^ 2 * cos chi ^ 2 * (r1 - r2) ^ 2)
  / D_spec theta chi r1 r2 ^ 2.

(** A value that is not below zero: a finite one that is nonnegative,
    [+inf], or [nan]. *)
Definition not_negative (v : pyfloat) : Prop :=
  match v with
  | Fin x => 0 <= x
  | NInf => False
  | PInf | NaN => True
  end.

(** The grid points in the order the two loops visit them. *)
Definition scan_grid : list (Z * Z) :=
  flat_map (fun i => map (pair i) (range 0 721)) (range 0 721).

(** * The double-precision model

    Module [Py] models the same three functions, and [main], on IEEE
    binary64 numbers ([PrimFloat.float]): [+ - * /], [abs] and [<] are the
    processor operations, rounding, overflow to an infinity and underflow
    included.  The parameters, targets and tolerance are floats, as [main]
    passes them.

    What the platform's C library computes ([sin], [cos], and the [pow]
    behind [** 2]) is a parameter [libm] of the model: a property holds
    for every library, or names what it assumes of it.  Python's own part
    is modelled as CPython implements it:
    - [x / y] raises [ZeroDivisionError] when [y == 0.0], else divides;
    - [math.sin] and [math.cos] raise [ValueError] when the library
      answers nan for an argument that is not nan, or an infinity for a
      finite argument;
    - [x ** 2] is [x] for nan, [inf] for an infinity, [0.0] for a zero
      and [1.0] for [+-1.0] without calling the library; otherwise it is
      [pow(|x|, 2.0)], and an infinite answer raises [OverflowError].  An
      answer that underflows, to a subnormal or to zero, is returned. *)

Module Py.

Inductive exn : Type :=
| ValueError
| ZeroDivisionError
| OverflowError.

Inductive result (A : Type) : Type :=
| Ok (a : A)
| Raise (e : exn).

Arguments Ok {A} a.
Arguments Raise {A} e.

Definition bind {A B : Type} (m : result A) (k : A -> result B) : result B :=
  match m with
  | Ok a => k a
  | Raise e => Raise e
  end.

#[warnings="-notation-overridden"] Notation "x <- m ;; k" := (bind m (fun x => k))
  (at level 61, m at next level, right associativity).

(** The C library. *)
Record libm : Type := {
  l_sin : float -> float;
  l_cos : float -> float;
  l_pow : float -> float -> float
}.

Definition comp : Type := result float.

Definition val (a : float) : comp := Ok a.

Coercion val : float >-> comp.

(** [a / b] on floats. *)
Definition pydiv (a b : float) : comp :=
  if (b =? 0)%float then Raise ZeroDivisionError else Ok (a / b)%float.

Definition lift2 (op : float -> float -> float) (a b : comp) : comp :=
  x <- a ;; y <- b ;; Ok (op x y).

Definition truediv (a b : comp) : comp :=
  x <- a ;; y <- b ;; pydiv x y.

(** An [int] operand of a float operation; the program's ints are the
    literals and the loop indices 0 .. 720. *)
Definition of_int (n : Z) : float := of_uint63 (Uint63.of_Z n).

Definition math_pi : float := 0x1.921fb54442d18p+1%float.

(** The wrapper of the one-argument functions of the [math] module. *)
Definition math_1 (func : float -> float) (x : float) : comp :=
  let r := func x in
  if PrimFloat.is_nan r && negb (PrimFloat.is_nan x) then Raise ValueError
  else if PrimFloat.is_infinity r && PrimFloat.is_finite x then Raise ValueError
  else Ok r.

(** [x ** 2]: the float power with the exponent [2.0]. *)
Definition float_pow2 (pow : float -> float -> float) (x : float) : comp :=
  if PrimFloat.is_nan x then Ok x
  else if PrimFloat.is_infinity x then Ok (abs x)
  else if (x =? 0)%float then Ok 0%float
  else
    let iv := if (x <? 0)%float then (- x)%float else x in
    if (iv =? 1)%float then Ok 1%float
    else
      let ix := pow iv 2%float in
      if PrimFloat.is_infinity ix then Raise OverflowError else Ok ix.

Declare Scope pyf_scope.
Delimit Scope pyf_scope with pyf.
Bind Scope pyf_scope with comp.

Notation "a + b" := (lift2 PrimFloat.add a b) : pyf_scope.
Notation "a - b" := (lift2 PrimFloat.sub a b) : pyf_scope.
Notation "a * b" := (lift2 PrimFloat.mul a b) : pyf_scope.
Notation "a / b" := (truediv a b) : pyf_scope.

Section Program.
Variable m : libm.

Definition math_sin : float -> comp := math_1 (l_sin m).

Definition math_cos : float -> comp := math_1 (l_cos m).

Definition power2 (a : comp) : comp := x <- a ;; float_pow2 (l_pow m) x.

#[warnings="-postfix-notation-not-level-1,-notation-overridden"] Notation "a **2" := (power2 a) (at level 29, left associativity) : pyf_scope.

Definition your_function (theta chi r1 r2 : float) : comp :=
  (numerator <-
     of_int 4 * (
       math_sin theta **2 * (r1 * math_cos chi **2 + r2 * math_sin chi **2) +
       math_cos theta **2
     ) **2 ;;
   denominator <-
     (
       math_cos theta **2 * (r1 * math_cos chi **2 + r2 * math_sin chi **2) +
       (r1 * math_sin chi **2 + r2 * math_cos chi **2) +
       math_sin theta **2
     ) **2 ;;
   numerator / denominator)%pyf.

Definition another_function (theta chi r1 r2 : float) : comp :=
  (numerator <-
     of_int 2 * (
       math_sin theta **2 * math_cos theta **2 *
         (r1 * math_cos chi **2 + r2 * math_sin chi **2 - of_int 1) **2 +
       math_sin theta **2 * math_sin chi **2 * math_cos chi **2 * (r1 - r2) **2
     ) ;;
   denominator <-
     (
       math_cos theta **2 * (r1 * math_cos chi **2 + r2 * math_sin chi **2) +
       (r1 * math_sin chi **2 + r2 * math_cos chi **2) +
       math_sin theta **2
     ) **2 ;;
   numerator / denominator)%pyf.

(** The loops are those of the model above, over this [result]. *)
Fixpoint for_each {A T : Type} (xs : list A) (body : A -> result (option T))
  : result (option T) :=
  match xs with
  | [] => Ok None
  | x :: xs' =>
      r <- body x ;;
      match r with
      | Some v => Ok (Some v)
      | None => for_each xs' body
      end
  end.

Definition find_angles (r1 r2 target1 target2 tolerance : float)
  : result (option (float * float)) :=
  for_each (range 0 721) (fun i =>
    for_each (range 0 721) (fun j =>
      theta_value <- (of_int i / of_int 360 * math_pi)%pyf ;;
      chi_value <- (of_int j / of_int 360 * math_pi)%pyf ;;
      func1 <- (your_function theta_value chi_value r1 r2 - target1)%pyf ;;
      func2 <- (another_function theta_value chi_value r1 r2 - target2)%pyf ;;
      if (abs func1 <? tolerance)%float && (abs func2 <? tolerance)%float
      then (a <- (of_int i / of_int 2)%pyf ;;
            b <- (of_int j / of_int 2)%pyf ;;
            Ok (Some (a, b)))
      else Ok None)).

(** The default of [tolerance]: the double nearest to 0.05. *)
Definition default_tolerance : float := 0x1.999999999999ap-5%float.

(** [main] from the point where [parse_args] has returned: the parsed
    arguments are its input ([tolerance] already holds its default when
    the option was absent).  What [print] writes is recorded as a list of
    lines; a line keeps the values it shows, not their decimal rendering.
    An exception leaves [main] with the lines printed so far. *)

Record arguments : Type := {
  arg_r1 : float;
  arg_r2 : float;
  arg_target1 : float;
  arg_target2 : float;
  arg_tolerance : float
}.

Inductive line : Type :=
| SearchingLine
| ParametersLine (r1 r2 : float)
| TargetsLine (target1 target2 : float)
| ToleranceLine (tolerance : float)
| WaitLine
| NoSolutionsLine
| FoundLine
| ThetaLine (theta : float)
| ChiLine (chi : float)
| ValuesLine
| F1Line (f1 : float)
| F2Line (f2 : float).

Definition io (A : Type) : Type := list line -> list line * result A.

Definition io_ret {A : Type} (a : A) : io A := fun out => (out, Ok a).

Definition io_bind {A B : Type} (c : io A) (k : A -> io B) : io B :=
  fun out =>
    match c out with
    | (out', Ok a) => k a out'
    | (out', Raise e) => (out', Raise e)
    end.

Definition print (l : line) : io unit := fun out => (out ++ [l], Ok tt).

Definition eval {A : Type} (c : result A) : io A := fun out => (out, c).

Notation "x <-- c ;;; k" := (io_bind c (fun x => k))
  (at level 61, c at next level, right associativity).
Notation "c ;;; k" := (io_bind c (fun _ => k))
  (at level 61, right associativity).

Definition main (args : arguments) : io Z :=
  print SearchingLine ;;;
  print (ParametersLine (arg_r1 args) (arg_r2 args)) ;;;
  print (TargetsLine (arg_target1 args) (arg_target2 args)) ;;;
  print (ToleranceLine (arg_tolerance args)) ;;;
  print WaitLine ;;;
  result <-- eval (find_angles (arg_r1 args) (arg_r2 args) (arg_target1 args)
                     (arg_target2 args) (arg_tolerance args)) ;;;
  match result with
  | None =>
      print NoSolutionsLine ;;;
      io_ret 1%Z
  | Some (theta, chi) =>
      theta_rad <-- eval (theta * math_pi / of_int 180)%pyf ;;;
      chi_rad <-- eval (chi * math_pi / of_int 180)%pyf ;;;
      print FoundLine ;;;
      print (ThetaLine theta) ;;;
      print (ChiLine chi) ;;;
      print ValuesLine ;;;
      f1 <-- eval (your_function theta_rad chi_rad (arg_r1 args) (arg_r2 args)) ;;;
      print (F1Line f1) ;;;
      f2 <-- eval (another_function theta_rad chi_rad (arg_r1 args) (arg_r2 args)) ;;;
      print (F2Line f2) ;;;
      io_ret 0%Z
  end.

(** ** Notions used by the properties *)

(** The five lines [main] prints before the search. *)
Definition banner (args : arguments) : list line :=
  [ SearchingLine;
    ParametersLine (arg_r1 args) (arg_r2 args);
    TargetsLine (arg_target1 args) (arg_target2 args);
    ToleranceLine (arg_tolerance args);
    WaitLine ].

(** The angle of step [i] as the loop computes it, and the degrees it
    returns. *)
Definition angle_of (i : Z) : float := (of_int i / of_int 360 * math_pi)%float.

Definition degrees_of (i : Z) : float := (of_int i / of_int 2)%float.

(** The radians [main] computes back from returned degrees. *)
Definition radians (degrees : float) : float :=
  (degrees * math_pi / of_int 180)%float.

(** Step [i] comes back from its degrees at another angle than the one
    the search evaluated. *)
Definition roundtrip_differs (i : Z) : bool :=
  negb (PrimFloat.Leibniz.eqb (radians (degrees_of i)) (angle_of i)).

(** [abs(v - target) < tolerance]. *)
Definition within (v target tolerance : float) : bool :=
  (abs (v - target) <? tolerance)%float.

(** The two parts of each evaluator, and the denominator both share. *)
Definition numerator1 (theta chi r1 r2 : float) : comp :=
  (of_int 4 * (
     math_sin theta **2 * (r1 * math_cos chi **2 + r2 * math_sin chi **2) +
     math_cos theta **2
   ) **2)%pyf.

Definition numerator2 (theta chi r1 r2 : float) : comp :=
  (of_int 2 * (
     math_sin theta **2 * math_cos theta **2 *
       (r1 * math_cos chi **2 + r2 * math_sin chi **2 - of_int 1) **2 +
     math_sin theta **2 * math_sin chi **2 * math_cos chi **2 * (r1 - r2) **2
   ))%pyf.

Definition denominator (theta chi r1 r2 : float) : comp :=
  ((
     math_cos theta **2 * (r1 * math_cos chi **2 + r2 * math_sin chi **2) +
     (r1 * math_sin chi **2 + r2 * math_cos chi **2) +
     math_sin theta **2
   ) **2)%pyf.

(** The match condition at a grid point: both evaluators return and both
    residuals are below the tolerance. *)
Definition matches (r1 r2 target1 target2 tolerance : float) (i j : Z) : Prop :=
  exists v1 v2,
    your_function (angle_of i) (angle_of j) r1 r2 = Ok v1 /\
    another_function (angle_of i) (angle_of j) r1 r2 = Ok v2 /\
    within v1 target1 tolerance = true /\
    within v2 target2 tolerance = true.

(** An evaluator raises [e] at a grid point: the first one, or the second
    one after the first has returned. *)
Definition raises_at (r1 r2 : float) (i j : Z) (e : exn) : Prop :=
  your_function (angle_of i) (angle_of j) r1 r2 = Raise e \/
  ((exists v1, your_function (angle_of i) (angle_of j) r1 r2 = Ok v1) /\
   another_function (angle_of i) (angle_of j) r1 r2 = Raise e).

(** The divisor of the evaluators, the rounded [D ** 2], is zero at a
    grid point. *)
Definition zero_divisor (r1 r2 : float) (i j : Z) : Prop :=
  exists d, denominator (angle_of i) (angle_of j) r1 r2 = Ok d /\
            (d =? 0)%float = true.

(** The body of the inner loop of [find_angles]. *)
Definition scan_body (r1 r2 target1 target2 tolerance : float) (i j : Z)
  : result (option (float * float)) :=
  theta_value <- (of_int i / of_int 360 * math_pi)%pyf ;;
  chi_value <- (of_int j / of_int 360 * math_pi)%pyf ;;
  func1 <- (your_function theta_value chi_value r1 r2 - target1)%pyf ;;
  func2 <- (another_function theta_value chi_value r1 r2 - target2)%pyf ;;
  if (abs func1 <? tolerance)%float && (abs func2 <? tolerance)%float
  then (a <- (of_int i / of_int 2)%pyf ;;
        b <- (of_int j / of_int 2)%pyf ;;
        Ok (Some (a, b)))
  else Ok None.

(** ** A decision procedure for concrete runs

    Whether the scan falls through at every grid point before [(i, j)].
    The four squares [sin(theta) ** 2], [cos(theta) ** 2], [sin(chi) ** 2],
    [cos(chi) ** 2] that the evaluators recompute at each use are computed
    once per step of an axis here; the evaluators from these squares are
    [your_function_from] and [another_function_from]. *)

Definition your_function_from (s2t c2t s2c c2c r1 r2 : float) : comp :=
  (numerator <-
     of_int 4 * (s2t * (r1 * c2c + r2 * s2c) + c2t) **2 ;;
   denominator <-
     (c2t * (r1 * c2c + r2 * s2c) + (r1 * s2c + r2 * c2c) + s2t) **2 ;;
   numerator / denominator)%pyf.

Definition another_function_from (s2t c2t s2c c2c r1 r2 : float) : comp :=
  (numerator <-
     of_int 2 * (
       s2t * c2t * (r1 * c2c + r2 * s2c - of_int 1) **2 +
       s2t * s2c * c2c * (r1 - r2) **2
     ) ;;
   denominator <-
     (c2t * (r1 * c2c + r2 * s2c) + (r1 * s2c + r2 * c2c) + s2t) **2 ;;
   numerator / denominator)%pyf.

(** The squares of the sine and the cosine at step [i], when both are
    computed without exception. *)
Definition squares_at (i : Z) : option (float * float) :=
  match math_sin (angle_of i) **2, math_cos (angle_of i) **2 with
  | Ok s, Ok c => Some (s, c)
  | _, _ => None
  end%pyf.

Definition axis : list (Z * option (float * float)) :=
  map (fun i => (i, squares_at i)) (range 0 721).

Definition point_falls_through (r1 r2 target1 target2 tolerance : float)
           (theta chi : option (float * float)) : bool :=
  match theta, chi with
  | Some (s2t, c2t), Some (s2c, c2c) =>
      match your_function_from s2t c2t s2c c2c r1 r2,
            another_function_from s2t c2t s2c c2c r1 r2 with
      | Ok v1, Ok v2 =>
          negb (within v1 target1 tolerance && within v2 target2 tolerance)
      | _, _ => false
      end
  | _, _ => false
  end.

Definition scanned_beforeb (i' j' i j : Z) : bool :=
  (i' <? i)%Z || ((i' =? i)%Z && (j' <? j)%Z).

Definition falls_through_before
           (r1 r2 target1 target2 tolerance : float) (i j : Z) : bool :=
  let steps := axis in
  forallb (fun row =>
    if (fst row <=? i)%Z then
      forallb (fun col =>
        if scanned_beforeb (fst row) (fst col) i j
        then point_falls_through r1 r2 target1 target2 tolerance (snd row) (snd col)
        else true) steps
    else true) steps.

End Program.

(** ** The formulas of the specification as expressions

    An expression has a value in Python floats ([eval_expr], operands left
    to right) and an exact value over the reals ([real_value]). *)

Inductive angle : Type := Theta | Chi.

Inductive expr : Type :=
| Int (n : Z)
| Param1
| Param2
| Sin (a : angle)
| Cos (a : angle)
| Add (a b : expr)
| Sub (a b : expr)
| Mul (a b : expr)
| Div (a b : expr)
| Sq (a : expr).

Fixpoint eval_expr (m : libm) (theta chi r1 r2 : float) (e : expr) : comp :=
  let go := eval_expr m theta chi r1 r2 in
  let arg a := match a with Theta => theta | Chi => chi end in
  match e with
  | Int n => Ok (of_int n)
  | Param1 => Ok r1
  | Param2 => Ok r2
  | Sin a => math_sin m (arg a)
  | Cos a => math_cos m (arg a)
  | Add a b => lift2 PrimFloat.add (go a) (go b)
  | Sub a b => lift2 PrimFloat.sub (go a) (go b)
  | Mul a b => lift2 PrimFloat.mul (go a) (go b)
  | Div a b => truediv (go a) (go b)
  | Sq a => power2 m (go a)
  end.

Fixpoint real_value (theta chi r1 r2 : R) (e : expr) : R :=
  let go := real_value theta chi r1 r2 in
  let arg a := match a with Theta => theta | Chi => chi end in
  match e with
  | Int n => IZR n
  | Param1 => r1
  | Param2 => r2
  | Sin a => sin (arg a)
  | Cos a => cos (arg a)
  | Add a b => go a + go b
  | Sub a b => go a - go b
  | Mul a b => go a * go b
  | Div a b => go a / go b
  | Sq a => go a ^ 2
  end.

(** D, f1 and f2 as the specification writes them. *)
Definition D_formula : expr :=
  Add (Add (Mul (Sq (Cos Theta))
                (Add (Mul Param1 (Sq (Cos Chi))) (Mul Param2 (Sq (Sin Chi)))))
           (Add (Mul Param1 (Sq (Sin Chi))) (Mul Param2 (Sq (Cos Chi)))))
      (Sq (Sin Theta)).

Definition f1_formula : expr :=
  Div (Mul (Int 4)
           (Sq (Add (Mul (Sq (Sin Theta))
                         (Add (Mul Param1 (Sq (Cos Chi))) (Mul Param2 (Sq (Sin Chi)))))
                    (Sq (Cos Theta)))))
      (Sq D_formula).

Definition f2_formula : expr :=
  Div (Mul (Int 2)
           (Add (Mul (Mul (Sq (Sin Theta)) (Sq (Cos Theta)))
                     (Sq (Sub (Add (Mul Param1 (Sq (Cos Chi)))
                                   (Mul Param2 (Sq (Sin Chi))))
                              (Int 1))))
                (Mul (Mul (Mul (Sq (Sin Theta)) (Sq (Sin Chi))) (Sq (Cos Chi)))
                     (Sq (Sub Param1 Param2)))))
      (Sq D_formula).

(** The numerator of a quotient. *)
Definition numerator_of (e : expr) : expr :=
  match e with
  | Div n _ => n
  | _ => e
  end.

(** An expression without a division. *)
Fixpoint div_free (e : expr) : bool :=
  match e with
  | Div _ _ => false
  | Add a b | Sub a b | Mul a b => div_free a && div_free b
  | Sq a => div_free a
  | _ => true
  end.

(** An expression built from squares and nonnegative integers by [+],
    [*] and [/]. *)
Fixpoint sign_definite (e : expr) : bool :=
  match e with
  | Int n => (0 <=? n)%Z
  | Sq _ => true
  | Add a b | Mul a b | Div a b => sign_definite a && sign_definite b
  | _ => false
  end.

(** An IEEE value that is not below zero: a zero of either sign, a
    positive number, [+inf] or [nan]. *)
Definition sf_not_negative (x : spec_float) : bool :=
  match x with
  | S754_infinity s | S754_finite s _ _ => negb s
  | _ => true
  end.

(** ** A C library for concrete runs

    [ref_libm] answers with the table below where the search calls [sin]
    and [cos]: at the 721 grid angles (and at [- math.pi]); the entries
    are the values glibc returns on x86-64.  Its [pow(x, 2.0)] is the
    correctly rounded square [x * x]; glibc's [pow] agrees with it up to
    rare differences of one unit in the last place.  Outside the table
    [sin] and [cos] answer nan, which [math.sin] and [math.cos] report as
    a domain error; nothing below evaluates them there. *)

Inductive tree : Type :=
| Leaf
| Node (l : tree) (key sine cosine : float) (r : tree).

Fixpoint lookup (t : tree) (x : float) : option (float * float) :=
  match t with
  | Leaf => None
  | Node l key sine cosine r =>
      if PrimFloat.Leibniz.eqb x key then Some (sine, cosine)
      else if (x <? key)%float then lookup l x else lookup r x
  end.

Fixpoint build (fuel : nat) (rows : list (float * float * float)) : tree :=
  match fuel with
  | O => Leaf
  | S fuel' =>
      let n := Nat.div2 (length rows) in
      match skipn n rows with
      | [] => Leaf
      | (key, sine, cosine) :: rest =>
          Node (build fuel' (firstn n rows)) key sine cosine (build fuel' rest)
      end
  end.

(** Rows [(x, sin x, cos x)], by increasing [x]. *)
Definition table : list (float * float * float) := [
  ((-0x1.921fb54442d18p+1), (-0x1.1a62633145c07p-53), (-0x1.0000000000000p+0));
  (0x0.0p+0, 0x0.0p+0, 0x1.0000000000000p+0);
  (0x1.1df46a2529d39p-7, 0x1.1df37c4954c21p-7, 0x1.fffb02599c9cdp-1);
  (0x1.1df46a2529d39p-6, 0x1.1df0b2b89dd1ep-6, 0x1.ffec097f5af8ap-1);
  (0x1.acee9f37bebd5p-6, 0x1.ace214390ca90p-6, 0x1.ffd315bbf4275p-1);
  (0x1.1df46a2529d39p-5, 0x1.1de58c9f7dc27p-5, 0x1.ffb0278bf0567p-1);
  (0x1.657184ae74487p-5, 0x1.65547c4694e11p-5, 0x1.ff833f9da45f7p-1);
  (0x1.acee9f37bebd5p-5, 0x1.acbc748efc90dp-5, 0x1.ff4c5ed12e61dp-1);
  (0x1.f46bb9c109324p-5, 0x1.f41c1118aa2cdp-5, 0x1.ff0b86387164ap-1);
  (0x1.1df46a2529d39p-4, 0x1.1db8f6d6a5128p-4, 0x1.fec0b7170fff6p-1);
  (0x1.41b2f769cf0e0p-4, 0x1.415e532398e49p-4, 0x1.fe6bf2e2660afp-1);
  (0x1.657184ae74487p-4, 0x1.64fd6b8c28102p-4, 0x1.fe0d3b41815a2p-1);
  (0x1.893011f31982ep-4, 0x1.88958e488ed58p-4, 0x1.fda4920d197a6p-1);
  (0x1.acee9f37bebd5p-4, 0x1.ac2609b3c576bp-4, 0x1.fd31f94f867c6p-1);
  (0x1.d0ad2c7c63f7cp-4, 0x1.cfae2c4ef6cf4p-4, 0x1.fcb57344b6c57p-1);
  (0x1.f46bb9c109324p-4, 0x1.f32d44c4f62d3p-4, 0x1.fc2f025a23e8bp-1);
  (0x1.0c152382d7365p-3, 0x1.0b5150f6da2d0p-3, 0x1.fb9ea92ec689bp-1);
  (0x1.1df46a2529d39p-3, 0x1.1d06c968d9e19p-3, 0x1.fb046a930947ap-1);
  (0x1.2fd3b0c77c70cp-3, 0x1.2eb6b356bdd76p-3, 0x1.fa604988bab1cp-1);
  (0x1.41b2f769cf0e0p-3, 0x1.4060b67a85375p-3, 0x1.f9b24942fe45cp-1);
  (0x1.53923e0c21ab4p-3, 0x1.52047aaba33e3p-3, 0x1.f8fa6d263c772p-1);
  (0x1.657184ae74487p-3, 0x1.63a1a7e0b7389p-3, 0x1.f838b8c811c17p-1);
  (0x1.7750cb50c6e5bp-3, 0x1.7537e63143e2fp-3, 0x1.f76d2fef3cc4bp-1);
  (0x1.893011f31982ep-3, 0x1.86c6ddd76624fp-3, 0x1.f697d6938b6c2p-1);
  (0x1.9b0f58956c201p-3, 0x1.984e37318b215p-3, 0x1.f5b8b0ddc720fp-1);
  (0x1.acee9f37bebd5p-3, 0x1.a9cd9ac4258f5p-3, 0x1.f4cfc327a0080p-1);
  (0x1.becde5da115a9p-3, 0x1.bb44b13b62571p-3, 0x1.f3dd11fb974b6p-1);
  (0x1.d0ad2c7c63f7cp-3, 0x1.ccb3236cdc674p-3, 0x1.f2e0a214e870fp-1);
  (0x1.e28c731eb6950p-3, 0x1.de189a594fbcbp-3, 0x1.f1da785f71bcep-1);
  (0x1.f46bb9c109324p-3, 0x1.ef74bf2e4b91dp-3, 0x1.f0ca99f79ba25p-1);
  (0x1.03258031ade7cp-2, 0x1.00639da3f1d77p-2, 0x1.efb10c2a3f40ep-1);
  (0x1.0c152382d7365p-2, 0x1.0907dc1930690p-2, 0x1.ee8dd4748bf15p-1);
  (0x1.1504c6d40084fp-2, 0x1.11a6efd5f8138p-2, 0x1.ed60f883ebe01p-1);
  (0x1.1df46a2529d39p-2, 0x1.1a40add328e29p-2, 0x1.ec2a7e35e7b80p-1);
  (0x1.26e40d7653222p-2, 0x1.22d4eb2443163p-2, 0x1.eaea6b98095c0p-1);
  (0x1.2fd3b0c77c70cp-2, 0x1.2b637cf83d5c7p-2, 0x1.e9a0c6e7bdb20p-1);
  (0x1.38c35418a5bf6p-2, 0x1.33ec389a5a81ep-2, 0x1.e84d9692357e1p-1);
  (0x1.41b2f769cf0e0p-2, 0x1.3c6ef372fe94fp-2, 0x1.e6f0e134454ffp-1);
  (0x1.4aa29abaf85cap-2, 0x1.44eb830883781p-2, 0x1.e58aad9a44824p-1);
  (0x1.53923e0c21ab4p-2, 0x1.4d61bd000cddcp-2, 0x1.e41b02bfeb4cbp-1);
  (0x1.5c81e15d4af9ep-2, 0x1.55d1771e5babap-2, 0x1.e2a1e7d02fe9fp-1);
  (0x1.657184ae74487p-2, 0x1.5e3a8748a0bf5p-2, 0x1.e11f642522d1cp-1);
  (0x1.6e6127ff9d971p-2, 0x1.669cc3854f11bp-2, 0x1.df937f47ca07cp-1);
  (0x1.7750cb50c6e5bp-2, 0x1.6ef801fced33cp-2, 0x1.ddfe40effb805p-1);
  (0x1.80406ea1f0345p-2, 0x1.774c18fae621cp-2, 0x1.dc5fb104369b2p-1);
  (0x1.893011f31982ep-2, 0x1.7f98deee59681p-2, 0x1.dab7d7997cb58p-1);
  (0x1.921fb54442d18p-2, 0x1.87de2a6aea963p-2, 0x1.d906bcf328d46p-1);
  (0x1.9b0f58956c201p-2, 0x1.901bd2298ffaap-2, 0x1.d74c6982c666fp-1);
  (0x1.a3fefbe6956ecp-2, 0x1.9851ad0960a5cp-2, 0x1.d588e5e7e7228p-1);
  (0x1.acee9f37bebd5p-2, 0x1.a07f921061ad0p-2, 0x1.d3bc3aeff7f95p-1);
  (0x1.b5de4288e80bep-2, 0x1.a8a5586c52ad2p-2, 0x1.d1e67196152bep-1);
  (0x1.becde5da115a9p-2, 0x1.b0c2d77379853p-2, 0x1.d0079302dd767p-1);
  (0x1.c7bd892b3aa92p-2, 0x1.b8d7e6a56d475p-2, 0x1.ce1fa88c445bbp-1);
  (0x1.d0ad2c7c63f7cp-2, 0x1.c0e45dabe05c8p-2, 0x1.cc2ebbb5638cap-1);
  (0x1.d99ccfcd8d466p-2, 0x1.c8e8145b69d44p-2, 0x1.ca34d62e4b6fap-1);
  (0x1.e28c731eb6950p-2, 0x1.d0e2e2b44de00p-2, 0x1.c83201d3d2c6dp-1);
  (0x1.eb7c166fdfe3ap-2, 0x1.d8d4a0e345738p-2, 0x1.c62648af65771p-1);
  (0x1.f46bb9c109324p-2, 0x1.e0bd274245079p-2, 0x1.c411b4f6d2708p-1);
  (0x1.fd5b5d123280dp-2, 0x1.e89c4e59427b1p-2, 0x1.c1f4510c18b95p-1);
  (0x1.03258031ade7cp-1, 0x1.f071eedefa0edp-2, 0x1.bfce277d339c6p-1);
  (0x1.079d51da428f0p-1, 0x1.f83de1b9b276dp-2, 0x1.bd9f4303e5fc2p-1);
  (0x1.0c152382d7365p-1, 0x1.fffffffffffffp-2, 0x1.bb67ae8584cabp-1);
  (0x1.108cf52b6bddap-1, 0x1.03dc117cc3615p-1, 0x1.b9277512c0a92p-1);
  (0x1.1504c6d40084fp-1, 0x1.07b3120fddf13p-1, 0x1.b6dea1e76eadep-1);
  (0x1.197c987c952c4p-1, 0x1.0b84ee8f52e9cp-1, 0x1.b48d406a50540p-1);
  (0x1.1df46a2529d39p-1, 0x1.0f5193eacdd2ap-1, 0x1.b2335c2cda945p-1);
  (0x1.226c3bcdbe7aep-1, 0x1.1318ef2c01a5bp-1, 0x1.afd100eafc290p-1);
  (0x1.26e40d7653222p-1, 0x1.16daed770771cp-1, 0x1.ad663a8ae2fdcp-1);
  (0x1.2b5bdf1ee7c98p-1, 0x1.1a977c0abc7a8p-1, 0x1.aaf3151cc0ccdp-1);
  (0x1.2fd3b0c77c70cp-1, 0x1.1e4e88411fd12p-1, 0x1.a8779cda8eea5p-1);
  (0x1.344b827011182p-1, 0x1.21ffff8faf674p-1, 0x1.a5f3de27d13f1p-1);
  (0x1.38c35418a5bf6p-1, 0x1.25abcf87c4978p-1, 0x1.a367e59158747p-1);
  (0x1.3d3b25c13a66bp-1, 0x1.2951e5d6f023cp-1, 0x1.a0d3bfcd03513p-1);
  (0x1.41b2f769cf0e0p-1, 0x1.2cf2304755a5ep-1, 0x1.9e3779b97f4a8p-1);
  (0x1.462ac91263b55p-1, 0x1.308c9cc006729p-1, 0x1.9b93205e08489p-1);
  (0x1.4aa29abaf85cap-1, 0x1.342119455beb6p-1, 0x1.98e6c0ea27a14p-1);
  (0x1.4f1a6c638d03fp-1, 0x1.37af93f9513eap-1, 0x1.963268b572492p-1);
  (0x1.53923e0c21ab4p-1, 0x1.3b37fb1bdc939p-1, 0x1.9376253f463d1p-1);
  (0x1.580a0fb4b6528p-1, 0x1.3eba3d0b47a0ep-1, 0x1.90b2042e87254p-1);
  (0x1.5c81e15d4af9ep-1, 0x1.4236484487abep-1, 0x1.8de613515a328p-1);
  (0x1.60f9b305dfa12p-1, 0x1.45ac0b6394ee4p-1, 0x1.8b12609ce1384p-1);
  (0x1.657184ae74487p-1, 0x1.491b7523c161cp-1, 0x1.8836fa2cf5039p-1);
  (0x1.69e9565708efcp-1, 0x1.4c8474600eeeep-1, 0x1.8553ee43def13p-1);
  (0x1.6e6127ff9d971p-1, 0x1.4fe6f81384fd4p-1, 0x1.82694b4a11c37p-1);
  (0x1.72d8f9a8323e6p-1, 0x1.5342ef598564fp-1, 0x1.7f771fcde1b9fp-1);
  (0x1.7750cb50c6e5bp-1, 0x1.5698496e20bd8p-1, 0x1.7c7d7a833bec2p-1);
  (0x1.7bc89cf95b8cfp-1, 0x1.59e6f5ae6a0a6p-1, 0x1.797c6a435ce85p-1);
  (0x1.80406ea1f0345p-1, 0x1.5d2ee398c9c2bp-1, 0x1.7673fe0c86982p-1);
  (0x1.84b8404a84db9p-1, 0x1.607002cd5031cp-1, 0x1.73644501b56cdp-1);
  (0x1.893011f31982ep-1, 0x1.63aa430e07310p-1, 0x1.704d4e6a54d39p-1);
  (0x1.8da7e39bae2a3p-1, 0x1.66dd943f43372p-1, 0x1.6d2f29b1f2f46p-1);
  (0x1.921fb54442d18p-1, 0x1.6a09e667f3bccp-1, 0x1.6a09e667f3bcdp-1);
  (0x1.969786ecd778dp-1, 0x1.6d2f29b1f2f46p-1, 0x1.66dd943f43372p-1);
  (0x1.9b0f58956c201p-1, 0x1.704d4e6a54d38p-1, 0x1.63aa430e07311p-1);
  (0x1.9f872a3e00c77p-1, 0x1.73644501b56cdp-1, 0x1.607002cd5031dp-1);
  (0x1.a3fefbe6956ecp-1, 0x1.7673fe0c86982p-1, 0x1.5d2ee398c9c2bp-1);
  (0x1.a876cd8f2a161p-1, 0x1.797c6a435ce85p-1, 0x1.59e6f5ae6a0a7p-1);
  (0x1.acee9f37bebd5p-1, 0x1.7c7d7a833bec1p-1, 0x1.5698496e20bd8p-1);
  (0x1.b16670e05364ap-1, 0x1.7f771fcde1b9ep-1, 0x1.5342ef598564fp-1);
  (0x1.b5de4288e80bep-1, 0x1.82694b4a11c36p-1, 0x1.4fe6f81384fd5p-1);
  (0x1.ba5614317cb35p-1, 0x1.8553ee43def14p-1, 0x1.4c8474600eeedp-1);
  (0x1.becde5da115a9p-1, 0x1.8836fa2cf5039p-1, 0x1.491b7523c161dp-1);
  (0x1.c345b782a601ep-1, 0x1.8b12609ce1384p-1, 0x1.45ac0b6394ee4p-1);
  (0x1.c7bd892b3aa92p-1, 0x1.8de613515a327p-1, 0x1.4236484487abep-1);
  (0x1.cc355ad3cf507p-1, 0x1.90b2042e87253p-1, 0x1.3eba3d0b47a0fp-1);
  (0x1.d0ad2c7c63f7cp-1, 0x1.9376253f463d1p-1, 0x1.3b37fb1bdc939p-1);
  (0x1.d524fe24f89f2p-1, 0x1.963268b572492p-1, 0x1.37af93f9513eap-1);
  (0x1.d99ccfcd8d466p-1, 0x1.98e6c0ea27a14p-1, 0x1.342119455beb7p-1);
  (0x1.de14a17621edbp-1, 0x1.9b93205e08489p-1, 0x1.308c9cc00672ap-1);
  (0x1.e28c731eb6950p-1, 0x1.9e3779b97f4a8p-1, 0x1.2cf2304755a5ep-1);
  (0x1.e70444c74b3c4p-1, 0x1.a0d3bfcd03512p-1, 0x1.2951e5d6f023dp-1);
  (0x1.eb7c166fdfe3ap-1, 0x1.a367e59158747p-1, 0x1.25abcf87c4979p-1);
  (0x1.eff3e818748afp-1, 0x1.a5f3de27d13f2p-1, 0x1.21ffff8faf674p-1);
  (0x1.f46bb9c109324p-1, 0x1.a8779cda8eea5p-1, 0x1.1e4e88411fd12p-1);
  (0x1.f8e38b699dd98p-1, 0x1.aaf3151cc0cccp-1, 0x1.1a977c0abc7a9p-1);
  (0x1.fd5b5d123280dp-1, 0x1.ad663a8ae2fdbp-1, 0x1.16daed770771ep-1);
  (0x1.00e9975d63941p+0, 0x1.afd100eafc290p-1, 0x1.1318ef2c01a5bp-1);
  (0x1.03258031ade7cp+0, 0x1.b2335c2cda945p-1, 0x1.0f5193eacdd2ap-1);
  (0x1.05616905f83b6p+0, 0x1.b48d406a50540p-1, 0x1.0b84ee8f52e9dp-1);
  (0x1.079d51da428f0p+0, 0x1.b6dea1e76eaddp-1, 0x1.07b3120fddf15p-1);
  (0x1.09d93aae8ce2bp+0, 0x1.b9277512c0a91p-1, 0x1.03dc117cc3616p-1);
  (0x1.0c152382d7365p+0, 0x1.bb67ae8584caap-1, 0x1.0000000000001p-1);
  (0x1.0e510c57218a0p+0, 0x1.bd9f4303e5fc2p-1, 0x1.f83de1b9b276ep-2);
  (0x1.108cf52b6bddap+0, 0x1.bfce277d339c6p-1, 0x1.f071eedefa0eep-2);
  (0x1.12c8ddffb6315p+0, 0x1.c1f4510c18b95p-1, 0x1.e89c4e59427b1p-2);
  (0x1.1504c6d40084fp+0, 0x1.c411b4f6d2707p-1, 0x1.e0bd27424507ap-2);
  (0x1.1740afa84ad89p+0, 0x1.c62648af65770p-1, 0x1.d8d4a0e34573bp-2);
  (0x1.197c987c952c4p+0, 0x1.c83201d3d2c6cp-1, 0x1.d0e2e2b44de01p-2);
  (0x1.1bb88150df7ffp+0, 0x1.ca34d62e4b6fap-1, 0x1.c8e8145b69d43p-2);
  (0x1.1df46a2529d39p+0, 0x1.cc2ebbb5638cap-1, 0x1.c0e45dabe05c9p-2);
  (0x1.203052f974273p+0, 0x1.ce1fa88c445bap-1, 0x1.b8d7e6a56d478p-2);
  (0x1.226c3bcdbe7aep+0, 0x1.d0079302dd767p-1, 0x1.b0c2d77379853p-2);
  (0x1.24a824a208ce8p+0, 0x1.d1e67196152bep-1, 0x1.a8a5586c52ad5p-2);
  (0x1.26e40d7653222p+0, 0x1.d3bc3aeff7f95p-1, 0x1.a07f921061ad4p-2);
  (0x1.291ff64a9d75dp+0, 0x1.d588e5e7e7228p-1, 0x1.9851ad0960a5dp-2);
  (0x1.2b5bdf1ee7c98p+0, 0x1.d74c6982c666fp-1, 0x1.901bd2298ffaap-2);
  (0x1.2d97c7f3321d2p+0, 0x1.d906bcf328d46p-1, 0x1.87de2a6aea964p-2);
  (0x1.2fd3b0c77c70cp+0, 0x1.dab7d7997cb57p-1, 0x1.7f98deee59684p-2);
  (0x1.320f999bc6c47p+0, 0x1.dc5fb104369b2p-1, 0x1.774c18fae621cp-2);
  (0x1.344b827011182p+0, 0x1.ddfe40effb805p-1, 0x1.6ef801fced33ap-2);
  (0x1.36876b445b6bcp+0, 0x1.df937f47ca07cp-1, 0x1.669cc3854f11bp-2);
  (0x1.38c35418a5bf6p+0, 0x1.e11f642522d1bp-1, 0x1.5e3a8748a0bf7p-2);
  (0x1.3aff3cecf0131p+0, 0x1.e2a1e7d02fe9fp-1, 0x1.55d1771e5bab9p-2);
  (0x1.3d3b25c13a66bp+0, 0x1.e41b02bfeb4cap-1, 0x1.4d61bd000cdddp-2);
  (0x1.3f770e9584ba5p+0, 0x1.e58aad9a44824p-1, 0x1.44eb830883784p-2);
  (0x1.41b2f769cf0e0p+0, 0x1.e6f0e134454ffp-1, 0x1.3c6ef372fe950p-2);
  (0x1.43eee03e1961bp+0, 0x1.e84d9692357e1p-1, 0x1.33ec389a5a81dp-2);
  (0x1.462ac91263b55p+0, 0x1.e9a0c6e7bdb1fp-1, 0x1.2b637cf83d5c8p-2);
  (0x1.4866b1e6ae08fp+0, 0x1.eaea6b98095c0p-1, 0x1.22d4eb2443166p-2);
  (0x1.4aa29abaf85cap+0, 0x1.ec2a7e35e7b80p-1, 0x1.1a40add328e29p-2);
  (0x1.4cde838f42b04p+0, 0x1.ed60f883ebe01p-1, 0x1.11a6efd5f813ap-2);
  (0x1.4f1a6c638d03fp+0, 0x1.ee8dd4748bf15p-1, 0x1.0907dc1930690p-2);
  (0x1.51565537d7579p+0, 0x1.efb10c2a3f40ep-1, 0x1.00639da3f1d78p-2);
  (0x1.53923e0c21ab4p+0, 0x1.f0ca99f79ba25p-1, 0x1.ef74bf2e4b91bp-3);
  (0x1.55ce26e06bfeep+0, 0x1.f1da785f71bcep-1, 0x1.de189a594fbcep-3);
  (0x1.580a0fb4b6528p+0, 0x1.f2e0a214e870fp-1, 0x1.ccb3236cdc67ap-3);
  (0x1.5a45f88900a63p+0, 0x1.f3dd11fb974b6p-1, 0x1.bb44b13b62572p-3);
  (0x1.5c81e15d4af9ep+0, 0x1.f4cfc327a0080p-1, 0x1.a9cd9ac4258f2p-3);
  (0x1.5ebdca31954d8p+0, 0x1.f5b8b0ddc720fp-1, 0x1.984e37318b216p-3);
  (0x1.60f9b305dfa12p+0, 0x1.f697d6938b6c2p-1, 0x1.86c6ddd766253p-3);
  (0x1.63359bda29f4cp+0, 0x1.f76d2fef3cc4ap-1, 0x1.7537e63143e36p-3);
  (0x1.657184ae74487p+0, 0x1.f838b8c811c17p-1, 0x1.63a1a7e0b738cp-3);
  (0x1.67ad6d82be9c2p+0, 0x1.f8fa6d263c772p-1, 0x1.52047aaba33e1p-3);
  (0x1.69e9565708efcp+0, 0x1.f9b24942fe45cp-1, 0x1.4060b67a85377p-3);
  (0x1.6c253f2b53436p+0, 0x1.fa604988bab1cp-1, 0x1.2eb6b356bdd7cp-3);
  (0x1.6e6127ff9d971p+0, 0x1.fb046a930947ap-1, 0x1.1d06c968d9e1ap-3);
  (0x1.709d10d3e7eabp+0, 0x1.fb9ea92ec689bp-1, 0x1.0b5150f6da2d5p-3);
  (0x1.72d8f9a8323e6p+0, 0x1.fc2f025a23e8bp-1, 0x1.f32d44c4f62d4p-4);
  (0x1.7514e27c7c920p+0, 0x1.fcb57344b6c57p-1, 0x1.cfae2c4ef6cfdp-4);
  (0x1.7750cb50c6e5bp+0, 0x1.fd31f94f867c6p-1, 0x1.ac2609b3c576bp-4);
  (0x1.798cb42511395p+0, 0x1.fda4920d197a5p-1, 0x1.88958e488ed5ep-4);
  (0x1.7bc89cf95b8cfp+0, 0x1.fe0d3b41815a2p-1, 0x1.64fd6b8c28110p-4);
  (0x1.7e0485cda5e0ap+0, 0x1.fe6bf2e2660afp-1, 0x1.415e532398e4dp-4);
  (0x1.80406ea1f0345p+0, 0x1.fec0b7170fff6p-1, 0x1.1db8f6d6a5123p-4);
  (0x1.827c57763a87fp+0, 0x1.ff0b86387164ap-1, 0x1.f41c1118aa2d2p-5);
  (0x1.84b8404a84db9p+0, 0x1.ff4c5ed12e61dp-1, 0x1.acbc748efc921p-5);
  (0x1.86f4291ecf2f4p+0, 0x1.ff833f9da45f7p-1, 0x1.65547c4694e12p-5);
  (0x1.893011f31982ep+0, 0x1.ffb0278bf0567p-1, 0x1.1de58c9f7dc37p-5);
  (0x1.8b6bfac763d68p+0, 0x1.ffd315bbf4275p-1, 0x1.ace214390cacdp-6);
  (0x1.8da7e39bae2a3p+0, 0x1.ffec097f5af8ap-1, 0x1.1df0b2b89dd37p-6);
  (0x1.8fe3cc6ff87dep+0, 0x1.fffb02599c9cdp-1, 0x1.1df37c4954c0bp-7);
  (0x1.921fb54442d18p+0, 0x1.0000000000000p+0, 0x1.1a62633145c07p-54);
  (0x1.945b9e188d252p+0, 0x1.fffb02599c9cdp-1, (-0x1.1df37c4954bc5p-7));
  (0x1.969786ecd778dp+0, 0x1.ffec097f5af8ap-1, (-0x1.1df0b2b89dd14p-6));
  (0x1.98d36fc121cc7p+0, 0x1.ffd315bbf4275p-1, (-0x1.ace214390ca6ap-6));
  (0x1.9b0f58956c201p+0, 0x1.ffb0278bf0567p-1, (-0x1.1de58c9f7dc05p-5));
  (0x1.9d4b4169b673cp+0, 0x1.ff833f9da45f7p-1, (-0x1.65547c4694e01p-5));
  (0x1.9f872a3e00c77p+0, 0x1.ff4c5ed12e61dp-1, (-0x1.acbc748efc90fp-5));
  (0x1.a1c313124b1b2p+0, 0x1.ff0b86387164ap-1, (-0x1.f41c1118aa2e0p-5));
  (0x1.a3fefbe6956ecp+0, 0x1.fec0b7170fff6p-1, (-0x1.1db8f6d6a512ap-4));
  (0x1.a63ae4badfc26p+0, 0x1.fe6bf2e2660afp-1, (-0x1.415e532398e44p-4));
  (0x1.a876cd8f2a161p+0, 0x1.fe0d3b41815a2p-1, (-0x1.64fd6b8c28107p-4));
  (0x1.aab2b6637469bp+0, 0x1.fda4920d197a6p-1, (-0x1.88958e488ed56p-4));
  (0x1.acee9f37bebd5p+0, 0x1.fd31f94f867c7p-1, (-0x1.ac2609b3c5762p-4));
  (0x1.af2a880c09110p+0, 0x1.fcb57344b6c57p-1, (-0x1.cfae2c4ef6cf4p-4));
  (0x1.b16670e05364ap+0, 0x1.fc2f025a23e8cp-1, (-0x1.f32d44c4f62cbp-4));
  (0x1.b3a259b49db84p+0, 0x1.fb9ea92ec689cp-1, (-0x1.0b5150f6da2c9p-3));
  (0x1.b5de4288e80bep+0, 0x1.fb046a930947ap-1, (-0x1.1d06c968d9e0ep-3));
  (0x1.b81a2b5d325fap+0, 0x1.fa604988bab1cp-1, (-0x1.2eb6b356bdd78p-3));
  (0x1.ba5614317cb35p+0, 0x1.f9b24942fe45bp-1, (-0x1.4060b67a8537bp-3));
  (0x1.bc91fd05c706fp+0, 0x1.f8fa6d263c772p-1, (-0x1.52047aaba33e5p-3));
  (0x1.becde5da115a9p+0, 0x1.f838b8c811c17p-1, (-0x1.63a1a7e0b7388p-3));
  (0x1.c109ceae5bae4p+0, 0x1.f76d2fef3cc4bp-1, (-0x1.7537e63143e31p-3));
  (0x1.c345b782a601ep+0, 0x1.f697d6938b6c2p-1, (-0x1.86c6ddd76624fp-3));
  (0x1.c581a056f0558p+0, 0x1.f5b8b0ddc720fp-1, (-0x1.984e37318b212p-3));
  (0x1.c7bd892b3aa92p+0, 0x1.f4cfc327a0080p-1, (-0x1.a9cd9ac4258eep-3));
  (0x1.c9f971ff84fcdp+0, 0x1.f3dd11fb974b6p-1, (-0x1.bb44b13b6256ep-3));
  (0x1.cc355ad3cf507p+0, 0x1.f2e0a214e870fp-1, (-0x1.ccb3236cdc66ep-3));
  (0x1.ce7143a819a41p+0, 0x1.f1da785f71bcfp-1, (-0x1.de189a594fbc1p-3));
  (0x1.d0ad2c7c63f7cp+0, 0x1.f0ca99f79ba25p-1, (-0x1.ef74bf2e4b917p-3));
  (0x1.d2e91550ae4b8p+0, 0x1.efb10c2a3f40ep-1, (-0x1.00639da3f1d7ap-2));
  (0x1.d524fe24f89f2p+0, 0x1.ee8dd4748bf15p-1, (-0x1.0907dc1930692p-2));
  (0x1.d760e6f942f2cp+0, 0x1.ed60f883ebe01p-1, (-0x1.11a6efd5f8138p-2));
  (0x1.d99ccfcd8d466p+0, 0x1.ec2a7e35e7b80p-1, (-0x1.1a40add328e27p-2));
  (0x1.dbd8b8a1d79a1p+0, 0x1.eaea6b98095c0p-1, (-0x1.22d4eb2443164p-2));
  (0x1.de14a17621edbp+0, 0x1.e9a0c6e7bdb20p-1, (-0x1.2b637cf83d5c6p-2));
  (0x1.e0508a4a6c415p+0, 0x1.e84d9692357e1p-1, (-0x1.33ec389a5a81bp-2));
  (0x1.e28c731eb6950p+0, 0x1.e6f0e13445500p-1, (-0x1.3c6ef372fe94ep-2));
  (0x1.e4c85bf300e8ap+0, 0x1.e58aad9a44825p-1, (-0x1.44eb83088377ep-2));
  (0x1.e70444c74b3c4p+0, 0x1.e41b02bfeb4cbp-1, (-0x1.4d61bd000cdd7p-2));
  (0x1.e9402d9b958ffp+0, 0x1.e2a1e7d02fe9fp-1, (-0x1.55d1771e5bab7p-2));
  (0x1.eb7c166fdfe3ap+0, 0x1.e11f642522d1cp-1, (-0x1.5e3a8748a0bf5p-2));
  (0x1.edb7ff442a375p+0, 0x1.df937f47ca07cp-1, (-0x1.669cc3854f11dp-2));
  (0x1.eff3e818748afp+0, 0x1.ddfe40effb805p-1, (-0x1.6ef801fced33cp-2));
  (0x1.f22fd0ecbede9p+0, 0x1.dc5fb104369b2p-1, (-0x1.774c18fae621ap-2));
  (0x1.f46bb9c109324p+0, 0x1.dab7d7997cb58p-1, (-0x1.7f98deee59682p-2));
  (0x1.f6a7a2955385ep+0, 0x1.d906bcf328d46p-1, (-0x1.87de2a6aea962p-2));
  (0x1.f8e38b699dd98p+0, 0x1.d74c6982c666fp-1, (-0x1.901bd2298ffa8p-2));
  (0x1.fb1f743de82d3p+0, 0x1.d588e5e7e7228p-1, (-0x1.9851ad0960a5bp-2));
  (0x1.fd5b5d123280dp+0, 0x1.d3bc3aeff7f96p-1, (-0x1.a07f921061acep-2));
  (0x1.ff9745e67cd47p+0, 0x1.d1e67196152bfp-1, (-0x1.a8a5586c52acfp-2));
  (0x1.00e9975d63941p+1, 0x1.d0079302dd768p-1, (-0x1.b0c2d77379851p-2));
  (0x1.02078bc788bdfp+1, 0x1.ce1fa88c445bap-1, (-0x1.b8d7e6a56d47ap-2));
  (0x1.03258031ade7cp+1, 0x1.cc2ebbb5638c9p-1, (-0x1.c0e45dabe05cap-2));
  (0x1.0443749bd3119p+1, 0x1.ca34d62e4b6f9p-1, (-0x1.c8e8145b69d45p-2));
  (0x1.05616905f83b6p+1, 0x1.c83201d3d2c6dp-1, (-0x1.d0e2e2b44ddffp-2));
  (0x1.067f5d701d653p+1, 0x1.c62648af65772p-1, (-0x1.d8d4a0e345735p-2));
  (0x1.079d51da428f0p+1, 0x1.c411b4f6d2709p-1, (-0x1.e0bd274245074p-2));
  (0x1.08bb464467b8ep+1, 0x1.c1f4510c18b95p-1, (-0x1.e89c4e59427b2p-2));
  (0x1.09d93aae8ce2bp+1, 0x1.bfce277d339c7p-1, (-0x1.f071eedefa0ecp-2));
  (0x1.0af72f18b20c8p+1, 0x1.bd9f4303e5fc2p-1, (-0x1.f83de1b9b276cp-2));
  (0x1.0c152382d7365p+1, 0x1.bb67ae8584cabp-1, (-0x1.ffffffffffffcp-2));
  (0x1.0d3317ecfc602p+1, 0x1.b9277512c0a93p-1, (-0x1.03dc117cc3613p-1));
  (0x1.0e510c57218a0p+1, 0x1.b6dea1e76eadep-1, (-0x1.07b3120fddf14p-1));
  (0x1.0f6f00c146b3dp+1, 0x1.b48d406a50541p-1, (-0x1.0b84ee8f52e9cp-1));
  (0x1.108cf52b6bddap+1, 0x1.b2335c2cda946p-1, (-0x1.0f5193eacdd29p-1));
  (0x1.11aae99591078p+1, 0x1.afd100eafc28fp-1, (-0x1.1318ef2c01a5cp-1));
  (0x1.12c8ddffb6315p+1, 0x1.ad663a8ae2fdbp-1, (-0x1.16daed770771dp-1));
  (0x1.13e6d269db5b2p+1, 0x1.aaf3151cc0ccdp-1, (-0x1.1a977c0abc7a8p-1));
  (0x1.1504c6d40084fp+1, 0x1.a8779cda8eea5p-1, (-0x1.1e4e88411fd11p-1));
  (0x1.1622bb3e25aecp+1, 0x1.a5f3de27d13f3p-1, (-0x1.21ffff8faf672p-1));
  (0x1.1740afa84ad89p+1, 0x1.a367e59158749p-1, (-0x1.25abcf87c4976p-1));
  (0x1.185ea41270027p+1, 0x1.a0d3bfcd03513p-1, (-0x1.2951e5d6f023cp-1));
  (0x1.197c987c952c4p+1, 0x1.9e3779b97f4a8p-1, (-0x1.2cf2304755a5dp-1));
  (0x1.1a9a8ce6ba561p+1, 0x1.9b93205e0848ap-1, (-0x1.308c9cc006728p-1));
  (0x1.1bb88150df7ffp+1, 0x1.98e6c0ea27a13p-1, (-0x1.342119455beb7p-1));
  (0x1.1cd675bb04a9cp+1, 0x1.963268b572492p-1, (-0x1.37af93f9513eap-1));
  (0x1.1df46a2529d39p+1, 0x1.9376253f463d2p-1, (-0x1.3b37fb1bdc939p-1));
  (0x1.1f125e8f4efd6p+1, 0x1.90b2042e87255p-1, (-0x1.3eba3d0b47a0dp-1));
  (0x1.203052f974273p+1, 0x1.8de613515a329p-1, (-0x1.4236484487abcp-1));
  (0x1.214e476399511p+1, 0x1.8b12609ce1383p-1, (-0x1.45ac0b6394ee5p-1));
  (0x1.226c3bcdbe7aep+1, 0x1.8836fa2cf5039p-1, (-0x1.491b7523c161dp-1));
  (0x1.238a3037e3a4bp+1, 0x1.8553ee43def14p-1, (-0x1.4c8474600eeedp-1));
  (0x1.24a824a208ce8p+1, 0x1.82694b4a11c38p-1, (-0x1.4fe6f81384fd3p-1));
  (0x1.25c6190c2df85p+1, 0x1.7f771fcde1ba0p-1, (-0x1.5342ef598564dp-1));
  (0x1.26e40d7653222p+1, 0x1.7c7d7a833bec4p-1, (-0x1.5698496e20bd5p-1));
  (0x1.280201e0784c0p+1, 0x1.797c6a435ce85p-1, (-0x1.59e6f5ae6a0a7p-1));
  (0x1.291ff64a9d75dp+1, 0x1.7673fe0c86983p-1, (-0x1.5d2ee398c9c2ap-1));
  (0x1.2a3deab4c29fbp+1, 0x1.73644501b56ccp-1, (-0x1.607002cd5031ep-1));
  (0x1.2b5bdf1ee7c98p+1, 0x1.704d4e6a54d38p-1, (-0x1.63aa430e07311p-1));
  (0x1.2c79d3890cf35p+1, 0x1.6d2f29b1f2f46p-1, (-0x1.66dd943f43372p-1));
  (0x1.2d97c7f3321d2p+1, 0x1.6a09e667f3bcdp-1, (-0x1.6a09e667f3bccp-1));
  (0x1.2eb5bc5d5746fp+1, 0x1.66dd943f43373p-1, (-0x1.6d2f29b1f2f45p-1));
  (0x1.2fd3b0c77c70cp+1, 0x1.63aa430e07312p-1, (-0x1.704d4e6a54d37p-1));
  (0x1.30f1a531a19a9p+1, 0x1.607002cd5031fp-1, (-0x1.73644501b56cbp-1));
  (0x1.320f999bc6c47p+1, 0x1.5d2ee398c9c2cp-1, (-0x1.7673fe0c86982p-1));
  (0x1.332d8e05ebee4p+1, 0x1.59e6f5ae6a0a8p-1, (-0x1.797c6a435ce84p-1));
  (0x1.344b827011182p+1, 0x1.5698496e20bd6p-1, (-0x1.7c7d7a833bec3p-1));
  (0x1.356976da3641fp+1, 0x1.5342ef598564ep-1, (-0x1.7f771fcde1b9fp-1));
  (0x1.36876b445b6bcp+1, 0x1.4fe6f81384fd4p-1, (-0x1.82694b4a11c37p-1));
  (0x1.37a55fae80959p+1, 0x1.4c8474600eeefp-1, (-0x1.8553ee43def13p-1));
  (0x1.38c35418a5bf6p+1, 0x1.491b7523c161ep-1, (-0x1.8836fa2cf5038p-1));
  (0x1.39e14882cae93p+1, 0x1.45ac0b6394ee6p-1, (-0x1.8b12609ce1382p-1));
  (0x1.3aff3cecf0131p+1, 0x1.4236484487abdp-1, (-0x1.8de613515a328p-1));
  (0x1.3c1d3157153cep+1, 0x1.3eba3d0b47a0fp-1, (-0x1.90b2042e87254p-1));
  (0x1.3d3b25c13a66bp+1, 0x1.3b37fb1bdc93ap-1, (-0x1.9376253f463d1p-1));
  (0x1.3e591a2b5f908p+1, 0x1.37af93f9513ecp-1, (-0x1.963268b572491p-1));
  (0x1.3f770e9584ba5p+1, 0x1.342119455beb9p-1, (-0x1.98e6c0ea27a12p-1));
  (0x1.409502ffa9e43p+1, 0x1.308c9cc006729p-1, (-0x1.9b93205e08489p-1));
  (0x1.41b2f769cf0e0p+1, 0x1.2cf2304755a5fp-1, (-0x1.9e3779b97f4a7p-1));
  (0x1.42d0ebd3f437dp+1, 0x1.2951e5d6f023dp-1, (-0x1.a0d3bfcd03512p-1));
  (0x1.43eee03e1961bp+1, 0x1.25abcf87c4977p-1, (-0x1.a367e59158748p-1));
  (0x1.450cd4a83e8b8p+1, 0x1.21ffff8faf674p-1, (-0x1.a5f3de27d13f2p-1));
  (0x1.462ac91263b55p+1, 0x1.1e4e88411fd13p-1, (-0x1.a8779cda8eea4p-1));
  (0x1.4748bd7c88df2p+1, 0x1.1a977c0abc7a9p-1, (-0x1.aaf3151cc0cccp-1));
  (0x1.4866b1e6ae08fp+1, 0x1.16daed770771fp-1, (-0x1.ad663a8ae2fdbp-1));
  (0x1.4984a650d332cp+1, 0x1.1318ef2c01a5dp-1, (-0x1.afd100eafc28ep-1));
  (0x1.4aa29abaf85cap+1, 0x1.0f5193eacdd2ap-1, (-0x1.b2335c2cda945p-1));
  (0x1.4bc08f251d867p+1, 0x1.0b84ee8f52e9dp-1, (-0x1.b48d406a50540p-1));
  (0x1.4cde838f42b04p+1, 0x1.07b3120fddf15p-1, (-0x1.b6dea1e76eaddp-1));
  (0x1.4dfc77f967da2p+1, 0x1.03dc117cc3615p-1, (-0x1.b9277512c0a92p-1));
  (0x1.4f1a6c638d03fp+1, 0x1.fffffffffffffp-2, (-0x1.bb67ae8584cabp-1));
  (0x1.503860cdb22dcp+1, 0x1.f83de1b9b276fp-2, (-0x1.bd9f4303e5fc2p-1));
  (0x1.51565537d7579p+1, 0x1.f071eedefa0efp-2, (-0x1.bfce277d339c6p-1));
  (0x1.527449a1fc816p+1, 0x1.e89c4e59427b5p-2, (-0x1.c1f4510c18b94p-1));
  (0x1.53923e0c21ab4p+1, 0x1.e0bd274245077p-2, (-0x1.c411b4f6d2708p-1));
  (0x1.54b0327646d51p+1, 0x1.d8d4a0e345738p-2, (-0x1.c62648af65771p-1));
  (0x1.55ce26e06bfeep+1, 0x1.d0e2e2b44de02p-2, (-0x1.c83201d3d2c6cp-1));
  (0x1.56ec1b4a9128bp+1, 0x1.c8e8145b69d48p-2, (-0x1.ca34d62e4b6f9p-1));
  (0x1.580a0fb4b6528p+1, 0x1.c0e45dabe05cdp-2, (-0x1.cc2ebbb5638c8p-1));
  (0x1.5928041edb7c5p+1, 0x1.b8d7e6a56d47dp-2, (-0x1.ce1fa88c445b9p-1));
  (0x1.5a45f88900a63p+1, 0x1.b0c2d77379854p-2, (-0x1.d0079302dd767p-1));
  (0x1.5b63ecf325d00p+1, 0x1.a8a5586c52ad6p-2, (-0x1.d1e67196152bdp-1));
  (0x1.5c81e15d4af9ep+1, 0x1.a07f921061acep-2, (-0x1.d3bc3aeff7f96p-1));
  (0x1.5d9fd5c77023bp+1, 0x1.9851ad0960a5bp-2, (-0x1.d588e5e7e7228p-1));
  (0x1.5ebdca31954d8p+1, 0x1.901bd2298ffabp-2, (-0x1.d74c6982c666fp-1));
  (0x1.5fdbbe9bba775p+1, 0x1.87de2a6aea965p-2, (-0x1.d906bcf328d46p-1));
  (0x1.60f9b305dfa12p+1, 0x1.7f98deee59685p-2, (-0x1.dab7d7997cb57p-1));
  (0x1.6217a77004cafp+1, 0x1.774c18fae6221p-2, (-0x1.dc5fb104369b1p-1));
  (0x1.63359bda29f4cp+1, 0x1.6ef801fced343p-2, (-0x1.ddfe40effb804p-1));
  (0x1.645390444f1eap+1, 0x1.669cc3854f11dp-2, (-0x1.df937f47ca07cp-1));
  (0x1.657184ae74487p+1, 0x1.5e3a8748a0bf8p-2, (-0x1.e11f642522d1bp-1));
  (0x1.668f791899725p+1, 0x1.55d1771e5bab6p-2, (-0x1.e2a1e7d02fe9fp-1));
  (0x1.67ad6d82be9c2p+1, 0x1.4d61bd000cddap-2, (-0x1.e41b02bfeb4cbp-1));
  (0x1.68cb61ece3c5fp+1, 0x1.44eb830883781p-2, (-0x1.e58aad9a44824p-1));
  (0x1.69e9565708efcp+1, 0x1.3c6ef372fe951p-2, (-0x1.e6f0e134454ffp-1));
  (0x1.6b074ac12e199p+1, 0x1.33ec389a5a822p-2, (-0x1.e84d9692357e0p-1));
  (0x1.6c253f2b53436p+1, 0x1.2b637cf83d5cdp-2, (-0x1.e9a0c6e7bdb1fp-1));
  (0x1.6d433395786d4p+1, 0x1.22d4eb2443163p-2, (-0x1.eaea6b98095c0p-1));
  (0x1.6e6127ff9d971p+1, 0x1.1a40add328e2ap-2, (-0x1.ec2a7e35e7b80p-1));
  (0x1.6f7f1c69c2c0ep+1, 0x1.11a6efd5f813bp-2, (-0x1.ed60f883ebe01p-1));
  (0x1.709d10d3e7eabp+1, 0x1.0907dc1930695p-2, (-0x1.ee8dd4748bf14p-1));
  (0x1.71bb053e0d148p+1, 0x1.00639da3f1d7dp-2, (-0x1.efb10c2a3f40dp-1));
  (0x1.72d8f9a8323e6p+1, 0x1.ef74bf2e4b91dp-3, (-0x1.f0ca99f79ba25p-1));
  (0x1.73f6ee1257683p+1, 0x1.de189a594fbd0p-3, (-0x1.f1da785f71bcep-1));
  (0x1.7514e27c7c920p+1, 0x1.ccb3236cdc67cp-3, (-0x1.f2e0a214e870ep-1));
  (0x1.7632d6e6a1bbep+1, 0x1.bb44b13b6256cp-3, (-0x1.f3dd11fb974b6p-1));
  (0x1.7750cb50c6e5bp+1, 0x1.a9cd9ac4258f5p-3, (-0x1.f4cfc327a0080p-1));
  (0x1.786ebfbaec0f8p+1, 0x1.984e37318b218p-3, (-0x1.f5b8b0ddc720fp-1));
  (0x1.798cb42511395p+1, 0x1.86c6ddd766255p-3, (-0x1.f697d6938b6c2p-1));
  (0x1.7aaaa88f36632p+1, 0x1.7537e63143e38p-3, (-0x1.f76d2fef3cc4ap-1));
  (0x1.7bc89cf95b8cfp+1, 0x1.63a1a7e0b7396p-3, (-0x1.f838b8c811c17p-1));
  (0x1.7ce6916380b6dp+1, 0x1.52047aaba33e3p-3, (-0x1.f8fa6d263c772p-1));
  (0x1.7e0485cda5e0ap+1, 0x1.4060b67a85379p-3, (-0x1.f9b24942fe45bp-1));
  (0x1.7f227a37cb0a7p+1, 0x1.2eb6b356bdd7ep-3, (-0x1.fa604988bab1cp-1));
  (0x1.80406ea1f0345p+1, 0x1.1d06c968d9e15p-3, (-0x1.fb046a930947ap-1));
  (0x1.815e630c155e2p+1, 0x1.0b5150f6da2d0p-3, (-0x1.fb9ea92ec689bp-1));
  (0x1.827c57763a87fp+1, 0x1.f32d44c4f62d8p-4, (-0x1.fc2f025a23e8bp-1));
  (0x1.839a4be05fb1cp+1, 0x1.cfae2c4ef6d01p-4, (-0x1.fcb57344b6c57p-1));
  (0x1.84b8404a84db9p+1, 0x1.ac2609b3c577fp-4, (-0x1.fd31f94f867c6p-1));
  (0x1.85d634b4aa057p+1, 0x1.88958e488ed53p-4, (-0x1.fda4920d197a6p-1));
  (0x1.86f4291ecf2f4p+1, 0x1.64fd6b8c28104p-4, (-0x1.fe0d3b41815a2p-1));
  (0x1.88121d88f4591p+1, 0x1.415e532398e52p-4, (-0x1.fe6bf2e2660afp-1));
  (0x1.893011f31982ep+1, 0x1.1db8f6d6a5138p-4, (-0x1.fec0b7170fff6p-1));
  (0x1.8a4e065d3eacbp+1, 0x1.f41c1118aa2fbp-5, (-0x1.ff0b86387164ap-1));
  (0x1.8b6bfac763d68p+1, 0x1.acbc748efc94ap-5, (-0x1.ff4c5ed12e61dp-1));
  (0x1.8c89ef3189006p+1, 0x1.65547c4694e1bp-5, (-0x1.ff833f9da45f7p-1));
  (0x1.8da7e39bae2a3p+1, 0x1.1de58c9f7dc40p-5, (-0x1.ffb0278bf0567p-1));
  (0x1.8ec5d805d3541p+1, 0x1.ace214390ca5fp-6, (-0x1.ffd315bbf4275p-1));
  (0x1.8fe3cc6ff87dep+1, 0x1.1df0b2b89dd09p-6, (-0x1.ffec097f5af8ap-1));
  (0x1.9101c0da1da7bp+1, 0x1.1df37c4954c2fp-7, (-0x1.fffb02599c9cdp-1));
  (0x1.921fb54442d18p+1, 0x1.1a62633145c07p-53, (-0x1.0000000000000p+0));
  (0x1.933da9ae67fb5p+1, (-0x1.1df37c4954ba1p-7), (-0x1.fffb02599c9cdp-1));
  (0x1.945b9e188d252p+1, (-0x1.1df0b2b89dcc2p-6), (-0x1.ffec097f5af8ap-1));
  (0x1.95799282b24efp+1, (-0x1.ace214390ca18p-6), (-0x1.ffd315bbf4275p-1));
  (0x1.969786ecd778dp+1, (-0x1.1de58c9f7dc1dp-5), (-0x1.ffb0278bf0567p-1));
  (0x1.97b57b56fca2ap+1, (-0x1.65547c4694df8p-5), (-0x1.ff833f9da45f7p-1));
  (0x1.98d36fc121cc7p+1, (-0x1.acbc748efc8e7p-5), (-0x1.ff4c5ed12e61dp-1));
  (0x1.99f1642b46f64p+1, (-0x1.f41c1118aa297p-5), (-0x1.ff0b86387164bp-1));
  (0x1.9b0f58956c201p+1, (-0x1.1db8f6d6a5106p-4), (-0x1.fec0b7170fff7p-1));
  (0x1.9c2d4cff9149ep+1, (-0x1.415e532398e20p-4), (-0x1.fe6bf2e2660b0p-1));
  (0x1.9d4b4169b673cp+1, (-0x1.64fd6b8c280f2p-4), (-0x1.fe0d3b41815a2p-1));
  (0x1.9e6935d3db9d9p+1, (-0x1.88958e488ed41p-4), (-0x1.fda4920d197a6p-1));
  (0x1.9f872a3e00c77p+1, (-0x1.ac2609b3c576ep-4), (-0x1.fd31f94f867c6p-1));
  (0x1.a0a51ea825f15p+1, (-0x1.cfae2c4ef6d0fp-4), (-0x1.fcb57344b6c57p-1));
  (0x1.a1c313124b1b2p+1, (-0x1.f32d44c4f62e6p-4), (-0x1.fc2f025a23e8bp-1));
  (0x1.a2e1077c7044fp+1, (-0x1.0b5150f6da2d7p-3), (-0x1.fb9ea92ec689bp-1));
  (0x1.a3fefbe6956ecp+1, (-0x1.1d06c968d9e1cp-3), (-0x1.fb046a9309479p-1));
  (0x1.a51cf050ba989p+1, (-0x1.2eb6b356bdd76p-3), (-0x1.fa604988bab1cp-1));
  (0x1.a63ae4badfc26p+1, (-0x1.4060b67a85370p-3), (-0x1.f9b24942fe45cp-1));
  (0x1.a758d92504ec3p+1, (-0x1.52047aaba33dbp-3), (-0x1.f8fa6d263c772p-1));
  (0x1.a876cd8f2a161p+1, (-0x1.63a1a7e0b738ep-3), (-0x1.f838b8c811c17p-1));
  (0x1.a994c1f94f3fep+1, (-0x1.7537e63143e2fp-3), (-0x1.f76d2fef3cc4bp-1));
  (0x1.aab2b6637469bp+1, (-0x1.86c6ddd76624cp-3), (-0x1.f697d6938b6c2p-1));
  (0x1.abd0aacd99938p+1, (-0x1.984e37318b20fp-3), (-0x1.f5b8b0ddc7210p-1));
  (0x1.acee9f37bebd5p+1, (-0x1.a9cd9ac4258ecp-3), (-0x1.f4cfc327a0080p-1));
  (0x1.ae0c93a1e3e72p+1, (-0x1.bb44b13b62564p-3), (-0x1.f3dd11fb974b7p-1));
  (0x1.af2a880c09110p+1, (-0x1.ccb3236cdc674p-3), (-0x1.f2e0a214e870fp-1));
  (0x1.b0487c762e3adp+1, (-0x1.de189a594fbc7p-3), (-0x1.f1da785f71bcfp-1));
  (0x1.b16670e05364ap+1, (-0x1.ef74bf2e4b915p-3), (-0x1.f0ca99f79ba25p-1));
  (0x1.b284654a788e7p+1, (-0x1.00639da3f1d71p-2), (-0x1.efb10c2a3f40fp-1));
  (0x1.b3a259b49db84p+1, (-0x1.0907dc1930689p-2), (-0x1.ee8dd4748bf16p-1));
  (0x1.b4c04e1ec2e21p+1, (-0x1.11a6efd5f812fp-2), (-0x1.ed60f883ebe03p-1));
  (0x1.b5de4288e80bep+1, (-0x1.1a40add328e1fp-2), (-0x1.ec2a7e35e7b81p-1));
  (0x1.b6fc36f30d35cp+1, (-0x1.22d4eb244315fp-2), (-0x1.eaea6b98095c1p-1));
  (0x1.b81a2b5d325fap+1, (-0x1.2b637cf83d5c8p-2), (-0x1.e9a0c6e7bdb1fp-1));
  (0x1.b9381fc757897p+1, (-0x1.33ec389a5a81dp-2), (-0x1.e84d9692357e1p-1));
  (0x1.ba5614317cb35p+1, (-0x1.3c6ef372fe955p-2), (-0x1.e6f0e134454ffp-1));
  (0x1.bb74089ba1dd2p+1, (-0x1.44eb830883784p-2), (-0x1.e58aad9a44823p-1));
  (0x1.bc91fd05c706fp+1, (-0x1.4d61bd000cdddp-2), (-0x1.e41b02bfeb4cap-1));
  (0x1.bdaff16fec30cp+1, (-0x1.55d1771e5babap-2), (-0x1.e2a1e7d02fe9fp-1));
  (0x1.becde5da115a9p+1, (-0x1.5e3a8748a0bf4p-2), (-0x1.e11f642522d1cp-1));
  (0x1.bfebda4436846p+1, (-0x1.669cc3854f118p-2), (-0x1.df937f47ca07dp-1));
  (0x1.c109ceae5bae4p+1, (-0x1.6ef801fced33fp-2), (-0x1.ddfe40effb805p-1));
  (0x1.c227c31880d81p+1, (-0x1.774c18fae621dp-2), (-0x1.dc5fb104369b1p-1));
  (0x1.c345b782a601ep+1, (-0x1.7f98deee59681p-2), (-0x1.dab7d7997cb58p-1));
  (0x1.c463abeccb2bbp+1, (-0x1.87de2a6aea961p-2), (-0x1.d906bcf328d47p-1));
  (0x1.c581a056f0558p+1, (-0x1.901bd2298ffa7p-2), (-0x1.d74c6982c666fp-1));
  (0x1.c69f94c1157f5p+1, (-0x1.9851ad0960a57p-2), (-0x1.d588e5e7e7229p-1));
  (0x1.c7bd892b3aa92p+1, (-0x1.a07f921061acap-2), (-0x1.d3bc3aeff7f97p-1));
  (0x1.c8db7d955fd30p+1, (-0x1.a8a5586c52ad2p-2), (-0x1.d1e67196152bep-1));
  (0x1.c9f971ff84fcdp+1, (-0x1.b0c2d77379850p-2), (-0x1.d0079302dd768p-1));
  (0x1.cb176669aa26ap+1, (-0x1.b8d7e6a56d471p-2), (-0x1.ce1fa88c445bcp-1));
  (0x1.cc355ad3cf507p+1, (-0x1.c0e45dabe05c2p-2), (-0x1.cc2ebbb5638cbp-1));
  (0x1.cd534f3df47a4p+1, (-0x1.c8e8145b69d3dp-2), (-0x1.ca34d62e4b6fbp-1));
  (0x1.ce7143a819a41p+1, (-0x1.d0e2e2b44ddf7p-2), (-0x1.c83201d3d2c6fp-1));
  (0x1.cf8f38123ecdfp+1, (-0x1.d8d4a0e345735p-2), (-0x1.c62648af65772p-1));
  (0x1.d0ad2c7c63f7cp+1, (-0x1.e0bd274245073p-2), (-0x1.c411b4f6d2709p-1));
  (0x1.d1cb20e68921ap+1, (-0x1.e89c4e59427b1p-2), (-0x1.c1f4510c18b95p-1));
  (0x1.d2e91550ae4b8p+1, (-0x1.f071eedefa0f2p-2), (-0x1.bfce277d339c5p-1));
  (0x1.d40709bad3755p+1, (-0x1.f83de1b9b2772p-2), (-0x1.bd9f4303e5fc1p-1));
  (0x1.d524fe24f89f2p+1, (-0x1.0000000000001p-1), (-0x1.bb67ae8584caap-1));
  (0x1.d642f28f1dc8fp+1, (-0x1.03dc117cc3616p-1), (-0x1.b9277512c0a91p-1));
  (0x1.d760e6f942f2cp+1, (-0x1.07b3120fddf13p-1), (-0x1.b6dea1e76eadep-1));
  (0x1.d87edb63681c9p+1, (-0x1.0b84ee8f52e9bp-1), (-0x1.b48d406a50541p-1));
  (0x1.d99ccfcd8d466p+1, (-0x1.0f5193eacdd29p-1), (-0x1.b2335c2cda946p-1));
  (0x1.dabac437b2704p+1, (-0x1.1318ef2c01a5bp-1), (-0x1.afd100eafc28fp-1));
  (0x1.dbd8b8a1d79a1p+1, (-0x1.16daed770771dp-1), (-0x1.ad663a8ae2fdcp-1));
  (0x1.dcf6ad0bfcc3ep+1, (-0x1.1a977c0abc7a8p-1), (-0x1.aaf3151cc0ccdp-1));
  (0x1.de14a17621edbp+1, (-0x1.1e4e88411fd11p-1), (-0x1.a8779cda8eea6p-1));
  (0x1.df3295e047178p+1, (-0x1.21ffff8faf672p-1), (-0x1.a5f3de27d13f3p-1));
  (0x1.e0508a4a6c415p+1, (-0x1.25abcf87c4976p-1), (-0x1.a367e59158749p-1));
  (0x1.e16e7eb4916b3p+1, (-0x1.2951e5d6f023cp-1), (-0x1.a0d3bfcd03513p-1));
  (0x1.e28c731eb6950p+1, (-0x1.2cf2304755a5dp-1), (-0x1.9e3779b97f4a9p-1));
  (0x1.e3aa6788dbbedp+1, (-0x1.308c9cc006728p-1), (-0x1.9b93205e0848bp-1));
  (0x1.e4c85bf300e8ap+1, (-0x1.342119455beb4p-1), (-0x1.98e6c0ea27a16p-1));
  (0x1.e5e6505d26127p+1, (-0x1.37af93f9513e7p-1), (-0x1.963268b572494p-1));
  (0x1.e70444c74b3c4p+1, (-0x1.3b37fb1bdc935p-1), (-0x1.9376253f463d4p-1));
  (0x1.e822393170661p+1, (-0x1.3eba3d0b47a0ap-1), (-0x1.90b2042e87258p-1));
  (0x1.e9402d9b958ffp+1, (-0x1.4236484487abbp-1), (-0x1.8de613515a329p-1));
  (0x1.ea5e2205bab9dp+1, (-0x1.45ac0b6394ee4p-1), (-0x1.8b12609ce1383p-1));
  (0x1.eb7c166fdfe3ap+1, (-0x1.491b7523c161cp-1), (-0x1.8836fa2cf5039p-1));
  (0x1.ec9a0ada050d8p+1, (-0x1.4c8474600eef0p-1), (-0x1.8553ee43def11p-1));
  (0x1.edb7ff442a375p+1, (-0x1.4fe6f81384fd5p-1), (-0x1.82694b4a11c36p-1));
  (0x1.eed5f3ae4f612p+1, (-0x1.5342ef598564fp-1), (-0x1.7f771fcde1b9ep-1));
  (0x1.eff3e818748afp+1, (-0x1.5698496e20bd8p-1), (-0x1.7c7d7a833bec2p-1));
  (0x1.f111dc8299b4cp+1, (-0x1.59e6f5ae6a0a6p-1), (-0x1.797c6a435ce85p-1));
  (0x1.f22fd0ecbede9p+1, (-0x1.5d2ee398c9c2ap-1), (-0x1.7673fe0c86983p-1));
  (0x1.f34dc556e4087p+1, (-0x1.607002cd5031ep-1), (-0x1.73644501b56ccp-1));
  (0x1.f46bb9c109324p+1, (-0x1.63aa430e07311p-1), (-0x1.704d4e6a54d38p-1));
  (0x1.f589ae2b2e5c1p+1, (-0x1.66dd943f43372p-1), (-0x1.6d2f29b1f2f46p-1));
  (0x1.f6a7a2955385ep+1, (-0x1.6a09e667f3bccp-1), (-0x1.6a09e667f3bcep-1));
  (0x1.f7c596ff78afbp+1, (-0x1.6d2f29b1f2f44p-1), (-0x1.66dd943f43374p-1));
  (0x1.f8e38b699dd98p+1, (-0x1.704d4e6a54d36p-1), (-0x1.63aa430e07313p-1));
  (0x1.fa017fd3c3035p+1, (-0x1.73644501b56cap-1), (-0x1.607002cd50320p-1));
  (0x1.fb1f743de82d3p+1, (-0x1.7673fe0c86982p-1), (-0x1.5d2ee398c9c2cp-1));
  (0x1.fc3d68a80d570p+1, (-0x1.797c6a435ce83p-1), (-0x1.59e6f5ae6a0a8p-1));
  (0x1.fd5b5d123280dp+1, (-0x1.7c7d7a833bec0p-1), (-0x1.5698496e20bdap-1));
  (0x1.fe79517c57aaap+1, (-0x1.7f771fcde1b9cp-1), (-0x1.5342ef5985652p-1));
  (0x1.ff9745e67cd47p+1, (-0x1.82694b4a11c34p-1), (-0x1.4fe6f81384fd7p-1));
  (0x1.005a9d2850ff2p+2, (-0x1.8553ee43def10p-1), (-0x1.4c8474600eef2p-1));
  (0x1.00e9975d63941p+2, (-0x1.8836fa2cf5038p-1), (-0x1.491b7523c161ep-1));
  (0x1.017891927628fp+2, (-0x1.8b12609ce137fp-1), (-0x1.45ac0b6394eeap-1));
  (0x1.02078bc788bdfp+2, (-0x1.8de613515a32ap-1), (-0x1.4236484487abbp-1));
  (0x1.029685fc9b52dp+2, (-0x1.90b2042e87253p-1), (-0x1.3eba3d0b47a0fp-1));
  (0x1.03258031ade7cp+2, (-0x1.9376253f463d3p-1), (-0x1.3b37fb1bdc937p-1));
  (0x1.03b47a66c07cap+2, (-0x1.963268b572490p-1), (-0x1.37af93f9513ecp-1));
  (0x1.0443749bd3119p+2, (-0x1.98e6c0ea27a14p-1), (-0x1.342119455beb6p-1));
  (0x1.04d26ed0e5a68p+2, (-0x1.9b93205e0848bp-1), (-0x1.308c9cc006727p-1));
  (0x1.05616905f83b6p+2, (-0x1.9e3779b97f4a7p-1), (-0x1.2cf2304755a5fp-1));
  (0x1.05f0633b0ad05p+2, (-0x1.a0d3bfcd03514p-1), (-0x1.2951e5d6f023bp-1));
  (0x1.067f5d701d653p+2, (-0x1.a367e59158745p-1), (-0x1.25abcf87c497bp-1));
  (0x1.070e57a52ffa2p+2, (-0x1.a5f3de27d13f2p-1), (-0x1.21ffff8faf674p-1));
  (0x1.079d51da428f0p+2, (-0x1.a8779cda8eea2p-1), (-0x1.1e4e88411fd16p-1));
  (0x1.082c4c0f5523fp+2, (-0x1.aaf3151cc0cccp-1), (-0x1.1a977c0abc7aap-1));
  (0x1.08bb464467b8ep+2, (-0x1.ad663a8ae2fdcp-1), (-0x1.16daed770771cp-1));
  (0x1.094a40797a4dcp+2, (-0x1.afd100eafc28ep-1), (-0x1.1318ef2c01a5ep-1));
  (0x1.09d93aae8ce2bp+2, (-0x1.b2335c2cda945p-1), (-0x1.0f5193eacdd2bp-1));
  (0x1.0a6834e39f779p+2, (-0x1.b48d406a5053ep-1), (-0x1.0b84ee8f52ea1p-1));
  (0x1.0af72f18b20c8p+2, (-0x1.b6dea1e76eadcp-1), (-0x1.07b3120fddf16p-1));
  (0x1.0b86294dc4a16p+2, (-0x1.b9277512c0a8ep-1), (-0x1.03dc117cc361cp-1));
  (0x1.0c152382d7365p+2, (-0x1.bb67ae8584ca8p-1), (-0x1.0000000000004p-1));
  (0x1.0ca41db7e9cb4p+2, (-0x1.bd9f4303e5fc1p-1), (-0x1.f83de1b9b2770p-2));
  (0x1.0d3317ecfc602p+2, (-0x1.bfce277d339c4p-1), (-0x1.f071eedefa0f7p-2));
  (0x1.0dc212220ef51p+2, (-0x1.c1f4510c18b94p-1), (-0x1.e89c4e59427b6p-2));
  (0x1.0e510c57218a0p+2, (-0x1.c411b4f6d2708p-1), (-0x1.e0bd274245078p-2));
  (0x1.0ee0068c341efp+2, (-0x1.c62648af65772p-1), (-0x1.d8d4a0e345732p-2));
  (0x1.0f6f00c146b3dp+2, (-0x1.c83201d3d2c6cp-1), (-0x1.d0e2e2b44de03p-2));
  (0x1.0ffdfaf65948cp+2, (-0x1.ca34d62e4b6fap-1), (-0x1.c8e8145b69d42p-2));
  (0x1.108cf52b6bddap+2, (-0x1.cc2ebbb5638c8p-1), (-0x1.c0e45dabe05cep-2));
  (0x1.111bef607e729p+2, (-0x1.ce1fa88c445bbp-1), (-0x1.b8d7e6a56d476p-2));
  (0x1.11aae99591078p+2, (-0x1.d0079302dd768p-1), (-0x1.b0c2d7737984ep-2));
  (0x1.1239e3caa39c6p+2, (-0x1.d1e67196152bdp-1), (-0x1.a8a5586c52ad7p-2));
  (0x1.12c8ddffb6315p+2, (-0x1.d3bc3aeff7f96p-1), (-0x1.a07f921061acfp-2));
  (0x1.1357d834c8c63p+2, (-0x1.d588e5e7e7227p-1), (-0x1.9851ad0960a63p-2));
  (0x1.13e6d269db5b2p+2, (-0x1.d74c6982c666ep-1), (-0x1.901bd2298ffacp-2));
  (0x1.1475cc9eedf00p+2, (-0x1.d906bcf328d44p-1), (-0x1.87de2a6aea96dp-2));
  (0x1.1504c6d40084fp+2, (-0x1.dab7d7997cb57p-1), (-0x1.7f98deee59686p-2));
  (0x1.1593c1091319ep+2, (-0x1.dc5fb104369b2p-1), (-0x1.774c18fae621ap-2));
  (0x1.1622bb3e25aecp+2, (-0x1.ddfe40effb804p-1), (-0x1.6ef801fced344p-2));
  (0x1.16b1b5733843bp+2, (-0x1.df937f47ca07cp-1), (-0x1.669cc3854f11ep-2));
  (0x1.1740afa84ad89p+2, (-0x1.e11f642522d1ap-1), (-0x1.5e3a8748a0c01p-2));
  (0x1.17cfa9dd5d6d8p+2, (-0x1.e2a1e7d02fe9ep-1), (-0x1.55d1771e5babfp-2));
  (0x1.185ea41270027p+2, (-0x1.e41b02bfeb4cbp-1), (-0x1.4d61bd000cddbp-2));
  (0x1.18ed9e4782975p+2, (-0x1.e58aad9a44823p-1), (-0x1.44eb83088378ap-2));
  (0x1.197c987c952c4p+2, (-0x1.e6f0e134454ffp-1), (-0x1.3c6ef372fe952p-2));
  (0x1.1a0b92b1a7c12p+2, (-0x1.e84d9692357dfp-1), (-0x1.33ec389a5a82ap-2));
  (0x1.1a9a8ce6ba561p+2, (-0x1.e9a0c6e7bdb1ep-1), (-0x1.2b637cf83d5cep-2));
  (0x1.1b29871bcceb0p+2, (-0x1.eaea6b98095c0p-1), (-0x1.22d4eb2443164p-2));
  (0x1.1bb88150df7ffp+2, (-0x1.ec2a7e35e7b81p-1), (-0x1.1a40add328e24p-2));
  (0x1.1c477b85f214dp+2, (-0x1.ed60f883ebe01p-1), (-0x1.11a6efd5f813cp-2));
  (0x1.1cd675bb04a9cp+2, (-0x1.ee8dd4748bf15p-1), (-0x1.0907dc193068ep-2));
  (0x1.1d656ff0173ebp+2, (-0x1.efb10c2a3f40fp-1), (-0x1.00639da3f1d6ep-2));
  (0x1.1df46a2529d39p+2, (-0x1.f0ca99f79ba25p-1), (-0x1.ef74bf2e4b91fp-3));
  (0x1.1e83645a3c688p+2, (-0x1.f1da785f71bcfp-1), (-0x1.de189a594fbc2p-3));
  (0x1.1f125e8f4efd6p+2, (-0x1.f2e0a214e870ep-1), (-0x1.ccb3236cdc67ep-3));
  (0x1.1fa158c461925p+2, (-0x1.f3dd11fb974b6p-1), (-0x1.bb44b13b6256fp-3));
  (0x1.203052f974273p+2, (-0x1.f4cfc327a007fp-1), (-0x1.a9cd9ac425906p-3));
  (0x1.20bf4d2e86bc2p+2, (-0x1.f5b8b0ddc720fp-1), (-0x1.984e37318b21ap-3));
  (0x1.214e476399511p+2, (-0x1.f697d6938b6c2p-1), (-0x1.86c6ddd766248p-3));
  (0x1.21dd4198abe5fp+2, (-0x1.f76d2fef3cc4ap-1), (-0x1.7537e63143e3ap-3));
  (0x1.226c3bcdbe7aep+2, (-0x1.f838b8c811c17p-1), (-0x1.63a1a7e0b7389p-3));
  (0x1.22fb3602d10fcp+2, (-0x1.f8fa6d263c771p-1), (-0x1.52047aaba33f5p-3));
  (0x1.238a3037e3a4bp+2, (-0x1.f9b24942fe45bp-1), (-0x1.4060b67a8537bp-3));
  (0x1.24192a6cf6399p+2, (-0x1.fa604988bab1bp-1), (-0x1.2eb6b356bdd90p-3));
  (0x1.24a824a208ce8p+2, (-0x1.fb046a9309479p-1), (-0x1.1d06c968d9e27p-3));
  (0x1.25371ed71b637p+2, (-0x1.fb9ea92ec689bp-1), (-0x1.0b5150f6da2d2p-3));
  (0x1.25c6190c2df85p+2, (-0x1.fc2f025a23e8bp-1), (-0x1.f32d44c4f62fcp-4));
  (0x1.26551341408d4p+2, (-0x1.fcb57344b6c57p-1), (-0x1.cfae2c4ef6d05p-4));
  (0x1.26e40d7653222p+2, (-0x1.fd31f94f867c6p-1), (-0x1.ac2609b3c57a3p-4));
  (0x1.277307ab65b72p+2, (-0x1.fda4920d197a6p-1), (-0x1.88958e488ed37p-4));
  (0x1.280201e0784c0p+2, (-0x1.fe0d3b41815a2p-1), (-0x1.64fd6b8c28108p-4));
  (0x1.2890fc158ae0fp+2, (-0x1.fe6bf2e2660afp-1), (-0x1.415e532398e36p-4));
  (0x1.291ff64a9d75dp+2, (-0x1.fec0b7170fff6p-1), (-0x1.1db8f6d6a513cp-4));
  (0x1.29aef07fb00acp+2, (-0x1.ff0b86387164bp-1), (-0x1.f41c1118aa2c3p-5));
  (0x1.2a3deab4c29fbp+2, (-0x1.ff4c5ed12e61ep-1), (-0x1.acbc748efc8d3p-5));
  (0x1.2acce4e9d5349p+2, (-0x1.ff833f9da45f7p-1), (-0x1.65547c4694e24p-5));
  (0x1.2b5bdf1ee7c98p+2, (-0x1.ffb0278bf0567p-1), (-0x1.1de58c9f7dc09p-5));
  (0x1.2bead953fa5e6p+2, (-0x1.ffd315bbf4275p-1), (-0x1.ace214390caf0p-6));
  (0x1.2c79d3890cf35p+2, (-0x1.ffec097f5af8ap-1), (-0x1.1df0b2b89dd1ap-6));
  (0x1.2d08cdbe1f883p+2, (-0x1.fffb02599c9cdp-1), (-0x1.1df37c4954d52p-7));
  (0x1.2d97c7f3321d2p+2, (-0x1.0000000000000p+0), (-0x1.a79394c9e8a0ap-53));
  (0x1.2e26c22844b21p+2, (-0x1.fffb02599c9cdp-1), 0x1.1df37c4954c7ep-7);
  (0x1.2eb5bc5d5746fp+2, (-0x1.ffec097f5af8ap-1), 0x1.1df0b2b89dcb0p-6);
  (0x1.2f44b69269dbep+2, (-0x1.ffd315bbf4275p-1), 0x1.ace214390ca86p-6);
  (0x1.2fd3b0c77c70cp+2, (-0x1.ffb0278bf0567p-1), 0x1.1de58c9f7dbd4p-5);
  (0x1.3062aafc8f05bp+2, (-0x1.ff833f9da45f7p-1), 0x1.65547c4694defp-5);
  (0x1.30f1a531a19a9p+2, (-0x1.ff4c5ed12e61ep-1), 0x1.acbc748efc89ep-5);
  (0x1.31809f66b42f8p+2, (-0x1.ff0b86387164bp-1), 0x1.f41c1118aa28fp-5);
  (0x1.320f999bc6c47p+2, (-0x1.fec0b7170fff7p-1), 0x1.1db8f6d6a5122p-4);
  (0x1.329e93d0d9595p+2, (-0x1.fe6bf2e2660b0p-1), 0x1.415e532398e1cp-4);
  (0x1.332d8e05ebee4p+2, (-0x1.fe0d3b41815a2p-1), 0x1.64fd6b8c280eep-4);
  (0x1.33bc883afe832p+2, (-0x1.fda4920d197a6p-1), 0x1.88958e488ed1dp-4);
  (0x1.344b827011182p+2, (-0x1.fd31f94f867c6p-1), 0x1.ac2609b3c5789p-4);
  (0x1.34da7ca523ad0p+2, (-0x1.fcb57344b6c58p-1), 0x1.cfae2c4ef6cebp-4);
  (0x1.356976da3641fp+2, (-0x1.fc2f025a23e8bp-1), 0x1.f32d44c4f62e2p-4);
  (0x1.35f8710f48d6dp+2, (-0x1.fb9ea92ec689cp-1), 0x1.0b5150f6da2c5p-3);
  (0x1.36876b445b6bcp+2, (-0x1.fb046a930947ap-1), 0x1.1d06c968d9e1ap-3);
  (0x1.371665796e00bp+2, (-0x1.fa604988bab1cp-1), 0x1.2eb6b356bdd83p-3);
  (0x1.37a55fae80959p+2, (-0x1.f9b24942fe45cp-1), 0x1.4060b67a8536ep-3);
  (0x1.383459e3932a8p+2, (-0x1.f8fa6d263c771p-1), 0x1.52047aaba33e8p-3);
  (0x1.38c35418a5bf6p+2, (-0x1.f838b8c811c18p-1), 0x1.63a1a7e0b737cp-3);
  (0x1.39524e4db8545p+2, (-0x1.f76d2fef3cc4bp-1), 0x1.7537e63143e2dp-3);
  (0x1.39e14882cae93p+2, (-0x1.f697d6938b6c3p-1), 0x1.86c6ddd76623bp-3);
  (0x1.3a7042b7dd7e2p+2, (-0x1.f5b8b0ddc7210p-1), 0x1.984e37318b20dp-3);
  (0x1.3aff3cecf0131p+2, (-0x1.f4cfc327a007fp-1), 0x1.a9cd9ac4258f9p-3);
  (0x1.3b8e372202a7fp+2, (-0x1.f3dd11fb974b7p-1), 0x1.bb44b13b62562p-3);
  (0x1.3c1d3157153cep+2, (-0x1.f2e0a214e870fp-1), 0x1.ccb3236cdc672p-3);
  (0x1.3cac2b8c27d1cp+2, (-0x1.f1da785f71bd0p-1), 0x1.de189a594fbb5p-3);
  (0x1.3d3b25c13a66bp+2, (-0x1.f0ca99f79ba26p-1), 0x1.ef74bf2e4b913p-3);
  (0x1.3dca1ff64cfb9p+2, (-0x1.efb10c2a3f410p-1), 0x1.00639da3f1d68p-2);
  (0x1.3e591a2b5f908p+2, (-0x1.ee8dd4748bf16p-1), 0x1.0907dc1930688p-2);
  (0x1.3ee8146072257p+2, (-0x1.ed60f883ebe02p-1), 0x1.11a6efd5f8136p-2);
  (0x1.3f770e9584ba5p+2, (-0x1.ec2a7e35e7b81p-1), 0x1.1a40add328e1dp-2);
  (0x1.400608ca974f4p+2, (-0x1.eaea6b98095c1p-1), 0x1.22d4eb244315ep-2);
  (0x1.409502ffa9e43p+2, (-0x1.e9a0c6e7bdb1fp-1), 0x1.2b637cf83d5c7p-2);
  (0x1.4123fd34bc792p+2, (-0x1.e84d9692357e0p-1), 0x1.33ec389a5a824p-2);
  (0x1.41b2f769cf0e0p+2, (-0x1.e6f0e13445500p-1), 0x1.3c6ef372fe94cp-2);
  (0x1.4241f19ee1a2fp+2, (-0x1.e58aad9a44824p-1), 0x1.44eb830883783p-2);
  (0x1.42d0ebd3f437dp+2, (-0x1.e41b02bfeb4ccp-1), 0x1.4d61bd000cdd5p-2);
  (0x1.435fe60906cccp+2, (-0x1.e2a1e7d02fe9fp-1), 0x1.55d1771e5bab9p-2);
  (0x1.43eee03e1961bp+2, (-0x1.e11f642522d1bp-1), 0x1.5e3a8748a0bfap-2);
  (0x1.447dda732bf69p+2, (-0x1.df937f47ca07dp-1), 0x1.669cc3854f117p-2);
  (0x1.450cd4a83e8b8p+2, (-0x1.ddfe40effb805p-1), 0x1.6ef801fced33ep-2);
  (0x1.459bcedd51206p+2, (-0x1.dc5fb104369b3p-1), 0x1.774c18fae6214p-2);
  (0x1.462ac91263b55p+2, (-0x1.dab7d7997cb58p-1), 0x1.7f98deee59680p-2);
  (0x1.46b9c347764a4p+2, (-0x1.d906bcf328d45p-1), 0x1.87de2a6aea967p-2);
  (0x1.4748bd7c88df2p+2, (-0x1.d74c6982c6670p-1), 0x1.901bd2298ffa6p-2);
  (0x1.47d7b7b19b741p+2, (-0x1.d588e5e7e7228p-1), 0x1.9851ad0960a5dp-2);
  (0x1.4866b1e6ae08fp+2, (-0x1.d3bc3aeff7f97p-1), 0x1.a07f921061ac9p-2);
  (0x1.48f5ac1bc09dep+2, (-0x1.d1e67196152bep-1), 0x1.a8a5586c52ad1p-2);
  (0x1.4984a650d332cp+2, (-0x1.d0079302dd76ap-1), 0x1.b0c2d77379848p-2);
  (0x1.4a13a085e5c7bp+2, (-0x1.ce1fa88c445bcp-1), 0x1.b8d7e6a56d470p-2);
  (0x1.4aa29abaf85cap+2, (-0x1.cc2ebbb5638cap-1), 0x1.c0e45dabe05c8p-2);
  (0x1.4b3194f00af18p+2, (-0x1.ca34d62e4b6fcp-1), 0x1.c8e8145b69d3cp-2);
  (0x1.4bc08f251d867p+2, (-0x1.c83201d3d2c6ep-1), 0x1.d0e2e2b44ddfep-2);
  (0x1.4c4f895a301b5p+2, (-0x1.c62648af65774p-1), 0x1.d8d4a0e34572cp-2);
  (0x1.4cde838f42b04p+2, (-0x1.c411b4f6d2709p-1), 0x1.e0bd274245072p-2);
  (0x1.4d6d7dc455453p+2, (-0x1.c1f4510c18b95p-1), 0x1.e89c4e59427b0p-2);
  (0x1.4dfc77f967da2p+2, (-0x1.bfce277d339c5p-1), 0x1.f071eedefa0f1p-2);
  (0x1.4e8b722e7a6f0p+2, (-0x1.bd9f4303e5fc3p-1), 0x1.f83de1b9b276ap-2);
  (0x1.4f1a6c638d03fp+2, (-0x1.bb67ae8584caap-1), 0x1.0000000000001p-1);
  (0x1.4fa966989f98ep+2, (-0x1.b9277512c0a8fp-1), 0x1.03dc117cc3619p-1);
  (0x1.503860cdb22dcp+2, (-0x1.b6dea1e76eadep-1), 0x1.07b3120fddf13p-1);
  (0x1.50c75b02c4c2bp+2, (-0x1.b48d406a5053fp-1), 0x1.0b84ee8f52e9ep-1);
  (0x1.51565537d7579p+2, (-0x1.b2335c2cda947p-1), 0x1.0f5193eacdd28p-1);
  (0x1.51e54f6ce9ec8p+2, (-0x1.afd100eafc290p-1), 0x1.1318ef2c01a5bp-1);
  (0x1.527449a1fc816p+2, (-0x1.ad663a8ae2fdep-1), 0x1.16daed7707719p-1);
  (0x1.530343d70f165p+2, (-0x1.aaf3151cc0ccep-1), 0x1.1a977c0abc7a7p-1);
  (0x1.53923e0c21ab4p+2, (-0x1.a8779cda8eea4p-1), 0x1.1e4e88411fd14p-1);
  (0x1.5421384134402p+2, (-0x1.a5f3de27d13f3p-1), 0x1.21ffff8faf671p-1);
  (0x1.54b0327646d51p+2, (-0x1.a367e59158747p-1), 0x1.25abcf87c4978p-1);
  (0x1.553f2cab5969fp+2, (-0x1.a0d3bfcd03516p-1), 0x1.2951e5d6f0238p-1);
  (0x1.55ce26e06bfeep+2, (-0x1.9e3779b97f4a9p-1), 0x1.2cf2304755a5cp-1);
  (0x1.565d21157e93cp+2, (-0x1.9b93205e0848dp-1), 0x1.308c9cc006724p-1);
  (0x1.56ec1b4a9128bp+2, (-0x1.98e6c0ea27a16p-1), 0x1.342119455beb3p-1);
  (0x1.577b157fa3bdap+2, (-0x1.963268b572492p-1), 0x1.37af93f9513e9p-1);
  (0x1.580a0fb4b6528p+2, (-0x1.9376253f463d5p-1), 0x1.3b37fb1bdc935p-1);
  (0x1.589909e9c8e77p+2, (-0x1.90b2042e87255p-1), 0x1.3eba3d0b47a0cp-1);
  (0x1.5928041edb7c5p+2, (-0x1.8de613515a32cp-1), 0x1.4236484487ab8p-1);
  (0x1.59b6fe53ee115p+2, (-0x1.8b12609ce1381p-1), 0x1.45ac0b6394ee7p-1);
  (0x1.5a45f88900a63p+2, (-0x1.8836fa2cf503ap-1), 0x1.491b7523c161cp-1);
  (0x1.5ad4f2be133b2p+2, (-0x1.8553ee43def12p-1), 0x1.4c8474600eef0p-1);
  (0x1.5b63ecf325d00p+2, (-0x1.82694b4a11c39p-1), 0x1.4fe6f81384fd2p-1);
  (0x1.5bf2e7283864fp+2, (-0x1.7f771fcde1b9ep-1), 0x1.5342ef598564fp-1);
  (0x1.5c81e15d4af9ep+2, (-0x1.7c7d7a833bec0p-1), 0x1.5698496e20bdap-1);
  (0x1.5d10db925d8ecp+2, (-0x1.797c6a435ce86p-1), 0x1.59e6f5ae6a0a6p-1);
  (0x1.5d9fd5c77023bp+2, (-0x1.7673fe0c86981p-1), 0x1.5d2ee398c9c2cp-1);
  (0x1.5e2ecffc82b89p+2, (-0x1.73644501b56cfp-1), 0x1.607002cd5031ap-1);
  (0x1.5ebdca31954d8p+2, (-0x1.704d4e6a54d39p-1), 0x1.63aa430e07310p-1);
  (0x1.5f4cc466a7e26p+2, (-0x1.6d2f29b1f2f4ap-1), 0x1.66dd943f4336ep-1);
  (0x1.5fdbbe9bba775p+2, (-0x1.6a09e667f3bcep-1), 0x1.6a09e667f3bcbp-1);
  (0x1.606ab8d0cd0c4p+2, (-0x1.66dd943f43371p-1), 0x1.6d2f29b1f2f47p-1);
  (0x1.60f9b305dfa12p+2, (-0x1.63aa430e07313p-1), 0x1.704d4e6a54d36p-1);
  (0x1.6188ad3af2361p+2, (-0x1.607002cd5031dp-1), 0x1.73644501b56cdp-1);
  (0x1.6217a77004cafp+2, (-0x1.5d2ee398c9c2fp-1), 0x1.7673fe0c8697ep-1);
  (0x1.62a6a1a5175fep+2, (-0x1.59e6f5ae6a0a9p-1), 0x1.797c6a435ce83p-1);
  (0x1.63359bda29f4cp+2, (-0x1.5698496e20bddp-1), 0x1.7c7d7a833bebdp-1);
  (0x1.63c4960f3c89bp+2, (-0x1.5342ef5985652p-1), 0x1.7f771fcde1b9cp-1);
  (0x1.645390444f1eap+2, (-0x1.4fe6f81384fd5p-1), 0x1.82694b4a11c36p-1);
  (0x1.64e28a7961b38p+2, (-0x1.4c8474600eef3p-1), 0x1.8553ee43def0fp-1);
  (0x1.657184ae74487p+2, (-0x1.491b7523c161fp-1), 0x1.8836fa2cf5037p-1);
  (0x1.66007ee386dd5p+2, (-0x1.45ac0b6394eeap-1), 0x1.8b12609ce137fp-1);
  (0x1.668f791899725p+2, (-0x1.4236484487abbp-1), 0x1.8de613515a32ap-1);
  (0x1.671e734dac073p+2, (-0x1.3eba3d0b47a0fp-1), 0x1.90b2042e87253p-1);
  (0x1.67ad6d82be9c2p+2, (-0x1.3b37fb1bdc938p-1), 0x1.9376253f463d2p-1);
  (0x1.683c67b7d1310p+2, (-0x1.37af93f9513ecp-1), 0x1.963268b572490p-1);
  (0x1.68cb61ece3c5fp+2, (-0x1.342119455beb6p-1), 0x1.98e6c0ea27a14p-1);
  (0x1.695a5c21f65aep+2, (-0x1.308c9cc006727p-1), 0x1.9b93205e0848bp-1);
  (0x1.69e9565708efcp+2, (-0x1.2cf2304755a60p-1), 0x1.9e3779b97f4a7p-1);
  (0x1.6a78508c1b84bp+2, (-0x1.2951e5d6f023bp-1), 0x1.a0d3bfcd03514p-1);
  (0x1.6b074ac12e199p+2, (-0x1.25abcf87c497cp-1), 0x1.a367e59158745p-1);
  (0x1.6b9644f640ae8p+2, (-0x1.21ffff8faf675p-1), 0x1.a5f3de27d13f1p-1);
  (0x1.6c253f2b53436p+2, (-0x1.1e4e88411fd17p-1), 0x1.a8779cda8eea2p-1);
  (0x1.6cb4396065d85p+2, (-0x1.1a977c0abc7aap-1), 0x1.aaf3151cc0ccbp-1);
  (0x1.6d433395786d4p+2, (-0x1.16daed770771cp-1), 0x1.ad663a8ae2fdcp-1);
  (0x1.6dd22dca8b022p+2, (-0x1.1318ef2c01a5ep-1), 0x1.afd100eafc28ep-1);
  (0x1.6e6127ff9d971p+2, (-0x1.0f5193eacdd2bp-1), 0x1.b2335c2cda945p-1);
  (0x1.6ef02234b02bfp+2, (-0x1.0b84ee8f52ea2p-1), 0x1.b48d406a5053dp-1);
  (0x1.6f7f1c69c2c0ep+2, (-0x1.07b3120fddf16p-1), 0x1.b6dea1e76eadcp-1);
  (0x1.700e169ed555cp+2, (-0x1.03dc117cc361cp-1), 0x1.b9277512c0a8dp-1);
  (0x1.709d10d3e7eabp+2, (-0x1.0000000000004p-1), 0x1.bb67ae8584ca8p-1);
  (0x1.712c0b08fa7fap+2, (-0x1.f83de1b9b2771p-2), 0x1.bd9f4303e5fc1p-1);
  (0x1.71bb053e0d148p+2, (-0x1.f071eedefa0f8p-2), 0x1.bfce277d339c3p-1);
  (0x1.7249ff731fa97p+2, (-0x1.e89c4e59427b7p-2), 0x1.c1f4510c18b93p-1);
  (0x1.72d8f9a8323e6p+2, (-0x1.e0bd274245079p-2), 0x1.c411b4f6d2707p-1);
  (0x1.7367f3dd44d35p+2, (-0x1.d8d4a0e345733p-2), 0x1.c62648af65772p-1);
  (0x1.73f6ee1257683p+2, (-0x1.d0e2e2b44de04p-2), 0x1.c83201d3d2c6cp-1);
  (0x1.7485e84769fd2p+2, (-0x1.c8e8145b69d43p-2), 0x1.ca34d62e4b6fap-1);
  (0x1.7514e27c7c920p+2, (-0x1.c0e45dabe05cfp-2), 0x1.cc2ebbb5638c8p-1);
  (0x1.75a3dcb18f26fp+2, (-0x1.b8d7e6a56d477p-2), 0x1.ce1fa88c445bap-1);
  (0x1.7632d6e6a1bbep+2, (-0x1.b0c2d7737984fp-2), 0x1.d0079302dd768p-1);
  (0x1.76c1d11bb450cp+2, (-0x1.a8a5586c52ad8p-2), 0x1.d1e67196152bdp-1);
  (0x1.7750cb50c6e5bp+2, (-0x1.a07f921061ad0p-2), 0x1.d3bc3aeff7f96p-1);
  (0x1.77dfc585d97a9p+2, (-0x1.9851ad0960a64p-2), 0x1.d588e5e7e7226p-1);
  (0x1.786ebfbaec0f8p+2, (-0x1.901bd2298ffadp-2), 0x1.d74c6982c666ep-1);
  (0x1.78fdb9effea46p+2, (-0x1.87de2a6aea96ep-2), 0x1.d906bcf328d44p-1);
  (0x1.798cb42511395p+2, (-0x1.7f98deee59687p-2), 0x1.dab7d7997cb57p-1);
  (0x1.7a1bae5a23ce4p+2, (-0x1.774c18fae621bp-2), 0x1.dc5fb104369b2p-1);
  (0x1.7aaaa88f36632p+2, (-0x1.6ef801fced345p-2), 0x1.ddfe40effb803p-1);
  (0x1.7b39a2c448f81p+2, (-0x1.669cc3854f11fp-2), 0x1.df937f47ca07cp-1);
  (0x1.7bc89cf95b8cfp+2, (-0x1.5e3a8748a0c02p-2), 0x1.e11f642522d19p-1);
  (0x1.7c57972e6e21ep+2, (-0x1.55d1771e5bac0p-2), 0x1.e2a1e7d02fe9ep-1);
  (0x1.7ce6916380b6dp+2, (-0x1.4d61bd000cddcp-2), 0x1.e41b02bfeb4cbp-1);
  (0x1.7d758b98934bbp+2, (-0x1.44eb83088378bp-2), 0x1.e58aad9a44822p-1);
  (0x1.7e0485cda5e0ap+2, (-0x1.3c6ef372fe953p-2), 0x1.e6f0e134454ffp-1);
  (0x1.7e938002b8758p+2, (-0x1.33ec389a5a82bp-2), 0x1.e84d9692357dfp-1);
  (0x1.7f227a37cb0a7p+2, (-0x1.2b637cf83d5cfp-2), 0x1.e9a0c6e7bdb1ep-1);
  (0x1.7fb1746cdd9f6p+2, (-0x1.22d4eb2443165p-2), 0x1.eaea6b98095c0p-1);
  (0x1.80406ea1f0345p+2, (-0x1.1a40add328e25p-2), 0x1.ec2a7e35e7b80p-1);
  (0x1.80cf68d702c93p+2, (-0x1.11a6efd5f813dp-2), 0x1.ed60f883ebe01p-1);
  (0x1.815e630c155e2p+2, (-0x1.0907dc193068fp-2), 0x1.ee8dd4748bf15p-1);
  (0x1.81ed5d4127f31p+2, (-0x1.00639da3f1d6fp-2), 0x1.efb10c2a3f40fp-1);
  (0x1.827c57763a87fp+2, (-0x1.ef74bf2e4b922p-3), 0x1.f0ca99f79ba25p-1);
  (0x1.830b51ab4d1cep+2, (-0x1.de189a594fbc4p-3), 0x1.f1da785f71bcfp-1);
  (0x1.839a4be05fb1cp+2, (-0x1.ccb3236cdc681p-3), 0x1.f2e0a214e870ep-1);
  (0x1.842946157246bp+2, (-0x1.bb44b13b62571p-3), 0x1.f3dd11fb974b6p-1);
  (0x1.84b8404a84db9p+2, (-0x1.a9cd9ac425909p-3), 0x1.f4cfc327a007fp-1);
  (0x1.85473a7f97708p+2, (-0x1.984e37318b21cp-3), 0x1.f5b8b0ddc720fp-1);
  (0x1.85d634b4aa057p+2, (-0x1.86c6ddd76624ap-3), 0x1.f697d6938b6c2p-1);
  (0x1.86652ee9bc9a5p+2, (-0x1.7537e63143e3cp-3), 0x1.f76d2fef3cc4ap-1);
  (0x1.86f4291ecf2f4p+2, (-0x1.63a1a7e0b738bp-3), 0x1.f838b8c811c17p-1);
  (0x1.87832353e1c42p+2, (-0x1.52047aaba33f8p-3), 0x1.f8fa6d263c771p-1);
  (0x1.88121d88f4591p+2, (-0x1.4060b67a8537ep-3), 0x1.f9b24942fe45bp-1);
  (0x1.88a117be06edfp+2, (-0x1.2eb6b356bdd92p-3), 0x1.fa604988bab1bp-1);
  (0x1.893011f31982ep+2, (-0x1.1d06c968d9e29p-3), 0x1.fb046a9309479p-1);
  (0x1.89bf0c282c17dp+2, (-0x1.0b5150f6da2d4p-3), 0x1.fb9ea92ec689bp-1);
  (0x1.8a4e065d3eacbp+2, (-0x1.f32d44c4f6301p-4), 0x1.fc2f025a23e8bp-1);
  (0x1.8add00925141ap+2, (-0x1.cfae2c4ef6d0ap-4), 0x1.fcb57344b6c57p-1);
  (0x1.8b6bfac763d68p+2, (-0x1.ac2609b3c57a8p-4), 0x1.fd31f94f867c6p-1);
  (0x1.8bfaf4fc766b8p+2, (-0x1.88958e488ed3cp-4), 0x1.fda4920d197a6p-1);
  (0x1.8c89ef3189006p+2, (-0x1.64fd6b8c2810dp-4), 0x1.fe0d3b41815a2p-1);
  (0x1.8d18e9669b955p+2, (-0x1.415e532398e3bp-4), 0x1.fe6bf2e2660afp-1);
  (0x1.8da7e39bae2a3p+2, (-0x1.1db8f6d6a5140p-4), 0x1.fec0b7170fff6p-1);
  (0x1.8e36ddd0c0bf2p+2, (-0x1.f41c1118aa2ccp-5), 0x1.ff0b86387164ap-1);
  (0x1.8ec5d805d3541p+2, (-0x1.acbc748efc8dbp-5), 0x1.ff4c5ed12e61ep-1);
  (0x1.8f54d23ae5e8fp+2, (-0x1.65547c4694e2dp-5), 0x1.ff833f9da45f7p-1);
  (0x1.8fe3cc6ff87dep+2, (-0x1.1de58c9f7dc12p-5), 0x1.ffb0278bf0567p-1);
  (0x1.9072c6a50b12cp+2, (-0x1.ace214390cb02p-6), 0x1.ffd315bbf4275p-1);
  (0x1.9101c0da1da7bp+2, (-0x1.1df0b2b89dd2cp-6), 0x1.ffec097f5af8ap-1);
  (0x1.9190bb0f303c9p+2, (-0x1.1df37c4954d75p-7), 0x1.fffb02599c9cdp-1);
  (0x1.921fb54442d18p+2, (-0x1.1a62633145c07p-52), 0x1.0000000000000p+0)
]%float.

Definition table_tree : tree := Eval vm_compute in build 12 table.

Definition ref_libm : libm := {|
  l_sin x := match lookup table_tree x with Some (s, _) => s | None => nan end;
  l_cos x := match lookup table_tree x with Some (_, c) => c | None => nan end;
  l_pow x y := if (y =? 2)%float then (x * x)%float else nan
|}.

End Py.

(** * Properties *)

(** ** Loops over a range *)

Lemma range_from_length (n : nat) (start : Z) :
  length (range_from start n) = n.
Proof.
  revert start; induction n as [|n IH]; intros start; simpl; [reflexivity|].
  now rewrite IH.
Qed.

Lemma in_range_from (n : nat) (start k : Z) :
  In k (range_from start n) <-> (start <= k < start + Z.of_nat n)%Z.
Proof.
  revert start; induction n as [|n IH]; intros start; simpl.
  - split; [tauto | lia].
  - rewrite IH. lia.
Qed.

Lemma in_range (a b k : Z) : In k (range a b) <-> (a <= k < b)%Z.
Proof.
  unfold range. rewrite in_range_from. lia.
Qed.

Lemma range_length (a b : Z) : length (range a b) = Z.to_nat (b - a).
Proof. apply range_from_length. Qed.

Lemma range_from_app (n m : nat) (start : Z) :
  range_from start (n + m) =
  range_from start n ++ range_from (start + Z.of_nat n) m.
Proof.
  revert start; induction n as [|n IH]; intros start.
  - simpl. now rewrite Z.add_0_r.
  - cbn [Nat.add range_from app]. rewrite IH. do 3 f_equal. lia.
Qed.

(** Cutting a range at one of its elements. *)
Lemma range_split (a b k : Z) :
  (a <= k < b)%Z -> range a b = range a k ++ k :: range (k + 1) b.
Proof.
  intros Hk. unfold range.
  replace (Z.to_nat (b - a)) with (Z.to_nat (k - a) + S (Z.to_nat (b - (k + 1))))%nat
    by lia.
  rewrite range_from_app. cbn [range_from].
  replace (a + Z.of_nat (Z.to_nat (k - a)))%Z with k by lia. reflexivity.
Qed.

Lemma range_from_NoDup (n : nat) (start : Z) : NoDup (range_from start n).
Proof.
  revert start; induction n as [|n IH]; intros start; simpl; constructor.
  - rewrite in_range_from. lia.
  - apply IH.
Qed.

Section ForEach.
Context {A T : Type}.
Implicit Types (xs ys : list A) (body : A -> result (option T)).

Lemma for_each_app xs ys body :
  for_each (xs ++ ys) body =
  match for_each xs body with
  | Ok None => for_each ys body
  | r => r
  end.
Proof.
  induction xs as [|x xs IH]; [reflexivity|].
  cbn [app for_each]. destruct (body x) as [[v|]|e]; cbn [bind]; auto.
Qed.

Lemma for_each_continue xs body :
  for_each xs body = Ok None <-> (forall x, In x xs -> body x = Ok None).
Proof.
  induction xs as [|x xs IH]; cbn [for_each].
  - split; [intros _ y [] | reflexivity].
  - split.
    + intros H y [<-|Hy].
      * destruct (body x) as [[v|]|e]; cbn [bind] in H; congruence.
      * destruct (body x) as [[v|]|e]; cbn [bind] in H; try congruence.
        now apply IH.
    + intros H. rewrite (H x) by now left. cbn [bind].
      apply IH. intros y Hy. apply H. now right.
Qed.

(** The loop is left at the first element whose body does not fall
    through, with that body's outcome. *)
Lemma for_each_first xs x ys body :
  (forall y, In y xs -> body y = Ok None) ->
  body x <> Ok None ->
  for_each (xs ++ x :: ys) body = body x.
Proof.
  intros Hxs Hx. rewrite for_each_app.
  rewrite (proj2 (for_each_continue xs body) Hxs).
  cbn [for_each]. destruct (body x) as [[v|]|e]; cbn [bind]; congruence.
Qed.

Lemma for_each_stops xs body r :
  for_each xs body = r -> r <> Ok None ->
  exists xs1 x xs2,
    xs = xs1 ++ x :: xs2 /\ (forall y, In y xs1 -> body y = Ok None) /\ body x = r.
Proof.
  revert r; induction xs as [|x xs IH]; intros r Hr Hne; cbn [for_each] in Hr.
  - congruence.
  - destruct (body x) as [[v|]|e] eqn:Hx; cbn [bind] in Hr.
    + exists [], x, xs. repeat split; [intros y [] | congruence].
    + destruct (IH r Hr Hne) as (xs1 & y & xs2 & -> & Hpre & Hy).
      exists (x :: xs1), y, xs2. repeat split; auto.
      intros z [<-|Hz]; auto.
    + exists [], x, xs. repeat split; [intros y [] | congruence].
Qed.
End ForEach.

(** The same two facts for a loop over [range a b], by position. *)
Lemma for_each_range_first {T : Type} (a b k : Z) (body : Z -> result (option T)) :
  (a <= k < b)%Z ->
  (forall k', (a <= k' < k)%Z -> body k' = Ok None) ->
  body k <> Ok None ->
  for_each (range a b) body = body k.
Proof.
  intros Hk Hpre Hne. rewrite (range_split a b k Hk).
  apply for_each_first; auto.
  intros y Hy. apply Hpre. now apply in_range.
Qed.

Lemma app_same_length {A : Type} (l1 l1' l2 l2' : list A) :
  length l1 = length l1' -> l1 ++ l2 = l1' ++ l2' -> l1 = l1'.
Proof.
  revert l1'; induction l1 as [|x l1 IH]; intros [|y l1'] Hlen H;
    simpl in *; try discriminate; [reflexivity|].
  injection H as -> H. f_equal. apply IH; [lia | exact H].
Qed.

Lemma range_prefix (a b : Z) (xs1 xs2 : list Z) (x : Z) :
  range a b = xs1 ++ x :: xs2 -> (a <= x < b)%Z /\ xs1 = range a x.
Proof.
  intros H.
  assert (Hx : (a <= x < b)%Z).
  { apply in_range. rewrite H. apply in_or_app. right. now left. }
  split; [exact Hx|].
  rewrite (range_split a b x Hx) in H.
  assert (Hlen : length xs1 = length (range a x)).
  { destruct (Nat.lt_trichotomy (length xs1) (length (range a x))) as [Hlt|[Heq|Hgt]];
      [exfalso | exact Heq | exfalso].
    - (* x would occur in [range a x] *)
      assert (Hin : In x (range a x)).
      { assert (Hn : nth_error (range a x ++ x :: range (x + 1) b) (length xs1) = Some x).
        { rewrite H. rewrite nth_error_app2 by lia. now rewrite Nat.sub_diag. }
        rewrite nth_error_app1 in Hn by exact Hlt.
        eapply nth_error_In; eauto. }
      apply in_range in Hin. lia.
    - (* x would occur in [xs1], hence twice in the range *)
      assert (Hin : In x xs1).
      { assert (Hn : nth_error (xs1 ++ x :: xs2) (length (range a x)) = Some x).
        { rewrite <- H. rewrite nth_error_app2 by lia. now rewrite Nat.sub_diag. }
        rewrite nth_error_app1 in Hn by exact Hgt.
        eapply nth_error_In; eauto. }
      assert (Hnd : NoDup (xs1 ++ x :: xs2)).
      { rewrite <- H, <- (range_split a b x Hx). apply range_from_NoDup. }
      apply NoDup_remove_2 in Hnd. apply Hnd. apply in_or_app. now left. }
  symmetry. eapply app_same_length; [symmetry; exact Hlen | exact H].
Qed.

Lemma for_each_range_stops {T : Type} (a b : Z) (body : Z -> result (option T)) r :
  for_each (range a b) body = r -> r <> Ok None ->
  exists k, (a <= k < b)%Z /\
            (forall k', (a <= k' < k)%Z -> body k' = Ok None) /\ body k = r.
Proof.
  intros Hr Hne.
  destruct (for_each_stops _ _ _ Hr Hne) as (xs1 & k & xs2 & Hsplit & Hpre & Hk).
  apply range_prefix in Hsplit as [Hin ->].
  exists k. repeat split; auto; try lia.
  intros k' Hk'. apply Hpre. now apply in_range.
Qed.

(** ** Arithmetic facts *)

Lemma Rltb_true (x y : R) : Rltb x y = true <-> x < y.
Proof. unfold Rltb. destruct (Rlt_dec x y); split; intros; try easy. Qed.

Lemma Rltb_false (x y : R) : Rltb x y = false <-> y <= x.
Proof.
  unfold Rltb. destruct (Rlt_dec x y); split; intros; try easy; lra.
Qed.

Lemma pysq_zero (d : pyfloat) : pysq d = Fin 0 <-> d = Fin 0.
Proof.
  destruct d as [x| | |]; cbn [pysq]; split; intros H; try discriminate.
  - injection H as H. f_equal. nra.
  - injection H as ->. f_equal. lra.
Qed.

(** A division raises exactly when the divisor is zero, and then it
    raises [ZeroDivisionError]. *)
Lemma pydiv_zero (n : pyfloat) : pydiv n (Fin 0) = Raise ZeroDivisionError.
Proof.
  cbn [pydiv]. destruct (Req_dec_T 0 0) as [_|H]; [reflexivity | now destruct H].
Qed.

Lemma pydiv_nonzero (n d : pyfloat) : d <> Fin 0 -> exists v, pydiv n d = Ok v.
Proof.
  intros Hd. destruct d as [y| | |]; cbn [pydiv].
  - destruct (Req_dec_T y 0) as [->|Hy]; [now destruct Hd|].
    destruct n; eauto.
  - destruct n; eauto.
  - destruct n; eauto.
  - eauto.
Qed.

Lemma pydiv_finite (x y : R) : y <> 0 -> pydiv (Fin x) (Fin y) = Ok (Fin (x / y)).
Proof.
  intros Hy. cbn [pydiv]. destruct (Req_dec_T y 0); [contradiction | reflexivity].
Qed.

Lemma Fin_zero_dec (d : pyfloat) : {d = Fin 0} + {d <> Fin 0}.
Proof.
  destruct d as [x| | |]; try (right; discriminate).
  destruct (Req_dec_T x 0) as [->|H]; [now left | right; congruence].
Qed.

(** ** The evaluators at finite angles *)

Lemma your_function_at (theta chi : R) (r1 r2 : pyfloat) :
  your_function (Fin theta) (Fin chi) r1 r2 =
  pydiv (N1_at theta chi r1 r2) (pysq (D_at theta chi r1 r2)).
Proof. reflexivity. Qed.

Lemma another_function_at (theta chi : R) (r1 r2 : pyfloat) :
  another_function (Fin theta) (Fin chi) r1 r2 =
  pydiv (N2_at theta chi r1 r2) (pysq (D_at theta chi r1 r2)).
Proof. reflexivity. Qed.

(** ** One grid point *)

Lemma find_angles_loops (r1 r2 target1 target2 tolerance : pyfloat) :
  find_angles r1 r2 target1 target2 tolerance =
  for_each (range 0 721) (fun i =>
    for_each (range 0 721) (fun j =>
      scan_body r1 r2 target1 target2 tolerance i j)).
Proof. reflexivity. Qed.

(** The conversions of a step: [i / 360 * math.pi] and [i / 2]. *)
Lemma step_radians (i : Z) :
  (of_int i / of_int 360 * math_pi)%py = Ok (Fin (angle_of i)).
Proof.
  unfold truediv, lift2, val, of_int, math_pi. cbn [bind].
  rewrite pydiv_finite by lra. reflexivity.
Qed.

Lemma step_degrees (i : Z) : (of_int i / of_int 2)%py = Ok (degrees_of i).
Proof.
  unfold truediv, val, of_int. cbn [bind].
  rewrite pydiv_finite by lra. reflexivity.
Qed.

Lemma scan_body_eq (r1 r2 target1 target2 tolerance : pyfloat) (i j : Z) :
  scan_body r1 r2 target1 target2 tolerance i j =
  (v1 <- your_function (Fin (angle_of i)) (Fin (angle_of j)) r1 r2 ;;
   v2 <- another_function (Fin (angle_of i)) (Fin (angle_of j)) r1 r2 ;;
   if within v1 target1 tolerance && within v2 target2 tolerance
   then Ok (Some (degrees_of i, degrees_of j))
   else Ok None).
Proof.
  unfold scan_body. rewrite !step_radians, !step_degrees. cbn [bind].
  unfold lift2, val, within.
  destruct (your_function _ _ r1 r2) as [v1|e]; cbn [bind]; [|reflexivity].
  destruct (another_function _ _ r1 r2) as [v2|e]; cbn [bind]; reflexivity.
Qed.

(** ** Outcome of one grid point *)

Lemma degenerate_dec (r1 r2 : pyfloat) (i j : Z) :
  {degenerate r1 r2 i j} + {~ degenerate r1 r2 i j}.
Proof. apply Fin_zero_dec. Qed.

(** Both evaluators raise at a degenerate point and return elsewhere. *)
Lemma degenerate_raises (r1 r2 : pyfloat) (i j : Z) :
  degenerate r1 r2 i j ->
  your_function (Fin (angle_of i)) (Fin (angle_of j)) r1 r2 = Raise ZeroDivisionError /\
  another_function (Fin (angle_of i)) (Fin (angle_of j)) r1 r2 = Raise ZeroDivisionError.
Proof.
  intros H. rewrite your_function_at, another_function_at.
  unfold degenerate in H. rewrite H. cbn [pysq].
  replace (0 ^ 2) with 0 by lra. split; apply pydiv_zero.
Qed.

Lemma regular_returns (r1 r2 : pyfloat) (i j : Z) :
  ~ degenerate r1 r2 i j ->
  exists v1 v2,
    your_function (Fin (angle_of i)) (Fin (angle_of j)) r1 r2 = Ok v1 /\
    another_function (Fin (angle_of i)) (Fin (angle_of j)) r1 r2 = Ok v2.
Proof.
  intros H. rewrite your_function_at, another_function_at.
  assert (Hd : pysq (D_at (angle_of i) (angle_of j) r1 r2) <> Fin 0)
    by (rewrite pysq_zero; exact H).
  destruct (pydiv_nonzero (N1_at (angle_of i) (angle_of j) r1 r2) _ Hd) as [v1 H1].
  destruct (pydiv_nonzero (N2_at (angle_of i) (angle_of j) r1 r2) _ Hd) as [v2 H2].
  eauto.
Qed.

Lemma matches_regular (r1 r2 t1 t2 tol : pyfloat) (i j : Z) :
  matches r1 r2 t1 t2 tol i j -> ~ degenerate r1 r2 i j.
Proof.
  intros (v1 & v2 & H1 & _) Hd.
  apply degenerate_raises in Hd as [Hd _]. congruence.
Qed.

Lemma scan_body_match (r1 r2 t1 t2 tol : pyfloat) (i j : Z) :
  matches r1 r2 t1 t2 tol i j ->
  scan_body r1 r2 t1 t2 tol i j = Ok (Some (degrees_of i, degrees_of j)).
Proof.
  intros (v1 & v2 & H1 & H2 & Hw1 & Hw2).
  rewrite scan_body_eq, H1, H2. cbn [bind]. now rewrite Hw1, Hw2.
Qed.

Lemma scan_body_degenerate (r1 r2 t1 t2 tol : pyfloat) (i j : Z) :
  degenerate r1 r2 i j ->
  scan_body r1 r2 t1 t2 tol i j = Raise ZeroDivisionError.
Proof.
  intros Hd. apply degenerate_raises in Hd as [Hd _].
  rewrite scan_body_eq, Hd. reflexivity.
Qed.

Lemma scan_body_continue (r1 r2 t1 t2 tol : pyfloat) (i j : Z) :
  ~ degenerate r1 r2 i j -> ~ matches r1 r2 t1 t2 tol i j ->
  scan_body r1 r2 t1 t2 tol i j = Ok None.
Proof.
  intros Hd Hm. destruct (regular_returns r1 r2 i j Hd) as (v1 & v2 & H1 & H2).
  rewrite scan_body_eq, H1, H2. cbn [bind].
  destruct (within v1 t1 tol) eqn:Hw1; [|reflexivity].
  destruct (within v2 t2 tol) eqn:Hw2; [|reflexivity].
  destruct Hm. now exists v1, v2.
Qed.

(** The three outcomes are exclusive, so the lemmas above are
    equivalences. *)
Lemma scan_body_cases (r1 r2 t1 t2 tol : pyfloat) (i j : Z) :
  (degenerate r1 r2 i j /\
   scan_body r1 r2 t1 t2 tol i j = Raise ZeroDivisionError) \/
  (matches r1 r2 t1 t2 tol i j /\
   scan_body r1 r2 t1 t2 tol i j = Ok (Some (degrees_of i, degrees_of j))) \/
  (~ degenerate r1 r2 i j /\ ~ matches r1 r2 t1 t2 tol i j /\
   scan_body r1 r2 t1 t2 tol i j = Ok None).
Proof.
  destruct (degenerate_dec r1 r2 i j) as [Hd|Hd].
  - left. split; [exact Hd | now apply scan_body_degenerate].
  - right. destruct (regular_returns r1 r2 i j Hd) as (v1 & v2 & H1 & H2).
    destruct (within v1 t1 tol && within v2 t2 tol) eqn:Hw.
    + left. apply andb_true_iff in Hw as [Hw1 Hw2].
      assert (Hm : matches r1 r2 t1 t2 tol i j) by now exists v1, v2.
      split; [exact Hm | now apply scan_body_match].
    + right. assert (Hm : ~ matches r1 r2 t1 t2 tol i j).
      { intros (w1 & w2 & H1' & H2' & Hw1 & Hw2).
        assert (w1 = v1) by congruence. assert (w2 = v2) by congruence.
        subst. now rewrite Hw1, Hw2 in Hw. }
      repeat split; auto. now apply scan_body_continue.
Qed.

Lemma scan_body_returns (r1 r2 t1 t2 tol : pyfloat) (i j : Z) p :
  scan_body r1 r2 t1 t2 tol i j = Ok (Some p) <->
  matches r1 r2 t1 t2 tol i j /\ p = (degrees_of i, degrees_of j).
Proof.
  split.
  - intros H.
    destruct (scan_body_cases r1 r2 t1 t2 tol i j)
      as [[_ Hr]|[[Hm Hr]|(_ & _ & Hr)]]; rewrite Hr in H; try discriminate.
    split; [exact Hm | congruence].
  - intros [Hm ->]. now apply scan_body_match.
Qed.

Lemma scan_body_raises (r1 r2 t1 t2 tol : pyfloat) (i j : Z) e :
  scan_body r1 r2 t1 t2 tol i j = Raise e <->
  degenerate r1 r2 i j /\ e = ZeroDivisionError.
Proof.
  split.
  - intros H.
    destruct (scan_body_cases r1 r2 t1 t2 tol i j)
      as [[Hd Hr]|[[_ Hr]|(_ & _ & Hr)]]; rewrite Hr in H; try discriminate.
    split; [exact Hd | congruence].
  - intros [Hd ->]. now apply scan_body_degenerate.
Qed.

Lemma scan_body_falls_through (r1 r2 t1 t2 tol : pyfloat) (i j : Z) :
  scan_body r1 r2 t1 t2 tol i j = Ok None <->
  ~ degenerate r1 r2 i j /\ ~ matches r1 r2 t1 t2 tol i j.
Proof.
  split.
  - intros H.
    destruct (scan_body_cases r1 r2 t1 t2 tol i j)
      as [[_ Hr]|[[_ Hr]|(Hd & Hm & _)]]; try (rewrite Hr in H; discriminate).
    now split.
  - intros [Hd Hm]. now apply scan_body_continue.
Qed.

(** ** Outcome of the whole scan *)

Section Scan.
Variables r1 r2 target1 target2 tolerance : pyfloat.

Let body := scan_body r1 r2 target1 target2 tolerance.
Let search := find_angles r1 r2 target1 target2 tolerance.

(** The scan is left at the first grid point, in theta-major order,
    whose body does not fall through. *)
Lemma find_angles_first (i j : Z) :
  in_grid i j ->
  (forall i' j', in_grid i' j' -> scanned_before i' j' i j -> body i' j' = Ok None) ->
  body i j <> Ok None ->
  search = body i j.
Proof.
  intros [Hi Hj] Hpre Hne. unfold search. rewrite find_angles_loops.
  fold body.
  assert (Hrow : for_each (range 0 721) (fun j0 => body i j0) = body i j).
  { apply for_each_range_first; [lia | | exact Hne].
    intros j' Hj'. apply Hpre; [unfold in_grid | unfold scanned_before]; lia. }
  rewrite (for_each_range_first 0 721 i); [exact Hrow | lia | | now rewrite Hrow].
  intros i' Hi'. apply for_each_continue. intros j' Hj'%in_range.
  apply Hpre; [unfold in_grid | unfold scanned_before]; lia.
Qed.

Lemma find_angles_stopped r :
  search = r -> r <> Ok None ->
  exists i j,
    in_grid i j /\
    (forall i' j', in_grid i' j' -> scanned_before i' j' i j -> body i' j' = Ok None) /\
    body i j = r.
Proof.
  unfold search. rewrite find_angles_loops. fold body. intros Hr Hne.
  destruct (for_each_range_stops _ _ _ _ Hr Hne) as (i & Hi & Hrows & Hrow).
  destruct (for_each_range_stops _ _ _ _ Hrow Hne) as (j & Hj & Hcols & Hij).
  exists i, j. repeat split; try lia; [|exact Hij].
  intros i' j' [Hi' Hj'] [Hlt|[-> Hlt]].
  - assert (Hr' := Hrows i' ltac:(lia)).
    rewrite for_each_continue in Hr'. apply Hr'. apply in_range. lia.
  - apply Hcols. lia.
Qed.

Lemma find_angles_exhausts :
  search = Ok None <-> (forall i j, in_grid i j -> body i j = Ok None).
Proof.
  unfold search. rewrite find_angles_loops. fold body.
  rewrite for_each_continue. split.
  - intros H i j [Hi Hj].
    assert (Hrow := H i ltac:(apply in_range; lia)).
    rewrite for_each_continue in Hrow. apply Hrow. apply in_range. lia.
  - intros H i Hi%in_range. apply for_each_continue.
    intros j Hj%in_range. apply H. unfold in_grid. lia.
Qed.
End Scan.

(** ** Finite parameters *)

Lemma D_at_finite (theta chi r1 r2 : R) :
  D_at theta chi (Fin r1) (Fin r2) = Fin (D_spec theta chi r1 r2).
Proof. reflexivity. Qed.

Lemma sq_nonzero (x : R) : x <> 0 -> x ^ 2 <> 0.
Proof. intros H. apply pow_nonzero, H. Qed.

Lemma your_function_finite (theta chi r1 r2 : R) :
  D_spec theta chi r1 r2 <> 0 ->
  your_function (Fin theta) (Fin chi) (Fin r1) (Fin r2) =
  Ok (Fin (f1_spec theta chi r1 r2)).
Proof.
  intros HD. rewrite your_function_at, D_at_finite. cbn [pysq].
  unfold N1_at, A_at, of_int. cbn [pymul pyadd pysq].
  rewrite pydiv_finite by now apply sq_nonzero. reflexivity.
Qed.

Lemma another_function_finite (theta chi r1 r2 : R) :
  D_spec theta chi r1 r2 <> 0 ->
  another_function (Fin theta) (Fin chi) (Fin r1) (Fin r2) =
  Ok (Fin (f2_spec theta chi r1 r2)).
Proof.
  intros HD. rewrite another_function_at, D_at_finite. cbn [pysq].
  unfold N2_at, A_at, of_int. cbn [pymul pyadd pysub pysq].
  rewrite pydiv_finite by now apply sq_nonzero. reflexivity.
Qed.

(** ** Evaluating at the grid points used below *)

Lemma angle_of_0 : angle_of 0 = 0.
Proof. unfold angle_of. lra. Qed.

Lemma D_spec_origin (r1 r2 : R) : D_spec 0 0 r1 r2 = r1 + r2.
Proof. unfold D_spec. rewrite sin_0, cos_0. ring. Qed.

Lemma f1_spec_origin (r1 r2 : R) :
  r1 + r2 <> 0 -> f1_spec 0 0 r1 r2 = 4 / (r1 + r2) ^ 2.
Proof.
  intros H. unfold f1_spec. rewrite D_spec_origin.
  rewrite sin_0, cos_0. field. exact H.
Qed.

Lemma f2_spec_origin (r1 r2 : R) : f2_spec 0 0 r1 r2 = 0.
Proof. unfold f2_spec. rewrite sin_0, cos_0. unfold Rdiv. ring. Qed.

(** ** The tolerance test *)

Lemma within_finite (v target tolerance : R) :
  within (Fin v) (Fin target) (Fin tolerance) = true <-> Rabs (v - target) < tolerance.
Proof. unfold within. cbn [pysub pyabs pylt]. apply Rltb_true. Qed.

(** A [nan] residual fails the test, whatever the tolerance. *)
Lemma within_nan_residual (v target tolerance : pyfloat) :
  pysub v target = NaN -> within v target tolerance = false.
Proof. unfold within. intros ->. reflexivity. Qed.

Lemma pylt_trans (a b c : pyfloat) :
  pylt a b = true -> pylt b c = true -> pylt a c = true.
Proof.
  destruct a, b, c; cbn [pylt]; try discriminate; try reflexivity.
  rewrite !Rltb_true. lra.
Qed.

Lemma within_mono (v target T1 T2 : pyfloat) :
  pylt T1 T2 = true -> within v target T1 = true -> within v target T2 = true.
Proof. unfold within. intros H12 H1. eapply pylt_trans; eauto. Qed.

Lemma matches_mono (r1 r2 t1 t2 T1 T2 : pyfloat) (i j : Z) :
  pylt T1 T2 = true ->
  matches r1 r2 t1 t2 T1 i j -> matches r1 r2 t1 t2 T2 i j.
Proof.
  intros H12 (v1 & v2 & H1 & H2 & Hw1 & Hw2).
  exists v1, v2. repeat split; auto; eapply within_mono; eauto.
Qed.

(** ** The first evaluator is never negative *)

Lemma inf_times_pos (x : R) : 0 < x -> inf_times true x = PInf.
Proof.
  intros H. unfold inf_times. destruct (Rlt_dec 0 x); [reflexivity | contradiction].
Qed.

Lemma ratio_of_squares_not_negative (a b v : pyfloat) :
  pydiv (pymul (of_int 4) (pysq a)) (pysq b) = Ok v -> not_negative v.
Proof.
  assert (H4 : inf_times true 4 = PInf) by (apply inf_times_pos; lra).
  destruct b as [y| | |]; cbn [pysq pydiv].
  - destruct (Req_dec_T (y ^ 2) 0) as [|Hy]; [discriminate|].
    assert (Hpos : 0 < y ^ 2).
    { destruct (pow2_ge_0 y) as [Hlt|Heq]; [exact Hlt | now symmetry in Heq]. }
    destruct a as [x| | |]; unfold of_int; cbn [pysq pymul]; rewrite ?H4;
      intros [= <-]; cbn [not_negative]; rewrite ?inf_times_pos by exact Hpos;
      cbn [not_negative]; auto.
    apply Rmult_le_pos.
    + apply Rmult_le_pos; [lra | apply pow2_ge_0].
    + left. now apply Rinv_0_lt_compat.
  - destruct a; unfold of_int; cbn [pysq pymul]; rewrite ?H4;
      intros [= <-]; cbn [not_negative]; auto; lra.
  - destruct a; unfold of_int; cbn [pysq pymul]; rewrite ?H4;
      intros [= <-]; cbn [not_negative]; auto; lra.
  - intros [= <-]. exact I.
Qed.

Lemma your_function_not_negative (theta chi : R) (r1 r2 v : pyfloat) :
  your_function (Fin theta) (Fin chi) r1 r2 = Ok v -> not_negative v.
Proof.
  rewrite your_function_at. unfold N1_at. apply ratio_of_squares_not_negative.
Qed.

(** A value that is not negative is at distance at least 1000 from
    -1000. *)
Lemma within_far_target (v tolerance : pyfloat) :
  not_negative v -> pylt (Fin 1000) tolerance = false ->
  within v (Fin (-1000)) tolerance = false.
Proof.
  unfold within. intros Hv Htol.
  destruct v as [x| | |]; cbn [not_negative] in Hv; try contradiction;
    cbn [pysub pyadd pyneg pyabs]; try (destruct tolerance; reflexivity).
  destruct tolerance as [t| | |]; cbn [pylt] in *; try reflexivity; try discriminate.
  apply Rltb_false in Htol. apply Rltb_false.
  rewrite Rabs_pos_eq; lra.
Qed.

Lemma no_match_far_target (r1 r2 target2 tolerance : pyfloat) (i j : Z) :
  pylt (Fin 1000) tolerance = false ->
  ~ matches r1 r2 (Fin (-1000)) target2 tolerance i j.
Proof.
  intros Htol (v1 & v2 & H1 & _ & Hw1 & _).
  apply your_function_not_negative in H1.
  rewrite (within_far_target v1 tolerance H1 Htol) in Hw1. discriminate.
Qed.

(** ** Finite parameters at a grid point *)

Lemma degenerate_finite (r1 r2 : R) (i j : Z) :
  degenerate (Fin r1) (Fin r2) i j <-> D_spec (angle_of i) (angle_of j) r1 r2 = 0.
Proof.
  unfold degenerate. rewrite D_at_finite. split; [intros [= H] | intros ->]; auto.
Qed.

Lemma matches_finite (r1 r2 target1 target2 tolerance : R) (i j : Z) :
  D_spec (angle_of i) (angle_of j) r1 r2 <> 0 ->
  Rabs (f1_spec (angle_of i) (angle_of j) r1 r2 - target1) < tolerance ->
  Rabs (f2_spec (angle_of i) (angle_of j) r1 r2 - target2) < tolerance ->
  matches (Fin r1) (Fin r2) (Fin target1) (Fin target2) (Fin tolerance) i j.
Proof.
  intros HD H1 H2.
  exists (Fin (f1_spec (angle_of i) (angle_of j) r1 r2)),
         (Fin (f2_spec (angle_of i) (angle_of j) r1 r2)).
  rewrite your_function_finite, another_function_finite by exact HD.
  rewrite !within_finite. auto.
Qed.

Lemma sin_cos_sq (x : R) : sin x ^ 2 + cos x ^ 2 = 1.
Proof. rewrite <- !Rsqr_pow2. apply sin2_cos2. Qed.

(** With [r1 = r2 = 1] the denominator is 2 everywhere. *)
Lemma D_spec_unit (theta chi : R) : D_spec theta chi 1 1 = 2.
Proof.
  unfold D_spec.
  pose proof (sin_cos_sq theta). pose proof (sin_cos_sq chi). nra.
Qed.

Lemma regular_unit (i j : Z) : ~ degenerate (Fin 1) (Fin 1) i j.
Proof. rewrite degenerate_finite, D_spec_unit. lra. Qed.

Lemma degrees_of_inj (i j : Z) : degrees_of i = degrees_of j -> i = j.
Proof.
  unfold degrees_of. intros [= H]. apply eq_IZR. lra.
Qed.

Lemma in_grid_origin : in_grid 0 0.
Proof. unfold in_grid. lia. Qed.

Lemma nothing_before_origin (i' j' : Z) :
  in_grid i' j' -> ~ scanned_before i' j' 0 0.
Proof. unfold in_grid, scanned_before. lia. Qed.

(** A match at the first grid point is returned. *)
Lemma find_angles_origin_match (r1 r2 target1 target2 tolerance : pyfloat) :
  matches r1 r2 target1 target2 tolerance 0 0 ->
  find_angles r1 r2 target1 target2 tolerance = Ok (Some (degrees_of 0, degrees_of 0)).
Proof.
  intros Hm.
  rewrite (find_angles_first _ _ _ _ _ 0 0 in_grid_origin).
  - now apply scan_body_match.
  - intros i' j' Hg Hb. now apply nothing_before_origin in Hb.
  - rewrite scan_body_match by exact Hm. discriminate.
Qed.

(** With [r1 = r2 = 1] the evaluators are 1 and 0 at the first point. *)
Lemma matches_unit_origin (target1 target2 tolerance : R) :
  Rabs (1 - target1) < tolerance -> Rabs (0 - target2) < tolerance ->
  matches (Fin 1) (Fin 1) (Fin target1) (Fin target2) (Fin tolerance) 0 0.
Proof.
  intros H1 H2. apply matches_finite; rewrite angle_of_0.
  - rewrite D_spec_origin. lra.
  - rewrite f1_spec_origin by lra. replace (4 / (1 + 1) ^ 2) with 1 by field. exact H1.
  - rewrite f2_spec_origin. exact H2.
Qed.

(** * The search *)

Lemma matches_unit_origin_default :
  matches (Fin 1) (Fin 1) (Fin 1) (Fin 0) default_tolerance 0 0.
Proof.
  apply matches_unit_origin; replace (1 - 1) with 0 by lra;
    replace (0 - 0) with 0 by lra; rewrite Rabs_R0; lra.
Qed.

(** ** The search domain *)

Lemma for_each_map {A B T : Type} (g : A -> B) (ys : list A)
      (body : B -> result (option T)) :
  for_each (map g ys) body = for_each ys (fun y => body (g y)).
Proof.
  induction ys as [|y ys IH]; [reflexivity|].
  cbn [map for_each]. now rewrite IH.
Qed.

Lemma for_each_nested {A B T : Type} (xs : list A) (ys : list B)
      (body : A * B -> result (option T)) :
  for_each (flat_map (fun x => map (pair x) ys) xs) body =
  for_each xs (fun x => for_each ys (fun y => body (x, y))).
Proof.
  induction xs as [|x xs IH]; [reflexivity|].
  cbn [flat_map for_each]. rewrite for_each_app, for_each_map, IH.
  destruct (for_each ys _) as [[v|]|e]; reflexivity.
Qed.

Lemma find_angles_scan_grid (r1 r2 target1 target2 tolerance : pyfloat) :
  find_angles r1 r2 target1 target2 tolerance =
  for_each scan_grid (fun p => scan_body r1 r2 target1 target2 tolerance (fst p) (snd p)).
Proof.
  unfold scan_grid. rewrite for_each_nested. apply find_angles_loops.
Qed.

Lemma in_scan_grid (i j : Z) : In (i, j) scan_grid <-> in_grid i j.
Proof.
  unfold scan_grid, in_grid. rewrite in_flat_map. split.
  - intros (x & Hx & Hin). apply in_map_iff in Hin as (y & [= -> ->] & Hy).
    apply in_range in Hx, Hy. lia.
  - intros [Hi Hj]. exists i. split; [apply in_range; lia|].
    apply in_map. apply in_range. lia.
Qed.

Lemma scan_grid_length : Z.of_nat (length scan_grid) = 519841%Z.
Proof.
  change scan_grid with (list_prod (range 0 721) (range 0 721)).
  rewrite length_prod, !range_length, Nat2Z.inj_mul. reflexivity.
Qed.

Lemma NoDup_map_injective {A B : Type} (f : A -> B) (l : list A) :
  (forall x y, f x = f y -> x = y) -> NoDup l -> NoDup (map f l).
Proof.
  intros Hf Hl. induction Hl as [|x l Hx Hl IH]; cbn [map]; constructor; auto.
  intros Hin. apply in_map_iff in Hin as (y & Hy & Hin).
  apply Hf in Hy. now subst.
Qed.

Lemma axis_angles_distinct : NoDup (map degrees_of (range 0 721)).
Proof.
  apply NoDup_map_injective; [apply degrees_of_inj | apply range_from_NoDup].
Qed.

Lemma axis_length : length (map degrees_of (range 0 721)) = 721%nat.
Proof. rewrite length_map, range_length. reflexivity. Qed.

Lemma angle_of_degrees (k : Z) : angle_of k = IZR k / 2 * PI / 180.
Proof. unfold angle_of. field. Qed.

Lemma step_bounds (k : Z) :
  (0 <= k <= 720)%Z -> 0 <= IZR k / 2 <= 360 /\ 0 <= angle_of k <= 2 * PI.
Proof.
  intros [H0 H1]. apply IZR_le in H0, H1.
  assert (Hpi := PI_RGT_0). unfold angle_of. split; [lra|].
  split.
  - apply Rmult_le_pos; lra.
  - replace (2 * PI) with (720 / 360 * PI) by field.
    apply Rmult_le_compat_r; lra.
Qed.



(** ** The no-solution result *)

Lemma default_tolerance_small : pylt (Fin 1000) default_tolerance = false.
Proof. unfold default_tolerance. cbn [pylt]. apply Rltb_false. lra. Qed.

(** ** Tolerance monotonicity *)



(** * Further properties of the search *)

Lemma scanned_trichotomy (i j i' j' : Z) :
  scanned_before i' j' i j \/ (i' = i /\ j' = j) \/ scanned_before i j i' j'.
Proof. unfold scanned_before. lia. Qed.

Lemma earlier_fall_through (r1 r2 t1 t2 tol : pyfloat) (i j : Z) :
  (forall i' j', in_grid i' j' -> scanned_before i' j' i j ->
     scan_body r1 r2 t1 t2 tol i' j' = Ok None) <->
  (forall i' j', in_grid i' j' -> scanned_before i' j' i j ->
     ~ matches r1 r2 t1 t2 tol i' j' /\ ~ degenerate r1 r2 i' j').
Proof.
  split; intros H i' j' Hg Hb.
  - specialize (H i' j' Hg Hb). apply scan_body_falls_through in H. tauto.
  - apply scan_body_falls_through. destruct (H i' j' Hg Hb). tauto.
Qed.


Lemma find_angles_unit_exact :
  find_angles (Fin 1) (Fin 1) (Fin 1) (Fin 0) default_tolerance =
  Ok (Some (degrees_of 0, degrees_of 0)).
Proof. apply find_angles_origin_match, matches_unit_origin_default. Qed.


(** ** Tolerances that admit nothing *)


Lemma find_angles_unit_far :
  find_angles (Fin 1) (Fin 1) (Fin (-1000)) (Fin 0) default_tolerance = Ok None.
Proof.
  apply find_angles_exhausts. intros i j _. apply scan_body_falls_through.
  split; [apply regular_unit|].
  apply no_match_far_target, default_tolerance_small.
Qed.


(** ** Parameters and zero denominators *)



(** * Further properties of the evaluators *)

(** ** A [nan] parameter *)

Lemma pyadd_nan_l (a : pyfloat) : pyadd NaN a = NaN.
Proof. destruct a; reflexivity. Qed.

Lemma pyadd_nan_r (a : pyfloat) : pyadd a NaN = NaN.
Proof. destruct a; reflexivity. Qed.

Lemma pymul_nan_l (a : pyfloat) : pymul NaN a = NaN.
Proof. destruct a; reflexivity. Qed.

Lemma pymul_nan_r (a : pyfloat) : pymul a NaN = NaN.
Proof. destruct a; reflexivity. Qed.

Lemma D_at_nan (theta chi : R) (r1 r2 : pyfloat) :
  r1 = NaN \/ r2 = NaN -> D_at theta chi r1 r2 = NaN.
Proof.
  intros [-> | ->]; unfold D_at, A_at;
    rewrite ?pymul_nan_l, ?pymul_nan_r, ?pyadd_nan_l, ?pyadd_nan_r,
            ?pymul_nan_r, ?pyadd_nan_l; reflexivity.
Qed.

Lemma evaluators_nan_parameter (theta chi : R) (r1 r2 : pyfloat) :
  r1 = NaN \/ r2 = NaN ->
  your_function (Fin theta) (Fin chi) r1 r2 = Ok NaN /\
  another_function (Fin theta) (Fin chi) r1 r2 = Ok NaN.
Proof.
  intros H. rewrite your_function_at, another_function_at, (D_at_nan _ _ _ _ H).
  split; reflexivity.
Qed.



(** * Properties of the double-precision model *)

Set Warnings "-notation-overridden".
Import Py.
Set Warnings "notation-overridden".

(** ** Loops *)

Section ForEachPy.
Context {A T : Type}.
Implicit Types (xs ys : list A) (body : A -> Py.result (option T)).

Lemma scan_app xs ys body :
  Py.for_each (xs ++ ys) body =
  match Py.for_each xs body with
  | Ok None => Py.for_each ys body
  | r => r
  end.
Proof.
  induction xs as [|x xs IH]; [reflexivity|].
  cbn [app Py.for_each]. destruct (body x) as [[v|]|e]; cbn [Py.bind]; auto.
Qed.

Lemma scan_continues xs body :
  Py.for_each xs body = Ok None <-> (forall x, In x xs -> body x = Ok None).
Proof.
  induction xs as [|x xs IH]; cbn [Py.for_each].
  - split; [intros _ y [] | reflexivity].
  - split.
    + intros H y [<-|Hy].
      * destruct (body x) as [[v|]|e]; cbn [Py.bind] in H; congruence.
      * destruct (body x) as [[v|]|e]; cbn [Py.bind] in H; try congruence.
        now apply IH.
    + intros H. rewrite (H x) by now left. cbn [Py.bind].
      apply IH. intros y Hy. apply H. now right.
Qed.

Lemma scan_leaves_at xs x ys body :
  (forall y, In y xs -> body y = Ok None) ->
  body x <> Ok None ->
  Py.for_each (xs ++ x :: ys) body = body x.
Proof.
  intros Hxs Hx. rewrite scan_app.
  rewrite (proj2 (scan_continues xs body) Hxs).
  cbn [Py.for_each]. destruct (body x) as [[v|]|e]; cbn [Py.bind]; congruence.
Qed.

Lemma scan_left xs body r :
  Py.for_each xs body = r -> r <> Ok None ->
  exists xs1 x xs2,
    xs = xs1 ++ x :: xs2 /\ (forall y, In y xs1 -> body y = Ok None) /\ body x = r.
Proof.
  revert r; induction xs as [|x xs IH]; intros r Hr Hne; cbn [Py.for_each] in Hr.
  - congruence.
  - destruct (body x) as [[v|]|e] eqn:Hx; cbn [Py.bind] in Hr.
    + exists [], x, xs. repeat split; [intros y [] | congruence].
    + destruct (IH r Hr Hne) as (xs1 & y & xs2 & -> & Hpre & Hy).
      exists (x :: xs1), y, xs2. repeat split; auto.
      intros z [<-|Hz]; auto.
    + exists [], x, xs. repeat split; [intros y [] | congruence].
Qed.
End ForEachPy.

Lemma scan_range_leaves_at {T : Type} (a b k : Z) (body : Z -> Py.result (option T)) :
  (a <= k < b)%Z ->
  (forall k', (a <= k' < k)%Z -> body k' = Ok None) ->
  body k <> Ok None ->
  Py.for_each (range a b) body = body k.
Proof.
  intros Hk Hpre Hne. rewrite (range_split a b k Hk).
  apply scan_leaves_at; auto.
  intros y Hy. apply Hpre. now apply in_range.
Qed.

Lemma scan_range_left {T : Type} (a b : Z) (body : Z -> Py.result (option T)) r :
  Py.for_each (range a b) body = r -> r <> Ok None ->
  exists k, (a <= k < b)%Z /\
            (forall k', (a <= k' < k)%Z -> body k' = Ok None) /\ body k = r.
Proof.
  intros Hr Hne.
  destruct (scan_left _ _ _ Hr Hne) as (xs1 & k & xs2 & Hsplit & Hpre & Hk).
  apply range_prefix in Hsplit as [Hin ->].
  exists k. repeat split; auto; try lia.
  intros k' Hk'. apply Hpre. now apply in_range.
Qed.

(** ** One grid point *)

Lemma divisor_360 : (of_int 360 =? 0)%float = false.
Proof. reflexivity. Qed.

Lemma divisor_2 : (of_int 2 =? 0)%float = false.
Proof. reflexivity. Qed.

Lemma divisor_180 : (of_int 180 =? 0)%float = false.
Proof. reflexivity. Qed.

Lemma loop_radians (i : Z) :
  (of_int i / of_int 360 * math_pi)%pyf = Ok (angle_of i).
Proof.
  unfold Py.truediv, Py.lift2, Py.val, Py.pydiv. cbn [Py.bind].
  rewrite divisor_360. reflexivity.
Qed.

Lemma loop_degrees (i : Z) : (of_int i / of_int 2)%pyf = Ok (degrees_of i).
Proof.
  unfold Py.truediv, Py.val, Py.pydiv. cbn [Py.bind].
  rewrite divisor_2. reflexivity.
Qed.

Lemma main_radians (degrees : float) :
  (degrees * math_pi / of_int 180)%pyf = Ok (radians degrees).
Proof.
  unfold Py.truediv, Py.lift2, Py.val, Py.pydiv. cbn [Py.bind].
  rewrite divisor_180. reflexivity.
Qed.

Section GridPoint.
Variable m : libm.
Variables r1 r2 target1 target2 tolerance : float.

Lemma your_function_parts (theta chi : float) :
  your_function m theta chi r1 r2 =
  (n <- numerator1 m theta chi r1 r2 ;;
   d <- denominator m theta chi r1 r2 ;;
   pydiv n d).
Proof. reflexivity. Qed.

Lemma another_function_parts (theta chi : float) :
  another_function m theta chi r1 r2 =
  (n <- numerator2 m theta chi r1 r2 ;;
   d <- denominator m theta chi r1 r2 ;;
   pydiv n d).
Proof. reflexivity. Qed.

Lemma find_angles_body :
  find_angles m r1 r2 target1 target2 tolerance =
  Py.for_each (range 0 721) (fun i =>
    Py.for_each (range 0 721) (fun j =>
      scan_body m r1 r2 target1 target2 tolerance i j)).
Proof. reflexivity. Qed.

Lemma scan_body_steps (i j : Z) :
  scan_body m r1 r2 target1 target2 tolerance i j =
  (v1 <- your_function m (angle_of i) (angle_of j) r1 r2 ;;
   v2 <- another_function m (angle_of i) (angle_of j) r1 r2 ;;
   if within v1 target1 tolerance && within v2 target2 tolerance
   then Ok (Some (degrees_of i, degrees_of j))
   else Ok None).
Proof.
  unfold scan_body. rewrite !loop_radians, !loop_degrees. cbn [Py.bind].
  unfold Py.lift2, Py.val, within.
  destruct (your_function m _ _ r1 r2) as [v1|e]; cbn [Py.bind]; [|reflexivity].
  destruct (another_function m _ _ r1 r2) as [v2|e]; cbn [Py.bind]; reflexivity.
Qed.

Lemma scan_body_found (i j : Z) p :
  scan_body m r1 r2 target1 target2 tolerance i j = Ok (Some p) <->
  matches m r1 r2 target1 target2 tolerance i j /\ p = (degrees_of i, degrees_of j).
Proof.
  rewrite scan_body_steps. unfold matches. split.
  - destruct (your_function m _ _ r1 r2) as [v1|e]; cbn [Py.bind]; [|discriminate].
    destruct (another_function m _ _ r1 r2) as [v2|e]; cbn [Py.bind]; [|discriminate].
    destruct (within v1 target1 tolerance) eqn:H1; [|discriminate].
    destruct (within v2 target2 tolerance) eqn:H2; [|discriminate].
    cbn [andb]. intros [= <-]. split; [|reflexivity]. now exists v1, v2.
  - intros [(v1 & v2 & H1 & H2 & Hw1 & Hw2) ->].
    rewrite H1, H2. cbn [Py.bind]. now rewrite Hw1, Hw2.
Qed.

Lemma scan_body_raised (i j : Z) e :
  scan_body m r1 r2 target1 target2 tolerance i j = Raise e <->
  raises_at m r1 r2 i j e.
Proof.
  rewrite scan_body_steps. unfold raises_at. split.
  - destruct (your_function m _ _ r1 r2) as [v1|e1]; cbn [Py.bind].
    + destruct (another_function m _ _ r1 r2) as [v2|e2]; cbn [Py.bind].
      * destruct (within v1 target1 tolerance && within v2 target2 tolerance);
          discriminate.
      * intros [= <-]. right. split; [now exists v1 | reflexivity].
    + intros [= <-]. now left.
  - intros [H | [[v1 H1] H2]].
    + now rewrite H.
    + now rewrite H1, H2.
Qed.

Lemma scan_body_passed (i j : Z) :
  scan_body m r1 r2 target1 target2 tolerance i j = Ok None <->
  ~ matches m r1 r2 target1 target2 tolerance i j /\
  (forall e, ~ raises_at m r1 r2 i j e).
Proof.
  split.
  - intros H. split.
    + intros Hm. assert (H' := proj2 (scan_body_found i j _) (conj Hm eq_refl)).
      congruence.
    + intros e He. apply scan_body_raised in He. congruence.
  - intros [Hm He].
    destruct (scan_body m r1 r2 target1 target2 tolerance i j) as [[p|]|e] eqn:Hb.
    + apply scan_body_found in Hb as [Hb _]. contradiction.
    + reflexivity.
    + apply scan_body_raised in Hb. now apply He in Hb.
Qed.

(** ** The whole scan *)

Lemma scan_first (i j : Z) :
  in_grid i j ->
  (forall i' j', in_grid i' j' -> scanned_before i' j' i j ->
     scan_body m r1 r2 target1 target2 tolerance i' j' = Ok None) ->
  scan_body m r1 r2 target1 target2 tolerance i j <> Ok None ->
  find_angles m r1 r2 target1 target2 tolerance =
  scan_body m r1 r2 target1 target2 tolerance i j.
Proof.
  intros [Hi Hj] Hpre Hne. rewrite find_angles_body.
  set (body := scan_body m r1 r2 target1 target2 tolerance) in *.
  assert (Hrow : Py.for_each (range 0 721) (fun j0 => body i j0) = body i j).
  { apply scan_range_leaves_at; [lia | | exact Hne].
    intros j' Hj'. apply Hpre; [unfold in_grid | unfold scanned_before]; lia. }
  rewrite (scan_range_leaves_at 0 721 i); [exact Hrow | lia | | now rewrite Hrow].
  intros i' Hi'. apply scan_continues. intros j' Hj'%in_range.
  apply Hpre; [unfold in_grid | unfold scanned_before]; lia.
Qed.

Lemma scan_stopped r :
  find_angles m r1 r2 target1 target2 tolerance = r -> r <> Ok None ->
  exists i j,
    in_grid i j /\
    (forall i' j', in_grid i' j' -> scanned_before i' j' i j ->
       scan_body m r1 r2 target1 target2 tolerance i' j' = Ok None) /\
    scan_body m r1 r2 target1 target2 tolerance i j = r.
Proof.
  rewrite find_angles_body. intros Hr Hne.
  destruct (scan_range_left _ _ _ _ Hr Hne) as (i & Hi & Hrows & Hrow).
  destruct (scan_range_left _ _ _ _ Hrow Hne) as (j & Hj & Hcols & Hij).
  exists i, j. repeat split; try lia; [|exact Hij].
  intros i' j' [Hi' Hj'] [Hlt|[-> Hlt]].
  - assert (Hr' := Hrows i' ltac:(lia)).
    rewrite scan_continues in Hr'. apply Hr'. apply in_range. lia.
  - apply Hcols. lia.
Qed.

Lemma scan_exhausted :
  find_angles m r1 r2 target1 target2 tolerance = Ok None <->
  (forall i j, in_grid i j ->
     scan_body m r1 r2 target1 target2 tolerance i j = Ok None).
Proof.
  rewrite find_angles_body, scan_continues. split.
  - intros H i j [Hi Hj].
    assert (Hrow := H i ltac:(apply in_range; lia)).
    rewrite scan_continues in Hrow. apply Hrow. apply in_range. lia.
  - intros H i Hi%in_range. apply scan_continues.
    intros j Hj%in_range. apply H. unfold in_grid. lia.
Qed.

(** The decision procedure for a prefix of the scan. *)
Lemma your_function_squares (theta chi s2t c2t s2c c2c : float) :
  power2 m (math_sin m theta) = Ok s2t -> power2 m (math_cos m theta) = Ok c2t ->
  power2 m (math_sin m chi) = Ok s2c -> power2 m (math_cos m chi) = Ok c2c ->
  your_function m theta chi r1 r2 = your_function_from m s2t c2t s2c c2c r1 r2.
Proof.
  intros H1 H2 H3 H4. unfold your_function, your_function_from.
  rewrite H1, H2, H3, H4. reflexivity.
Qed.

Lemma another_function_squares (theta chi s2t c2t s2c c2c : float) :
  power2 m (math_sin m theta) = Ok s2t -> power2 m (math_cos m theta) = Ok c2t ->
  power2 m (math_sin m chi) = Ok s2c -> power2 m (math_cos m chi) = Ok c2c ->
  another_function m theta chi r1 r2 = another_function_from m s2t c2t s2c c2c r1 r2.
Proof.
  intros H1 H2 H3 H4. unfold another_function, another_function_from.
  rewrite H1, H2, H3, H4. reflexivity.
Qed.

Lemma point_falls_through_spec (i j : Z) :
  point_falls_through m r1 r2 target1 target2 tolerance
    (squares_at m i) (squares_at m j) = true ->
  scan_body m r1 r2 target1 target2 tolerance i j = Ok None.
Proof.
  unfold point_falls_through, squares_at.
  destruct (power2 m (math_sin m (angle_of i))) as [s2t|] eqn:H1; [|discriminate].
  destruct (power2 m (math_cos m (angle_of i))) as [c2t|] eqn:H2; [|discriminate].
  destruct (power2 m (math_sin m (angle_of j))) as [s2c|] eqn:H3; [|discriminate].
  destruct (power2 m (math_cos m (angle_of j))) as [c2c|] eqn:H4; [|discriminate].
  rewrite scan_body_steps.
  rewrite (your_function_squares _ _ _ _ _ _ H1 H2 H3 H4).
  rewrite (another_function_squares _ _ _ _ _ _ H1 H2 H3 H4).
  destruct (your_function_from m s2t c2t s2c c2c r1 r2) as [v1|]; [|discriminate].
  destruct (another_function_from m s2t c2t s2c c2c r1 r2) as [v2|]; [|discriminate].
  cbn [Py.bind]. intros H%negb_true_iff. now rewrite H.
Qed.

Lemma in_axis (i : Z) : (0 <= i <= 720)%Z -> In (i, squares_at m i) (axis m).
Proof.
  intros Hi. unfold axis.
  apply (in_map (fun k => (k, squares_at m k))). apply in_range. lia.
Qed.

Lemma falls_through_before_spec (i j : Z) :
  falls_through_before m r1 r2 target1 target2 tolerance i j = true ->
  forall i' j', in_grid i' j' -> scanned_before i' j' i j ->
    scan_body m r1 r2 target1 target2 tolerance i' j' = Ok None.
Proof.
  unfold falls_through_before. cbv zeta. rewrite forallb_forall.
  intros H i' j' [Hi Hj] Hb.
  specialize (H _ (in_axis i' Hi)). cbn [fst snd] in H.
  assert (Hle : (i' <=? i)%Z = true).
  { apply Z.leb_le. destruct Hb as [Hb|[-> _]]; lia. }
  rewrite Hle, forallb_forall in H.
  specialize (H _ (in_axis j' Hj)). cbn [fst snd] in H.
  assert (Hbb : scanned_beforeb i' j' i j = true).
  { unfold scanned_beforeb, scanned_before in *.
    apply orb_true_iff. destruct Hb as [Hb|[-> Hb]].
    - left. now apply Z.ltb_lt.
    - right. apply andb_true_iff. split; [apply Z.eqb_refl | now apply Z.ltb_lt]. }
  rewrite Hbb in H. now apply point_falls_through_spec.
Qed.
End GridPoint.

(** * IEEE facts

    What the properties below need of binary64 arithmetic, from the
    specification of the primitive operations ([FloatAxioms]) over
    [SpecFloat]. *)

Lemma not_negative_spec (x : float) :
  (x <? 0)%float = false <-> sf_not_negative (Prim2SF x) = true.
Proof.
  rewrite FloatAxioms.ltb_spec. change (Prim2SF 0) with (S754_zero false).
  destruct (Prim2SF x) as [[]|[]| |[] mx ex]; cbn; intuition congruence.
Qed.

Lemma is_nan_spec (x : float) : is_nan x = true <-> Prim2SF x = S754_nan.
Proof.
  unfold is_nan. rewrite FloatAxioms.eqb_spec.
  destruct (Prim2SF x) as [[]|[]| |[] mx ex]; cbn;
    rewrite ?Z.compare_refl, ?Pos.compare_cont_refl; cbn; intuition congruence.
Qed.

Lemma is_infinity_spec (x : float) :
  is_infinity x = true <-> exists s, Prim2SF x = S754_infinity s.
Proof.
  unfold is_infinity. rewrite FloatAxioms.eqb_spec, FloatAxioms.abs_spec.
  change (Prim2SF infinity) with (S754_infinity false).
  destruct (Prim2SF x) as [[]|[]| |[] mx ex]; cbn; split;
    try discriminate; try (intros [s Hs]; discriminate); eauto.
Qed.

Lemma not_finite_spec (x : float) :
  PrimFloat.is_finite x = false ->
  Prim2SF x = S754_nan \/ exists s, Prim2SF x = S754_infinity s.
Proof.
  unfold PrimFloat.is_finite. rewrite negb_false_iff, orb_true_iff.
  intros [H|H]; [left; now apply is_nan_spec | right; now apply is_infinity_spec].
Qed.

(** ** Comparisons that cannot succeed *)

Lemma within_nan_target (v tolerance : float) :
  within v nan tolerance = false.
Proof.
  unfold within. rewrite FloatAxioms.ltb_spec, FloatAxioms.abs_spec, FloatAxioms.sub_spec.
  change (Prim2SF nan) with S754_nan.
  destruct (Prim2SF v) as [[]|[]| |[] mx ex]; reflexivity.
Qed.

Lemma within_not_finite_target (v target tolerance : float) :
  PrimFloat.is_finite target = false -> within v target tolerance = false.
Proof.
  intros [H|[s H]]%not_finite_spec; unfold within;
    rewrite FloatAxioms.ltb_spec, FloatAxioms.abs_spec, FloatAxioms.sub_spec, H.
  - destruct (Prim2SF v) as [[]|[]| |[] mx ex]; reflexivity.
  - destruct (Prim2SF v) as [[]|[]| |[] mx ex], s; cbn;
      destruct (Prim2SF tolerance) as [[]|[]| |[] mt et]; reflexivity.
Qed.

Lemma within_nan_tolerance (v target tolerance : float) :
  PrimFloat.is_nan tolerance = true -> within v target tolerance = false.
Proof.
  intros H%is_nan_spec. unfold within. rewrite FloatAxioms.ltb_spec, H.
  destruct (Prim2SF (abs (v - target))) as [[]|[]| |[] mx ex]; reflexivity.
Qed.

Lemma abs_sign (x : float) :
  match Prim2SF (abs x) with
  | S754_zero s | S754_infinity s | S754_finite s _ _ => s = false
  | S754_nan => True
  end.
Proof.
  rewrite FloatAxioms.abs_spec. destruct (Prim2SF x) as [[]|[]| |[] mx ex]; cbn; auto.
Qed.

Lemma within_nonpositive_tolerance (v target tolerance : float) :
  (tolerance <=? 0)%float = true -> within v target tolerance = false.
Proof.
  unfold within. rewrite FloatAxioms.leb_spec, FloatAxioms.ltb_spec.
  change (Prim2SF 0) with (S754_zero false).
  assert (H := abs_sign (v - target)).
  destruct (Prim2SF (abs (v - target))) as [s|s| |s mx ex]; try subst s;
    destruct (Prim2SF tolerance) as [[]|[]| |[] mt et]; cbn; congruence.
Qed.

Lemma within_neg_infinity_tolerance (v target : float) :
  within v target neg_infinity = false.
Proof. now apply within_nonpositive_tolerance. Qed.

(** ** Values that are not negative *)

Lemma round_aux_not_negative (mx ex : Z) (lx : location) :
  sf_not_negative (binary_round_aux prec emax false mx ex lx) = true.
Proof.
  unfold binary_round_aux.
  destruct (shr_fexp prec emax mx ex lx) as [mrs' e'].
  destruct (shr_fexp prec emax _ e' loc_Exact) as [mrs'' e''].
  destruct (shr_m mrs''); [reflexivity | | reflexivity].
  destruct (e'' <=? emax - prec)%Z; reflexivity.
Qed.

Lemma round_not_negative (mx : positive) (ex : Z) :
  sf_not_negative (binary_round prec emax false mx ex) = true.
Proof.
  unfold binary_round. destruct (shl_align mx ex _) as [mz ez].
  apply round_aux_not_negative.
Qed.

Lemma mul_not_negative (x y : float) :
  (x <? 0)%float = false -> (y <? 0)%float = false -> (x * y <? 0)%float = false.
Proof.
  rewrite !not_negative_spec, FloatAxioms.mul_spec.
  destruct (Prim2SF x) as [[]|[]| |[] mx ex], (Prim2SF y) as [[]|[]| |[] my ey];
    cbn [sf_not_negative negb SFmul xorb]; try reflexivity; try discriminate.
  intros _ _. apply round_aux_not_negative.
Qed.

Lemma add_not_negative (x y : float) :
  (x <? 0)%float = false -> (y <? 0)%float = false -> (x + y <? 0)%float = false.
Proof.
  rewrite !not_negative_spec, FloatAxioms.add_spec.
  destruct (Prim2SF x) as [[]|[]| |[] mx ex], (Prim2SF y) as [[]|[]| |[] my ey];
    cbn [sf_not_negative negb SFadd]; try reflexivity; try discriminate.
  intros _ _. cbn [cond_Zopp Z.add binary_normalize]. apply round_not_negative.
Qed.

Lemma div_not_negative (x y : float) :
  (x <? 0)%float = false -> (y <? 0)%float = false -> (y =? 0)%float = false ->
  (x / y <? 0)%float = false.
Proof.
  rewrite !not_negative_spec, FloatAxioms.div_spec, FloatAxioms.eqb_spec.
  change (Prim2SF 0) with (S754_zero false).
  destruct (Prim2SF x) as [[]|[]| |[] mx ex], (Prim2SF y) as [[]|[]| |[] my ey];
    cbn [sf_not_negative negb SFdiv xorb]; try reflexivity; try discriminate.
  intros _ _ _. unfold SF64div, SFdiv.
  destruct (SFdiv_core_binary prec emax (Z.pos mx) ex (Z.pos my) ey) as [[mz ez] lz].
  apply round_aux_not_negative.
Qed.

Lemma abs_not_negative (x : float) : (abs x <? 0)%float = false.
Proof.
  rewrite not_negative_spec. assert (H := abs_sign x).
  destruct (Prim2SF (abs x)) as [s|s| |s mx ex]; try subst s; reflexivity.
Qed.

Lemma nan_not_negative (x : float) :
  PrimFloat.is_nan x = true -> (x <? 0)%float = false.
Proof. intros H%is_nan_spec. rewrite not_negative_spec, H. reflexivity. Qed.

Lemma of_int_not_negative (n : Z) : (of_int n <? 0)%float = false.
Proof.
  rewrite not_negative_spec. unfold of_int. rewrite of_uint63_spec.
  destruct (Uint63.to_Z_bounded (Uint63.of_Z n)) as [H _].
  destruct (Uint63.to_Z (Uint63.of_Z n)) as [|p|p]; cbn [binary_normalize];
    [reflexivity | apply round_not_negative | lia].
Qed.

Section NotNegative.
Variable m : libm.
Hypothesis pow_not_negative : forall a, (l_pow m a 2 <? 0)%float = false.

Lemma float_pow2_not_negative (x v : float) :
  float_pow2 (l_pow m) x = Ok v -> (v <? 0)%float = false.
Proof.
  unfold float_pow2.
  destruct (PrimFloat.is_nan x) eqn:Hn; [intros [= <-]; now apply nan_not_negative|].
  destruct (PrimFloat.is_infinity x); [intros [= <-]; apply abs_not_negative|].
  destruct (x =? 0)%float; [intros [= <-]; reflexivity|].
  destruct (_ =? 1)%float; [intros [= <-]; reflexivity|].
  destruct (PrimFloat.is_infinity _); [discriminate|].
  intros [= <-]. apply pow_not_negative.
Qed.

Lemma eval_expr_not_negative (theta chi r1 r2 : float) (e : expr) (v : float) :
  sign_definite e = true ->
  eval_expr m theta chi r1 r2 e = Ok v -> (v <? 0)%float = false.
Proof.
  revert v. induction e as [n| | |a|a|a IHa b IHb|a IHa b IHb|a IHa b IHb|a IHa b IHb|a IHa];
    intros v Hs; cbn [sign_definite] in Hs; try discriminate;
    cbn [eval_expr]; unfold Py.lift2, Py.truediv, Py.power2.
  - intros [= <-]. apply of_int_not_negative.
  - apply andb_true_iff in Hs as [Ha Hb].
    destruct (eval_expr m theta chi r1 r2 a) as [x|]; [|discriminate].
    destruct (eval_expr m theta chi r1 r2 b) as [y|]; [|discriminate].
    cbn [Py.bind]. intros [= <-]. apply add_not_negative; auto.
  - apply andb_true_iff in Hs as [Ha Hb].
    destruct (eval_expr m theta chi r1 r2 a) as [x|]; [|discriminate].
    destruct (eval_expr m theta chi r1 r2 b) as [y|]; [|discriminate].
    cbn [Py.bind]. intros [= <-]. apply mul_not_negative; auto.
  - apply andb_true_iff in Hs as [Ha Hb].
    destruct (eval_expr m theta chi r1 r2 a) as [x|]; [|discriminate].
    destruct (eval_expr m theta chi r1 r2 b) as [y|]; [|discriminate].
    cbn [Py.bind]. unfold Py.pydiv. destruct (y =? 0)%float eqn:Hy; [discriminate|].
    intros [= <-]. apply div_not_negative; auto.
  - destruct (eval_expr m theta chi r1 r2 a) as [x|]; [|discriminate].
    cbn [Py.bind]. apply float_pow2_not_negative.
Qed.
End NotNegative.

Local Open Scope Z_scope.

Lemma digits2_bounds (p : positive) :
  2 ^ (Z.pos (digits2_pos p) - 1) <= Z.pos p < 2 ^ Z.pos (digits2_pos p).
Proof.
  induction p as [p IH|p IH|]; cbn [digits2_pos]; [| |change (1 <= 1 < 2); lia].
  - rewrite Pos2Z.inj_succ, (Pos2Z.inj_xI p).
    replace (Z.succ (Z.pos (digits2_pos p)) - 1) with (Z.succ (Z.pos (digits2_pos p) - 1)) by lia.
    rewrite !Z.pow_succ_r by lia. lia.
  - rewrite Pos2Z.inj_succ, (Pos2Z.inj_xO p).
    replace (Z.succ (Z.pos (digits2_pos p)) - 1) with (Z.succ (Z.pos (digits2_pos p) - 1)) by lia.
    rewrite !Z.pow_succ_r by lia. lia.
Qed.

Lemma digits2_at_least (p : positive) (k : Z) :
  0 <= k -> 2 ^ k <= Z.pos p -> k + 1 <= Z.pos (digits2_pos p).
Proof.
  intros Hk Hp. destruct (digits2_bounds p) as [_ Hd].
  destruct (Z_lt_le_dec k (Z.pos (digits2_pos p))) as [|Hle]; [lia|].
  assert (2 ^ Z.pos (digits2_pos p) <= 2 ^ k) by (apply Z.pow_le_mono_r; lia).
  lia.
Qed.

Lemma shr_m_shr_1 (mrs : shr_record) :
  0 <= shr_m mrs -> shr_m (shr_1 mrs) = shr_m mrs / 2.
Proof.
  destruct mrs as [m r s]. cbn [shr_m]. intros Hm. rewrite <- Z.div2_div.
  destruct m as [|[p|p|]|p]; try reflexivity; lia.
Qed.

Lemma shr_m_iter (p : positive) (mrs : shr_record) :
  0 <= shr_m mrs -> shr_m (iter_pos shr_1 p mrs) = shr_m mrs / 2 ^ Z.pos p.
Proof.
  revert mrs. induction p as [p IH|p IH|]; intros mrs Hm; cbn [iter_pos].
  - assert (H1 : 0 <= shr_m (shr_1 mrs)).
    { rewrite shr_m_shr_1 by assumption. apply Z.div_pos; lia. }
    assert (H2 : 0 <= shr_m (iter_pos shr_1 p (shr_1 mrs))).
    { rewrite IH by assumption. apply Z.div_pos; [assumption | apply Z.pow_pos_nonneg; lia]. }
    rewrite IH, IH, shr_m_shr_1 by assumption.
    rewrite !Z.div_div by (try apply Z.pow_pos_nonneg; lia).
    f_equal. rewrite (Pos2Z.inj_xI p).
    replace (2 * Z.pos p + 1) with (1 + Z.pos p + Z.pos p) by lia.
    rewrite !Z.pow_add_r by lia. lia.
  - assert (H2 : 0 <= shr_m (iter_pos shr_1 p mrs)).
    { rewrite IH by assumption. apply Z.div_pos; [assumption | apply Z.pow_pos_nonneg; lia]. }
    rewrite IH, IH by assumption.
    rewrite !Z.div_div by (try apply Z.pow_pos_nonneg; lia).
    f_equal. rewrite (Pos2Z.inj_xO p).
    replace (2 * Z.pos p) with (Z.pos p + Z.pos p) by lia.
    rewrite !Z.pow_add_r by lia. lia.
  - now apply shr_m_shr_1.
Qed.

Lemma shr_spec (mrs : shr_record) (e n : Z) :
  0 <= n -> 0 <= shr_m mrs ->
  shr_m (fst (shr mrs e n)) = shr_m mrs / 2 ^ n /\ snd (shr mrs e n) = e + n.
Proof.
  intros Hn Hm. unfold shr. destruct n as [|p|p]; cbn [fst snd].
  - rewrite Z.pow_0_r, Z.div_1_r. lia.
  - split; [now apply shr_m_iter | reflexivity].
  - lia.
Qed.

Lemma shr_fexp_exact (p : positive) (e : Z) :
  53 <= Z.pos (digits2_pos p) ->
  -1074 <= Z.pos (digits2_pos p) + e - 53 ->
  shr_m (fst (shr_fexp prec emax (Z.pos p) e loc_Exact)) =
    Z.pos p / 2 ^ (Z.pos (digits2_pos p) - 53) /\
  snd (shr_fexp prec emax (Z.pos p) e loc_Exact) = Z.pos (digits2_pos p) + e - 53.
Proof.
  intros Hd He. unfold shr_fexp. cbn [Zdigits2 shr_record_of_loc].
  assert (Hf : fexp prec emax (Z.pos (digits2_pos p) + e) - e = Z.pos (digits2_pos p) - 53).
  { unfold fexp, SpecFloat.emin, prec, emax. lia. }
  rewrite Hf.
  destruct (shr_spec {| shr_m := Z.pos p; shr_r := false; shr_s := false |} e
              (Z.pos (digits2_pos p) - 53)) as [H1 H2]; [lia | cbn; lia |].
  split; [exact H1 | rewrite H2; lia].
Qed.

Lemma round_nearest_even_bounds (m : Z) (l : location) :
  m <= round_nearest_even m l <= m + 1.
Proof.
  unfold round_nearest_even. destruct l as [|[]]; try lia.
  destruct (Z.even m); lia.
Qed.

(** Rounding [M * 2^ez], which is at least the normal float [mc * 2^ec],
    gives a float that is at least [mc * 2^ec]. *)
Lemma binary_round_lower (M : positive) (ez : Z) (mc : positive) (ec : Z) :
  2 ^ 52 <= Z.pos mc -> -1074 <= ec -> ez <= ec ->
  Z.pos mc * 2 ^ (ec - ez) <= Z.pos M ->
  match binary_round prec emax false M ez with
  | S754_finite false m e => ec < e \/ (e = ec /\ Z.pos mc <= Z.pos m)
  | S754_infinity false => True
  | _ => False
  end.
Proof.
  intros Hmc Hec Hez HM.
  assert (Hk : 0 < 2 ^ (ec - ez)) by (apply Z.pow_pos_nonneg; lia).
  assert (Hlow : 2 ^ (52 + (ec - ez)) <= Z.pos M).
  { rewrite Z.pow_add_r by lia. nia. }
  assert (Hd := digits2_at_least M (52 + (ec - ez)) ltac:(lia) Hlow).
  assert (HdM := digits2_bounds M).
  set (d := Z.pos (digits2_pos M)) in *.
  unfold binary_round. fold d.
  assert (Hf : fexp prec emax (d + ez) = d + ez - 53).
  { unfold fexp, SpecFloat.emin, prec, emax. lia. }
  rewrite Hf. unfold shl_align.
  destruct (d + ez - 53 - ez) as [|n|n] eqn:Hn; try lia.
  all: unfold binary_round_aux.
  all: destruct (shr_fexp_exact M ez) as [H1 H2]; fold d; try lia.
  all: fold d in H1, H2.
  all: destruct (shr_fexp prec emax (Z.pos M) ez loc_Exact) as [mrs' e'];
       cbn [fst snd] in H1, H2.
  all: assert (Hm1 : 2 ^ 52 <= shr_m mrs')
         by (rewrite H1; apply Z.div_le_lower_bound;
             [apply Z.pow_pos_nonneg; lia
             | rewrite <- Z.pow_add_r by lia;
               replace (d - 53 + 52) with (d - 1) by lia; lia]).
  all: assert (Hmc1 : e' = ec -> Z.pos mc <= shr_m mrs')
         by (intros He; rewrite H1; apply Z.div_le_lower_bound;
             [apply Z.pow_pos_nonneg; lia
             | replace (d - 53) with (ec - ez) by lia; lia]).
  all: pose proof (round_nearest_even_bounds (shr_m mrs') (loc_of_shr_record mrs')) as Hr.
  all: destruct (round_nearest_even (shr_m mrs') (loc_of_shr_record mrs')) as [|q|q];
       try lia.
  all: assert (Hq := digits2_at_least q 52 ltac:(lia) ltac:(lia)).
  all: assert (Hdq := digits2_bounds q).
  all: destruct (shr_fexp_exact q e') as [H3 H4]; try lia.
  all: destruct (shr_fexp prec emax (Z.pos q) e' loc_Exact) as [mrs'' e''];
       cbn [fst snd] in H3, H4.
  all: assert (Hm2 : 2 ^ 52 <= shr_m mrs'')
         by (rewrite H3; apply Z.div_le_lower_bound;
             [apply Z.pow_pos_nonneg; lia
             | rewrite <- Z.pow_add_r by lia;
               replace (Z.pos (digits2_pos q) - 53 + 52)
                 with (Z.pos (digits2_pos q) - 1) by lia; lia]).
  all: assert (Hmc2 : e'' = ec -> Z.pos mc <= shr_m mrs'')
         by (intros He; rewrite H3;
             replace (Z.pos (digits2_pos q) - 53) with 0 by lia;
             rewrite Z.pow_0_r, Z.div_1_r; lia).
  all: assert (H52 : 0 < 2 ^ 52) by (apply Z.pow_pos_nonneg; lia).
  all: destruct (shr_m mrs'') as [|m''|m'']; try lia.
  all: destruct (e'' <=? emax - prec); [|exact I].
  all: destruct (Z_lt_le_dec ec e''); [left; assumption | right; split; [lia | apply Hmc2; lia]].
Qed.

Lemma shl_align_value (m : positive) (e e' : Z) :
  e' <= e -> Z.pos (fst (shl_align m e e')) = Z.pos m * 2 ^ (e - e').
Proof.
  intros He. unfold shl_align. destruct (e' - e) as [|d|d] eqn:Hd; cbn [fst]; try lia.
  - replace (e - e') with 0 by lia. rewrite Z.pow_0_r. lia.
  - replace (e - e') with (Z.pos d) by lia.
    change (Pos.iter xO m d) with (shift_pos d m).
    rewrite shift_pos_correct. change (Z.pow_pos 2 d) with (2 ^ Z.pos d). lia.
Qed.

Lemma ltb_from_lower (r c t : spec_float) (mc : positive) (ec : Z) :
  c = S754_finite false mc ec ->
  match r with
  | S754_finite false m e => ec < e \/ (e = ec /\ Z.pos mc <= Z.pos m)
  | S754_infinity false | S754_nan => True
  | _ => False
  end ->
  SFltb c t = false -> SFltb (SFabs r) t = false.
Proof.
  intros -> Hr. unfold SFltb.
  destruct r as [s|[]| |[] m e]; try contradiction; cbn [SFabs];
    destruct t as [[]|[]| |[] mt et]; cbn [SFcompare]; try reflexivity;
    try discriminate.
  destruct Hr as [Hr|[-> Hr]].
  - destruct (Z.compare_spec ec et), (Z.compare_spec e et); try reflexivity; try lia;
      try discriminate.
  - destruct (Z.compare_spec ec et); try reflexivity; try discriminate.
    rewrite !Pos.compare_cont_spec. cbn [Pos.switch_Eq].
    destruct (Pos.compare_spec mc mt), (Pos.compare_spec m mt);
      cbn; try reflexivity; try discriminate; lia.
Qed.

Local Close Scope Z_scope.

Lemma far_target_not_within (v tolerance : float) :
  (v <? 0)%float = false -> (1000 <? tolerance)%float = false ->
  within v (-1000) tolerance = false.
Proof.
  rewrite not_negative_spec. unfold within.
  rewrite !FloatAxioms.ltb_spec, FloatAxioms.abs_spec, FloatAxioms.sub_spec.
  change (Prim2SF 1000) with (S754_finite false 8796093022208000 (-43)).
  change (Prim2SF (-1000)) with (S754_finite true 8796093022208000 (-43)).
  intros Hv Ht.
  apply (ltb_from_lower _ _ _ 8796093022208000 (-43) eq_refl); [|exact Ht].
  destruct (Prim2SF v) as [s|[]| |[] mx ex]; try discriminate.
  - right. split; [reflexivity | apply Z.le_refl].
  - exact I.
  - exact I.
  - unfold SF64sub, SFsub. cbn [cond_Zopp Z.sub Z.opp Z.add binary_normalize].
    assert (Hb := shl_align_value 8796093022208000 (-43) (Z.min ex (-43)) ltac:(lia)).
    assert (H := binary_round_lower
                   (fst (shl_align mx ex (Z.min ex (-43))) +
                    fst (shl_align 8796093022208000 (-43) (Z.min ex (-43))))
                   (Z.min ex (-43)) 8796093022208000 (-43)
                   ltac:(lia) ltac:(lia) ltac:(lia)
                   ltac:(rewrite Pos2Z.inj_add, Hb; lia)).
    destruct (binary_round prec emax false _ _) as [s|[]| |[] m e];
      try contradiction; auto.
Qed.

(** * The search in double precision *)

(** ** Outcomes of the search *)

Section Outcome.
Variable m : libm.
Variables r1 r2 target1 target2 tolerance : float.

Lemma matches_not_raises (i j : Z) (e : exn) :
  matches m r1 r2 target1 target2 tolerance i j -> ~ raises_at m r1 r2 i j e.
Proof.
  intros Hm He. apply scan_body_raised with (target1 := target1)
    (target2 := target2) (tolerance := tolerance) in He.
  assert (H := proj2 (scan_body_found m r1 r2 target1 target2 tolerance i j _)
                 (conj Hm eq_refl)).
  congruence.
Qed.

Lemma search_found (p : float * float) :
  find_angles m r1 r2 target1 target2 tolerance = Ok (Some p) <->
  exists i j,
    in_grid i j /\
    matches m r1 r2 target1 target2 tolerance i j /\
    p = (degrees_of i, degrees_of j) /\
    (forall i' j', in_grid i' j' -> scanned_before i' j' i j ->
       ~ matches m r1 r2 target1 target2 tolerance i' j' /\
       forall e, ~ raises_at m r1 r2 i' j' e).
Proof.
  split.
  - intros Hr.
    destruct (scan_stopped m _ _ _ _ _ _ Hr ltac:(discriminate))
      as (i & j & Hg & Hpre & Hb).
    apply scan_body_found in Hb as [Hm ->].
    exists i, j. split; [exact Hg|]. split; [exact Hm|]. split; [reflexivity|].
    intros i' j' Hg' Hb. now apply scan_body_passed, Hpre.
  - intros (i & j & Hg & Hm & -> & Hpre).
    rewrite (scan_first m r1 r2 target1 target2 tolerance i j Hg).
    + now apply scan_body_found.
    + intros i' j' Hg' Hb. now apply scan_body_passed, Hpre.
    + rewrite (proj2 (scan_body_found m r1 r2 target1 target2 tolerance i j _)
                 (conj Hm eq_refl)). discriminate.
Qed.

Lemma search_raised (e : exn) :
  find_angles m r1 r2 target1 target2 tolerance = Raise e <->
  exists i j,
    in_grid i j /\ raises_at m r1 r2 i j e /\
    (forall i' j', in_grid i' j' -> scanned_before i' j' i j ->
       ~ matches m r1 r2 target1 target2 tolerance i' j' /\
       forall e', ~ raises_at m r1 r2 i' j' e').
Proof.
  split.
  - intros Hr.
    destruct (scan_stopped m _ _ _ _ _ _ Hr ltac:(discriminate))
      as (i & j & Hg & Hpre & Hb).
    apply scan_body_raised in Hb.
    exists i, j. split; [exact Hg|]. split; [exact Hb|].
    intros i' j' Hg' Hb'. now apply scan_body_passed, Hpre.
  - intros (i & j & Hg & He & Hpre).
    apply scan_body_raised with (target1 := target1)
      (target2 := target2) (tolerance := tolerance) in He.
    rewrite (scan_first m r1 r2 target1 target2 tolerance i j Hg).
    + exact He.
    + intros i' j' Hg' Hb. now apply scan_body_passed, Hpre.
    + rewrite He. discriminate.
Qed.

Lemma search_none :
  find_angles m r1 r2 target1 target2 tolerance = Ok None <->
  (forall i j, in_grid i j ->
     ~ matches m r1 r2 target1 target2 tolerance i j /\
     forall e, ~ raises_at m r1 r2 i j e).
Proof.
  rewrite scan_exhausted. split; intros H i j Hg; now apply scan_body_passed, H.
Qed.

(** When no grid point matches, the search ends with [None] or with the
    exception of the first grid point that raises. *)
Lemma no_match_outcome :
  (forall i j, in_grid i j -> ~ matches m r1 r2 target1 target2 tolerance i j) ->
  (forall p, find_angles m r1 r2 target1 target2 tolerance <> Ok (Some p)) /\
  (find_angles m r1 r2 target1 target2 tolerance = Ok None <->
   forall i j, in_grid i j -> forall e, ~ raises_at m r1 r2 i j e) /\
  (forall e,
     find_angles m r1 r2 target1 target2 tolerance = Raise e <->
     exists i j,
       in_grid i j /\ raises_at m r1 r2 i j e /\
       forall i' j', in_grid i' j' -> scanned_before i' j' i j ->
         forall e', ~ raises_at m r1 r2 i' j' e').
Proof.
  intros Hno. split; [|split].
  - intros p (i & j & Hg & Hm & _)%search_found. now apply (Hno i j).
  - split.
    + intros H i j Hg. now apply search_none.
    + intros H. apply search_none. intros i j Hg.
      split; [now apply Hno | now apply H].
  - intros e. split.
    + intros (i & j & Hg & He & Hpre)%search_raised.
      exists i, j. split; [exact Hg|]. split; [exact He|].
      intros i' j' Hg' Hb. now apply Hpre.
    + intros (i & j & Hg & He & Hpre). apply search_raised.
      exists i, j. split; [exact Hg|]. split; [exact He|].
      intros i' j' Hg' Hb. split; [now apply Hno | now apply Hpre].
Qed.

(** A whole-grid run of the decision procedure. *)
Lemma falls_through_everywhere :
  falls_through_before m r1 r2 target1 target2 tolerance 721 0 = true ->
  forall i j, in_grid i j ->
    scan_body m r1 r2 target1 target2 tolerance i j = Ok None.
Proof.
  intros H i j Hg.
  apply (falls_through_before_spec m r1 r2 target1 target2 tolerance 721 0 H i j Hg).
  destruct Hg as [Hi Hj]. left. lia.
Qed.
End Outcome.

(** ** The first match *)

(** C1.  If some grid point satisfies both strict residual bounds, and
    every grid point at which an evaluator raises comes after some
    matching grid point in theta-major order, then [find_angles] returns
    [(i/2, j/2)] for the smallest matching [(i, j)] in that order, and this
    grid point satisfies both bounds. *)
Theorem first_match_returned (m : libm) (r1 r2 target1 target2 tolerance : float) :
  (exists i j, in_grid i j /\ matches m r1 r2 target1 target2 tolerance i j) ->
  (forall i' j' e, in_grid i' j' -> raises_at m r1 r2 i' j' e ->
     exists i j, in_grid i j /\ matches m r1 r2 target1 target2 tolerance i j /\
                 scanned_before i j i' j') ->
  exists i j,
    in_grid i j /\
    matches m r1 r2 target1 target2 tolerance i j /\
    (forall i' j', in_grid i' j' ->
       matches m r1 r2 target1 target2 tolerance i' j' ->
       ~ scanned_before i' j' i j) /\
    find_angles m r1 r2 target1 target2 tolerance =
      Ok (Some (degrees_of i, degrees_of j)).
Proof.
  intros (i0 & j0 & Hg0 & Hm0) Hraise.
  destruct (find_angles m r1 r2 target1 target2 tolerance) as [[p|]|e] eqn:Hr.
  - apply search_found in Hr as (i & j & Hg & Hm & -> & Hpre).
    exists i, j. split; [exact Hg|]. split; [exact Hm|]. split; [|reflexivity].
    intros i' j' Hg' Hm' Hb. now apply (Hpre i' j' Hg' Hb).
  - exfalso. rewrite search_none in Hr. now apply (Hr i0 j0 Hg0).
  - exfalso. apply search_raised in Hr as (i & j & Hg & He & Hpre).
    destruct (Hraise i j e Hg He) as (i1 & j1 & Hg1 & Hm1 & Hb1).
    now apply (Hpre i1 j1 Hg1 Hb1).
Qed.

Lemma first_match_returned_witness :
  matches ref_libm 2 (-1) 3.5 0.3125 default_tolerance 27 94 /\
  matches ref_libm 2 (-1) 3.5 0.3125 default_tolerance 27 95 /\
  raises_at ref_libm 2 (-1) 180 0 ZeroDivisionError /\
  find_angles ref_libm 2 (-1) 3.5 0.3125 default_tolerance =
    Ok (Some (13.5, 47)%float).
Proof.
  assert (Hpre := falls_through_before_spec ref_libm 2 (-1) 3.5 0.3125
                    default_tolerance 27 94 ltac:(vm_compute; reflexivity)).
  assert (Hm : matches ref_libm 2 (-1) 3.5 0.3125 default_tolerance 27 94).
  { apply (scan_body_found ref_libm 2 (-1) 3.5 0.3125 default_tolerance 27 94
             (13.5, 47)%float). vm_compute. reflexivity. }
  assert (Hm' : matches ref_libm 2 (-1) 3.5 0.3125 default_tolerance 27 95).
  { apply (scan_body_found ref_libm 2 (-1) 3.5 0.3125 default_tolerance 27 95
             (13.5, 47.5)%float). vm_compute. reflexivity. }
  assert (Hg : in_grid 27 94) by (unfold in_grid; lia).
  split; [exact Hm|]. split; [exact Hm'|].
  split; [left; vm_compute; reflexivity|].
  destruct (first_match_returned ref_libm 2 (-1) 3.5 0.3125 default_tolerance)
    as (i & j & Hgij & Hmij & Hmin & Hres).
  - exists 27%Z, 94%Z. split; assumption.
  - intros i' j' e Hg' He. exists 27%Z, 94%Z. split; [exact Hg|]. split; [exact Hm|].
    destruct (scanned_trichotomy 27 94 i' j') as [Hb|[[-> ->]|Hb]].
    + exfalso. apply Hpre in Hb; [|exact Hg'].
      apply scan_body_passed in Hb as [_ Hb]. now apply (Hb e).
    + exfalso. now apply (matches_not_raises _ _ _ _ _ _ _ _ e Hm).
    + exact Hb.
  - assert (H1 := Hmin 27%Z 94%Z Hg Hm).
    assert (H2 : ~ scanned_before i j 27 94).
    { intros Hb. apply Hpre in Hb; [|exact Hgij].
      apply scan_body_passed in Hb as [Hb _]. contradiction. }
    assert (Hij : i = 27%Z /\ j = 94%Z) by (unfold scanned_before in *; lia).
    destruct Hij as [-> ->]. exact Hres.
Defined.

(** C1, the claim as stated fails: with r1 = 1, r2 = -1 the grid point
    (180, 180) matches the targets 1 and 0, yet the search raises
    [ZeroDivisionError] (at the first grid point, where D ** 2 is 0.0). *)
Lemma first_match_lost_to_exception :
  in_grid 180 180 /\
  matches ref_libm 1 (-1) 1 0 default_tolerance 180 180 /\
  find_angles ref_libm 1 (-1) 1 0 default_tolerance = Raise ZeroDivisionError.
Proof.
  split; [unfold in_grid; lia|]. split.
  - apply (scan_body_found ref_libm 1 (-1) 1 0 default_tolerance 180 180
             (90, 90)%float). vm_compute. reflexivity.
  - vm_compute. reflexivity.
Qed.

(** ** The no-solution result *)

(** C5.  [find_angles] returns [None] if and only if no grid point
    matches and no grid point raises an exception; [None] is neither a
    pair nor an exception. *)
Theorem no_solution_iff (m : libm) (r1 r2 target1 target2 tolerance : float) :
  (find_angles m r1 r2 target1 target2 tolerance = Ok None <->
   forall i j, in_grid i j ->
     ~ matches m r1 r2 target1 target2 tolerance i j /\
     forall e, ~ raises_at m r1 r2 i j e) /\
  (forall p, find_angles m r1 r2 target1 target2 tolerance = Ok None ->
     find_angles m r1 r2 target1 target2 tolerance <> Ok (Some p)) /\
  (forall e, find_angles m r1 r2 target1 target2 tolerance = Ok None ->
     find_angles m r1 r2 target1 target2 tolerance <> Raise e).
Proof.
  split; [apply search_none|]. split; intros x H; rewrite H; discriminate.
Qed.

(** ** The evaluators never return a negative value *)

Lemma square_not_negative (a : float) : (a * a <? 0)%float = false.
Proof.
  rewrite not_negative_spec, FloatAxioms.mul_spec.
  destruct (Prim2SF a) as [[]|[]| |[] ma ea]; cbn [SFmul xorb]; try reflexivity;
    apply round_aux_not_negative.
Qed.

Lemma ref_pow_not_negative (a : float) : (l_pow ref_libm a 2 <? 0)%float = false.
Proof. apply square_not_negative. Qed.

Lemma your_function_formula (m : libm) (theta chi r1 r2 : float) :
  your_function m theta chi r1 r2 = eval_expr m theta chi r1 r2 f1_formula.
Proof. reflexivity. Qed.

Lemma another_function_formula (m : libm) (theta chi r1 r2 : float) :
  another_function m theta chi r1 r2 = eval_expr m theta chi r1 r2 f2_formula.
Proof. reflexivity. Qed.

Section NotNegativeEvaluators.
Variable m : libm.
Hypothesis pow_not_negative : forall a, (l_pow m a 2 <? 0)%float = false.

Lemma your_function_not_below_zero (theta chi r1 r2 v : float) :
  your_function m theta chi r1 r2 = Ok v -> (v <? 0)%float = false.
Proof.
  rewrite your_function_formula.
  now apply eval_expr_not_negative.
Qed.

Lemma another_function_not_below_zero (theta chi r1 r2 v : float) :
  another_function m theta chi r1 r2 = Ok v -> (v <? 0)%float = false.
Proof.
  rewrite another_function_formula.
  now apply eval_expr_not_negative.
Qed.

Lemma far_target_never_matches (r1 r2 target2 tolerance : float) (i j : Z) :
  (1000 <? tolerance)%float = false ->
  ~ matches m r1 r2 (-1000) target2 tolerance i j.
Proof.
  intros Ht (v1 & v2 & H1 & _ & Hw & _).
  apply your_function_not_below_zero in H1.
  rewrite (far_target_not_within v1 tolerance H1 Ht) in Hw. discriminate.
Qed.
End NotNegativeEvaluators.

(** C5, the claim as stated fails: with r1 = 1, r2 = -1 and target1 =
    -1000 no grid point matches, yet the search does not return [None]:
    it raises [ZeroDivisionError]. *)
Lemma no_match_without_no_solution :
  (forall i j, in_grid i j ->
     ~ matches ref_libm 1 (-1) (-1000) 0 default_tolerance i j) /\
  find_angles ref_libm 1 (-1) (-1000) 0 default_tolerance =
    Raise ZeroDivisionError.
Proof.
  split.
  - intros i j _. apply far_target_never_matches; [|reflexivity].
    exact ref_pow_not_negative.
  - vm_compute. reflexivity.
Qed.

(** C10.  With a C library whose [pow(x, 2.0)] is never negative, a value
    returned by [your_function] or by [another_function] is never below
    zero (it is a nonnegative number, a zero, [inf] or [nan]), for all
    arguments. *)
Theorem evaluators_not_negative (m : libm) (theta chi r1 r2 v : float) :
  (forall a, (l_pow m a 2 <? 0)%float = false) ->
  (your_function m theta chi r1 r2 = Ok v -> (v <? 0)%float = false) /\
  (another_function m theta chi r1 r2 = Ok v -> (v <? 0)%float = false).
Proof.
  intros Hpow. split.
  - now apply your_function_not_below_zero.
  - now apply another_function_not_below_zero.
Qed.

Lemma evaluators_not_negative_witness :
  your_function ref_libm (angle_of 27) (angle_of 94) 2 (-1) =
    Ok 0x1.c0c0f9427390bp+1%float /\
  (0x1.c0c0f9427390bp+1 <? 0)%float = false /\
  another_function ref_libm (angle_of 27) (angle_of 94) 2 (-1) =
    Ok 0x1.0e5de99742f9ap-2%float /\
  (0x1.0e5de99742f9ap-2 <? 0)%float = false.
Proof.
  assert (H1 : your_function ref_libm (angle_of 27) (angle_of 94) 2 (-1) =
               Ok 0x1.c0c0f9427390bp+1%float) by (vm_compute; reflexivity).
  assert (H2 : another_function ref_libm (angle_of 27) (angle_of 94) 2 (-1) =
               Ok 0x1.0e5de99742f9ap-2%float) by (vm_compute; reflexivity).
  split; [exact H1|]. split.
  - exact (proj1 (evaluators_not_negative ref_libm _ _ _ _ _ ref_pow_not_negative) H1).
  - split; [exact H2|].
    exact (proj2 (evaluators_not_negative ref_libm _ _ _ _ _ ref_pow_not_negative) H2).
Defined.

(** C10, the claim as stated fails: with r1 = r2 = 2^-600 at theta = chi =
    0 the denominator D is 2^-599, not zero, but D ** 2 underflows to 0.0
    and both functions raise [ZeroDivisionError] instead of returning a
    value. *)
Lemma nonzero_D_without_value :
  eval_expr ref_libm 0 0 0x1p-600 0x1p-600 D_formula = Ok 0x1p-599%float /\
  (0x1p-599 =? 0)%float = false /\
  your_function ref_libm 0 0 0x1p-600 0x1p-600 = Raise ZeroDivisionError /\
  another_function ref_libm 0 0 0x1p-600 0x1p-600 = Raise ZeroDivisionError.
Proof. repeat split; vm_compute; reflexivity. Qed.

(** ** A target below every value *)

(** C9.  With target1 = -1000, a tolerance that is not greater than 1000,
    and a C library whose [pow(x, 2.0)] is never negative: no grid point
    matches, [find_angles] never returns a pair, and it returns [None]
    exactly when no grid point raises an exception. *)
Theorem far_target_no_solution (m : libm) (r1 r2 target2 tolerance : float) :
  (forall a, (l_pow m a 2 <? 0)%float = false) ->
  (1000 <? tolerance)%float = false ->
  (forall i j, ~ matches m r1 r2 (-1000) target2 tolerance i j) /\
  (forall p, find_angles m r1 r2 (-1000) target2 tolerance <> Ok (Some p)) /\
  (find_angles m r1 r2 (-1000) target2 tolerance = Ok None <->
   forall i j, in_grid i j -> forall e, ~ raises_at m r1 r2 i j e).
Proof.
  intros Hpow Ht.
  assert (Hno : forall i j, ~ matches m r1 r2 (-1000) target2 tolerance i j).
  { intros i j. now apply far_target_never_matches. }
  split; [exact Hno|].
  destruct (no_match_outcome m r1 r2 (-1000) target2 tolerance
              (fun i j _ => Hno i j)) as (H1 & H2 & _).
  split; assumption.
Qed.

Lemma far_target_no_solution_witness :
  (1000 <? default_tolerance)%float = false /\
  find_angles ref_libm 3 (-2) (-1000) 0 default_tolerance = Ok None.
Proof.
  split; [reflexivity|].
  apply (far_target_no_solution ref_libm 3 (-2) 0 default_tolerance
           ref_pow_not_negative eq_refl).
  intros i j Hg.
  apply (scan_body_passed ref_libm 3 (-2) (-1000) 0 default_tolerance i j).
  apply falls_through_everywhere; [vm_cast_no_check (@eq_refl bool true) | exact Hg].
Defined.

(** C9, the claim as stated fails: a tolerance above 1000 lets the first
    grid point match, and with r1 = 1, r2 = -1 the search raises
    [ZeroDivisionError] instead of returning [None]. *)
Lemma far_target_still_answers :
  find_angles ref_libm 1 1 (-1000) 0 2000 = Ok (Some (0, 0)%float) /\
  find_angles ref_libm 1 (-1) (-1000) 0 default_tolerance =
    Raise ZeroDivisionError.
Proof. split; vm_compute; reflexivity. Qed.

(** ** A zero divisor *)

Lemma nan_residual_not_within (v target tolerance : float) :
  PrimFloat.is_nan (v - target) = true -> within v target tolerance = false.
Proof.
  intros H%is_nan_spec. unfold within.
  rewrite FloatAxioms.ltb_spec, FloatAxioms.abs_spec, H. reflexivity.
Qed.

Lemma zero_divisor_raises (m : libm) (r1 r2 : float) (i j : Z) :
  zero_divisor m r1 r2 i j ->
  (exists n, numerator1 m (angle_of i) (angle_of j) r1 r2 = Ok n) ->
  your_function m (angle_of i) (angle_of j) r1 r2 = Raise ZeroDivisionError.
Proof.
  intros (d & Hd & Hz) (n & Hn). rewrite your_function_parts, Hn, Hd.
  cbn [Py.bind]. unfold Py.pydiv. now rewrite Hz.
Qed.

Lemma zero_divisor_no_value (m : libm) (r1 r2 : float) (i j : Z) (v : float) :
  zero_divisor m r1 r2 i j ->
  your_function m (angle_of i) (angle_of j) r1 r2 <> Ok v.
Proof.
  intros (d & Hd & Hz). rewrite your_function_parts, Hd.
  destruct (numerator1 m _ _ r1 r2) as [n|e]; cbn [Py.bind]; [|discriminate].
  unfold Py.pydiv. rewrite Hz. discriminate.
Qed.

(** C4.  A grid point where the divisor D ** 2 evaluates to 0.0 (the
    numerator of f1 having been computed) is not skipped: when the scan
    reaches it, [find_angles] raises [ZeroDivisionError].  Such a grid
    point never matches, and a grid point with a nan residual is passed
    over as not matching. *)
Theorem zero_divisor_propagates
        (m : libm) (r1 r2 target1 target2 tolerance : float) :
  (forall i j,
     in_grid i j ->
     zero_divisor m r1 r2 i j ->
     (exists n, numerator1 m (angle_of i) (angle_of j) r1 r2 = Ok n) ->
     (forall i' j', in_grid i' j' -> scanned_before i' j' i j ->
        ~ matches m r1 r2 target1 target2 tolerance i' j' /\
        forall e, ~ raises_at m r1 r2 i' j' e) ->
     find_angles m r1 r2 target1 target2 tolerance = Raise ZeroDivisionError) /\
  (forall i j, zero_divisor m r1 r2 i j ->
     ~ matches m r1 r2 target1 target2 tolerance i j) /\
  (forall i j v1 v2,
     your_function m (angle_of i) (angle_of j) r1 r2 = Ok v1 ->
     another_function m (angle_of i) (angle_of j) r1 r2 = Ok v2 ->
     PrimFloat.is_nan (v1 - target1) = true \/
     PrimFloat.is_nan (v2 - target2) = true ->
     scan_body m r1 r2 target1 target2 tolerance i j = Ok None).
Proof.
  split; [|split].
  - intros i j Hg Hz Hn Hpre. apply search_raised.
    exists i, j. split; [exact Hg|]. split; [|exact Hpre].
    left. now apply zero_divisor_raises.
  - intros i j Hz (v1 & v2 & H1 & _). now apply (zero_divisor_no_value m r1 r2 i j v1).
  - intros i j v1 v2 H1 H2 Hnan. rewrite scan_body_steps, H1, H2. cbn [Py.bind].
    destruct Hnan as [Hnan|Hnan]; rewrite (nan_residual_not_within _ _ _ Hnan);
      [|rewrite andb_false_r]; reflexivity.
Qed.

Lemma zero_divisor_propagates_witness :
  zero_divisor ref_libm 2 (-1) 180 0 /\
  find_angles ref_libm 2 (-1) (-1000) 0 default_tolerance =
    Raise ZeroDivisionError /\
  scan_body ref_libm 1 1 nan 0 default_tolerance 0 0 = Ok None.
Proof.
  assert (Hz : zero_divisor ref_libm 2 (-1) 180 0).
  { exists 0%float. split; vm_compute; reflexivity. }
  assert (Hpre := falls_through_before_spec ref_libm 2 (-1) (-1000) 0
                    default_tolerance 180 0
                    ltac:(vm_cast_no_check (@eq_refl bool true))).
  destruct (zero_divisor_propagates ref_libm 2 (-1) (-1000) 0 default_tolerance)
    as (H1 & _ & _).
  destruct (zero_divisor_propagates ref_libm 1 1 nan 0 default_tolerance)
    as (_ & _ & H3).
  split; [exact Hz|]. split.
  - apply (H1 180%Z 0%Z); [unfold in_grid; lia | exact Hz | |].
    + eexists. vm_compute. reflexivity.
    + intros i' j' Hg' Hb. now apply scan_body_passed, Hpre.
  - apply (H3 0%Z 0%Z 1%float 0%float); [vm_compute; reflexivity ..|].
    left. reflexivity.
Defined.

(** C4, the claim as stated fails: with r1 = 1, r2 = -1 the divisor is
    0.0 at the first grid point, and the search raises
    [ZeroDivisionError] instead of skipping the point. *)
Lemma zero_divisor_not_skipped :
  in_grid 0 0 /\
  zero_divisor ref_libm 1 (-1) 0 0 /\
  find_angles ref_libm 1 (-1) 1 0 default_tolerance = Raise ZeroDivisionError.
Proof.
  split; [unfold in_grid; lia|]. split.
  - exists 0%float. split; vm_compute; reflexivity.
  - vm_compute. reflexivity.
Qed.

(** ** [main] *)

Lemma main_banner (m : libm) (args : arguments) (out : list line) :
  main m args out =
  match find_angles m (arg_r1 args) (arg_r2 args) (arg_target1 args)
          (arg_target2 args) (arg_tolerance args) with
  | Raise e => (out ++ banner args, Raise e)
  | Ok None => (out ++ banner args ++ [NoSolutionsLine], Ok 1%Z)
  | Ok (Some (theta, chi)) =>
      match your_function m (radians theta) (radians chi) (arg_r1 args) (arg_r2 args) with
      | Raise e =>
          (out ++ banner args ++ [FoundLine; ThetaLine theta; ChiLine chi; ValuesLine],
           Raise e)
      | Ok f1 =>
          match another_function m (radians theta) (radians chi)
                  (arg_r1 args) (arg_r2 args) with
          | Raise e =>
              (out ++ banner args ++
                 [FoundLine; ThetaLine theta; ChiLine chi; ValuesLine; F1Line f1],
               Raise e)
          | Ok f2 =>
              (out ++ banner args ++
                 [FoundLine; ThetaLine theta; ChiLine chi; ValuesLine;
                  F1Line f1; F2Line f2],
               Ok 0%Z)
          end
      end
  end.
Proof.
  unfold main, io_bind, print, eval, io_ret, banner.
  destruct (find_angles m _ _ _ _ _) as [[[theta chi]|]|e].
  - rewrite !main_radians.
    destruct (your_function m _ _ _ _) as [f1|e1].
    + destruct (another_function m _ _ _ _) as [f2|e2];
        repeat rewrite <- app_assoc; reflexivity.
    + repeat rewrite <- app_assoc; reflexivity.
  - repeat rewrite <- app_assoc; reflexivity.
  - repeat rewrite <- app_assoc; reflexivity.
Qed.

(** ** Targets and tolerances that are not finite *)

Lemma nonfinite_never_matches
      (m : libm) (r1 r2 target1 target2 tolerance : float) (i j : Z) :
  PrimFloat.is_finite target1 = false \/ PrimFloat.is_finite target2 = false \/
  PrimFloat.is_nan tolerance = true \/ tolerance = neg_infinity ->
  ~ matches m r1 r2 target1 target2 tolerance i j.
Proof.
  intros H (v1 & v2 & _ & _ & Hw1 & Hw2).
  destruct H as [H|[H|[H|Heq]]]; [| | |subst tolerance].
  - rewrite within_not_finite_target in Hw1; [discriminate | exact H].
  - rewrite within_not_finite_target in Hw2; [discriminate | exact H].
  - rewrite within_nan_tolerance in Hw1; [discriminate | exact H].
  - rewrite within_neg_infinity_tolerance in Hw1. discriminate.
Qed.

(** C6.  No input is rejected: a target that is nan or infinite, or a
    tolerance that is nan or -inf, is scanned like any other.  With such
    an input no grid point matches and [find_angles] never returns a pair;
    it returns [None] exactly when no grid point raises, and otherwise
    raises the exception of the first grid point that raises.  [main]
    prints its five banner lines and then either the no-solution line,
    returning 1, or lets that exception escape. *)
Theorem nonfinite_inputs_are_scanned
        (m : libm) (r1 r2 target1 target2 tolerance : float) :
  PrimFloat.is_finite target1 = false \/ PrimFloat.is_finite target2 = false \/
  PrimFloat.is_nan tolerance = true \/ tolerance = neg_infinity ->
  (forall i j, ~ matches m r1 r2 target1 target2 tolerance i j) /\
  (forall p, find_angles m r1 r2 target1 target2 tolerance <> Ok (Some p)) /\
  (find_angles m r1 r2 target1 target2 tolerance = Ok None <->
   forall i j, in_grid i j -> forall e, ~ raises_at m r1 r2 i j e) /\
  (forall e,
     find_angles m r1 r2 target1 target2 tolerance = Raise e <->
     exists i j,
       in_grid i j /\ raises_at m r1 r2 i j e /\
       forall i' j', in_grid i' j' -> scanned_before i' j' i j ->
         forall e', ~ raises_at m r1 r2 i' j' e') /\
  (forall out,
     let args := {| arg_r1 := r1; arg_r2 := r2; arg_target1 := target1;
                    arg_target2 := target2; arg_tolerance := tolerance |} in
     main m args out = (out ++ banner args ++ [NoSolutionsLine], Ok 1%Z) \/
     exists e, main m args out = (out ++ banner args, Raise e)).
Proof.
  intros H.
  assert (Hno : forall i j, ~ matches m r1 r2 target1 target2 tolerance i j).
  { intros i j. now apply nonfinite_never_matches. }
  destruct (no_match_outcome m r1 r2 target1 target2 tolerance
              (fun i j _ => Hno i j)) as (H1 & H2 & H3).
  split; [exact Hno|]. split; [exact H1|]. split; [exact H2|]. split; [exact H3|].
  intros out args. rewrite main_banner. cbn [arg_r1 arg_r2 arg_target1 arg_target2 arg_tolerance args].
  destruct (find_angles m r1 r2 target1 target2 tolerance) as [[p|]|e] eqn:Hr.
  - now destruct (H1 p).
  - now left.
  - right. now exists e.
Qed.

Lemma nonfinite_inputs_are_scanned_witness :
  PrimFloat.is_finite nan = false /\
  find_angles ref_libm 2 (-1) nan 0 default_tolerance = Raise ZeroDivisionError.
Proof.
  split; [reflexivity|].
  assert (Hpre := falls_through_before_spec ref_libm 2 (-1) nan 0
                    default_tolerance 180 0
                    ltac:(vm_cast_no_check (@eq_refl bool true))).
  destruct (nonfinite_inputs_are_scanned ref_libm 2 (-1) nan 0 default_tolerance
              (or_introl eq_refl)) as (_ & _ & _ & H & _).
  apply H. exists 180%Z, 0%Z. split; [unfold in_grid; lia|]. split.
  - left. vm_compute. reflexivity.
  - intros i' j' Hg' Hb e'.
    now apply (scan_body_passed ref_libm 2 (-1) nan 0 default_tolerance i' j'), Hpre.
Defined.

(** C6, the claim as stated fails: an infinite tolerance is not rejected;
    the scan runs and returns its first grid point as a solution. *)
Lemma infinite_tolerance_accepted :
  PrimFloat.is_finite infinity = false /\
  find_angles ref_libm 1 1 1 0 infinity = Ok (Some (0, 0)%float).
Proof. split; vm_compute; reflexivity. Qed.

(** ** The angles enter through squares *)




(** ** The formulas *)

Lemma real_D_formula (theta chi r1 r2 : R) :
  real_value theta chi r1 r2 D_formula = D_spec theta chi r1 r2.
Proof. reflexivity. Qed.

(** C2.  [your_function] and [another_function] evaluate the formulas f1
    and f2 of the specification in double precision, operation by
    operation; both formulas are quotients by the square of the same D.
    Read over the reals the formulas are the closed forms of the
    specification. *)
Theorem evaluators_follow_formulas :
  (forall m theta chi r1 r2,
     your_function m theta chi r1 r2 = eval_expr m theta chi r1 r2 f1_formula /\
     another_function m theta chi r1 r2 = eval_expr m theta chi r1 r2 f2_formula) /\
  (exists n1 n2,
     f1_formula = Div n1 (Sq D_formula) /\ f2_formula = Div n2 (Sq D_formula)) /\
  (forall theta chi r1 r2 : R,
     real_value theta chi r1 r2 D_formula = D_spec theta chi r1 r2 /\
     real_value theta chi r1 r2 f1_formula = f1_spec theta chi r1 r2 /\
     real_value theta chi r1 r2 f2_formula = f2_spec theta chi r1 r2).
Proof.
  split; [|split].
  - intros. split; reflexivity.
  - eexists. eexists. split; reflexivity.
  - intros. repeat split; reflexivity.
Qed.

(** C2, the claim as stated fails: with r1 = r2 = 2^600 at theta = chi = 0
    the formula has a value (D = 2^601 is not zero), but [your_function]
    raises [OverflowError]. *)
Lemma formula_value_lost_to_overflow :
  real_value 0 0 (2 ^ 600) (2 ^ 600) D_formula <> 0%R /\
  eval_expr ref_libm 0 0 0x1p600 0x1p600 D_formula = Ok 0x1p601%float /\
  your_function ref_libm 0 0 0x1p600 0x1p600 = Raise OverflowError.
Proof.
  split; [|split; vm_compute; reflexivity].
  rewrite real_D_formula. unfold D_spec. rewrite sin_0, cos_0.
  assert (H : (0 < 2 ^ 600)%R) by (apply pow_lt; lra).
  intros Hz. ring_simplify in Hz. lra.
Qed.

(** * Further properties of the double-precision model *)

(** ** When the search raises *)

(** X2.  [find_angles] raises [e] exactly when an evaluator raises [e] at
    some grid point and no grid point scanned before it matches or
    raises. *)
Theorem find_angles_raises_iff
        (m : libm) (r1 r2 target1 target2 tolerance : float) (e : exn) :
  find_angles m r1 r2 target1 target2 tolerance = Raise e <->
  exists i j,
    in_grid i j /\ raises_at m r1 r2 i j e /\
    (forall i' j', in_grid i' j' -> scanned_before i' j' i j ->
       ~ matches m r1 r2 target1 target2 tolerance i' j' /\
       forall e', ~ raises_at m r1 r2 i' j' e').
Proof. apply search_raised. Qed.

(** ** Where [ZeroDivisionError] comes from *)

Lemma math_1_raises (func : float -> float) (x : float) (e : exn) :
  math_1 func x = Raise e -> e = ValueError.
Proof.
  unfold math_1.
  destruct (PrimFloat.is_nan (func x) && negb (PrimFloat.is_nan x));
    [intros [= <-]; reflexivity|].
  destruct (PrimFloat.is_infinity (func x) && PrimFloat.is_finite x);
    [intros [= <-]; reflexivity | discriminate].
Qed.

Lemma float_pow2_raises (pow : float -> float -> float) (x : float) (e : exn) :
  float_pow2 pow x = Raise e -> e = OverflowError.
Proof.
  unfold float_pow2.
  destruct (PrimFloat.is_nan x); [discriminate|].
  destruct (PrimFloat.is_infinity x); [discriminate|].
  destruct (x =? 0)%float; [discriminate|].
  destruct (_ =? 1)%float; [discriminate|].
  destruct (PrimFloat.is_infinity _); [intros [= <-]; reflexivity | discriminate].
Qed.

Lemma div_free_no_zero_division
      (m : libm) (theta chi r1 r2 : float) (e : expr) :
  div_free e = true ->
  eval_expr m theta chi r1 r2 e <> Raise ZeroDivisionError.
Proof.
  induction e as [n| | |a|a|a IHa b IHb|a IHa b IHb|a IHa b IHb|a IHa b IHb|a IHa];
    cbn [div_free eval_expr]; intros Hd; try discriminate.
  - intros H%math_1_raises. discriminate.
  - intros H%math_1_raises. discriminate.
  - apply andb_true_iff in Hd as [Ha Hb]. unfold Py.lift2.
    destruct (eval_expr m theta chi r1 r2 a) as [x|ea]; cbn [Py.bind];
      [|now apply IHa].
    destruct (eval_expr m theta chi r1 r2 b) as [y|eb]; cbn [Py.bind];
      [discriminate | now apply IHb].
  - apply andb_true_iff in Hd as [Ha Hb]. unfold Py.lift2.
    destruct (eval_expr m theta chi r1 r2 a) as [x|ea]; cbn [Py.bind];
      [|now apply IHa].
    destruct (eval_expr m theta chi r1 r2 b) as [y|eb]; cbn [Py.bind];
      [discriminate | now apply IHb].
  - apply andb_true_iff in Hd as [Ha Hb]. unfold Py.lift2.
    destruct (eval_expr m theta chi r1 r2 a) as [x|ea]; cbn [Py.bind];
      [|now apply IHa].
    destruct (eval_expr m theta chi r1 r2 b) as [y|eb]; cbn [Py.bind];
      [discriminate | now apply IHb].
  - unfold Py.power2.
    destruct (eval_expr m theta chi r1 r2 a) as [x|ea]; cbn [Py.bind];
      [|now apply IHa].
    intros H%float_pow2_raises. discriminate.
Qed.

Lemma quotient_zero_division (n d : comp) :
  n <> Raise ZeroDivisionError -> d <> Raise ZeroDivisionError ->
  (Py.truediv n d = Raise ZeroDivisionError <->
   exists x y, n = Ok x /\ d = Ok y /\ (y =? 0)%float = true).
Proof.
  intros Hn Hd. unfold Py.truediv, Py.pydiv. split.
  - destruct n as [x|e]; cbn [Py.bind]; [|intros [= ->]; contradiction].
    destruct d as [y|e]; cbn [Py.bind]; [|intros [= ->]; contradiction].
    destruct (y =? 0)%float eqn:Hy; [|discriminate].
    intros _. now exists x, y.
  - intros (x & y & -> & -> & Hy). cbn [Py.bind]. now rewrite Hy.
Qed.

(** X8.  An evaluator raises [ZeroDivisionError] exactly when its
    numerator and the shared divisor D ** 2 have been computed and the
    divisor is 0.0 (or -0.0); nothing before the final division raises
    it. *)
Theorem zero_division_origin (m : libm) (theta chi r1 r2 : float) :
  (your_function m theta chi r1 r2 = Raise ZeroDivisionError <->
   exists n d, numerator1 m theta chi r1 r2 = Ok n /\
               denominator m theta chi r1 r2 = Ok d /\ (d =? 0)%float = true) /\
  (another_function m theta chi r1 r2 = Raise ZeroDivisionError <->
   exists n d, numerator2 m theta chi r1 r2 = Ok n /\
               denominator m theta chi r1 r2 = Ok d /\ (d =? 0)%float = true).
Proof.
  split.
  - change (your_function m theta chi r1 r2)
      with (Py.truediv (numerator1 m theta chi r1 r2) (denominator m theta chi r1 r2)).
    apply quotient_zero_division.
    + apply (div_free_no_zero_division m theta chi r1 r2 (numerator_of f1_formula)).
      reflexivity.
    + apply (div_free_no_zero_division m theta chi r1 r2 (Sq D_formula)).
      reflexivity.
  - change (another_function m theta chi r1 r2)
      with (Py.truediv (numerator2 m theta chi r1 r2) (denominator m theta chi r1 r2)).
    apply quotient_zero_division.
    + apply (div_free_no_zero_division m theta chi r1 r2 (numerator_of f2_formula)).
      reflexivity.
    + apply (div_free_no_zero_division m theta chi r1 r2 (Sq D_formula)).
      reflexivity.
Qed.

(** ** Tolerances that admit nothing *)

(** X3.  The residual test is strict: with a tolerance that is zero or
    negative no grid point matches, [find_angles] never returns a pair, and
    it returns [None] exactly when no grid point raises. *)
Theorem nonpositive_tolerance_finds_nothing
        (m : libm) (r1 r2 target1 target2 tolerance : float) :
  (tolerance <=? 0)%float = true ->
  (forall i j, ~ matches m r1 r2 target1 target2 tolerance i j) /\
  (forall p, find_angles m r1 r2 target1 target2 tolerance <> Ok (Some p)) /\
  (find_angles m r1 r2 target1 target2 tolerance = Ok None <->
   forall i j, in_grid i j -> forall e, ~ raises_at m r1 r2 i j e).
Proof.
  intros Ht.
  assert (Hno : forall i j, ~ matches m r1 r2 target1 target2 tolerance i j).
  { intros i j (v1 & v2 & _ & _ & Hw & _).
    rewrite within_nonpositive_tolerance in Hw; [discriminate | exact Ht]. }
  destruct (no_match_outcome m r1 r2 target1 target2 tolerance
              (fun i j _ => Hno i j)) as (H1 & H2 & _).
  split; [exact Hno|]. split; assumption.
Qed.

Lemma nonpositive_tolerance_finds_nothing_witness :
  your_function ref_libm (angle_of 0) (angle_of 0) 1 1 = Ok 1%float /\
  another_function ref_libm (angle_of 0) (angle_of 0) 1 1 = Ok 0%float /\
  ~ matches ref_libm 1 1 1 0 0 0 0 /\
  find_angles ref_libm 1 1 1 0 0 <> Ok (Some (0, 0)%float).
Proof.
  split; [vm_compute; reflexivity|]. split; [vm_compute; reflexivity|].
  destruct (nonpositive_tolerance_finds_nothing ref_libm 1 1 1 0 0 eq_refl)
    as (H1 & H2 & _).
  split; [apply H1 | apply H2].
Defined.

(** ** [main] *)

(** X14.  [main], from the parsed arguments: it prints the five banner
    lines and runs the search.  On [None] it prints the no-solution line
    and returns 1; an exception of the search escapes after the banner; on
    a pair it prints the angles and re-evaluates both functions at the
    radians computed back from the returned degrees, returning 0 when both
    return, and letting an exception of the re-evaluation escape. *)
Theorem main_exit_status (m : libm) (args : arguments) (out : list line) :
  let search := find_angles m (arg_r1 args) (arg_r2 args) (arg_target1 args)
                  (arg_target2 args) (arg_tolerance args) in
  (search = Ok None ->
   main m args out = (out ++ banner args ++ [NoSolutionsLine], Ok 1%Z)) /\
  (forall e, search = Raise e -> main m args out = (out ++ banner args, Raise e)) /\
  (forall theta chi,
     search = Ok (Some (theta, chi)) ->
     let f1 := your_function m (radians theta) (radians chi) (arg_r1 args) (arg_r2 args) in
     let f2 := another_function m (radians theta) (radians chi) (arg_r1 args) (arg_r2 args) in
     let found := [FoundLine; ThetaLine theta; ChiLine chi; ValuesLine] in
     (forall v1 v2, f1 = Ok v1 -> f2 = Ok v2 ->
        main m args out =
        (out ++ banner args ++ found ++ [F1Line v1; F2Line v2], Ok 0%Z)) /\
     (forall e, f1 = Raise e ->
        main m args out = (out ++ banner args ++ found, Raise e)) /\
     (forall v1 e, f1 = Ok v1 -> f2 = Raise e ->
        main m args out = (out ++ banner args ++ found ++ [F1Line v1], Raise e))).
Proof.
  intros search. subst search. rewrite main_banner.
  split; [|split].
  - intros ->. reflexivity.
  - intros e ->. reflexivity.
  - intros theta chi ->. cbv zeta. split; [|split].
    + intros v1 v2 -> ->. reflexivity.
    + intros e ->. reflexivity.
    + intros v1 e -> ->. reflexivity.
Qed.

Lemma main_exit_status_witness :
  main ref_libm {| arg_r1 := 2; arg_r2 := -1; arg_target1 := 3.5;
                   arg_target2 := 0.3125; arg_tolerance := default_tolerance |} [] =
  ([SearchingLine; ParametersLine 2 (-1); TargetsLine 3.5 0.3125;
    ToleranceLine default_tolerance; WaitLine;
    FoundLine; ThetaLine 13.5; ChiLine 47; ValuesLine;
    F1Line 0x1.c0c0f9427390bp+1; F2Line 0x1.0e5de99742f9ap-2], Ok 0%Z).
Proof.
  destruct (main_exit_status ref_libm
              {| arg_r1 := 2; arg_r2 := -1; arg_target1 := 3.5;
                 arg_target2 := 0.3125; arg_tolerance := default_tolerance |} [])
    as (_ & _ & H).
  destruct (H 13.5%float 47%float ltac:(vm_compute; reflexivity)) as (H1 & _).
  apply (H1 0x1.c0c0f9427390bp+1%float 0x1.0e5de99742f9ap-2%float);
    vm_compute; reflexivity.
Defined.

(** X17.  [main] computes the radians back from the returned degrees as
    [degrees * math.pi / 180]; for 219 of the 721 steps this is not the
    [i / 360 * math.pi] at which the search evaluated the functions (step
    13 is the first), so the values [main] prints are evaluated at a
    slightly different angle than the match was found at. *)
Theorem radians_of_degrees_differ :
  length (filter roundtrip_differs (range 0 721)) = 219%nat /\
  find roundtrip_differs (range 0 721) = Some 13%Z /\
  (forall i, roundtrip_differs i = false -> radians (degrees_of i) = angle_of i).
Proof.
  split; [vm_compute; reflexivity|]. split; [vm_compute; reflexivity|].
  intros i H. unfold roundtrip_differs in H.
  apply negb_false_iff in H. now apply FloatAxioms.Leibniz.eqb_spec in H.
Qed.
